(** * Template-driven deck assembly: a shallow embedding of
      [ppt_builder.py], [llm_providers.py] and [app.py].

    Python objects are records, [for]/[return] loops are structural
    recursions over the list being enumerated, and [try]/[except] is an
    explicit result type.  The python-pptx object model is kept to the
    attributes the source reads or writes; a shape of the uploaded document
    may lack an attribute the source probes with [hasattr], and reading it
    may raise, since the source guards against both.  [random.shuffle] draws
    from an explicit random source.  A [str] is a sequence of code points:
    [len], slices, [in] and [strip] count and compare code points. *)

From Stdlib Require Import String Ascii NArith ZArith Lia Bool.
From Stdlib Require Import Decimal DecimalString.
From stdpp Require Import base option list.

Open Scope list_scope.
Open Scope nat_scope.

(** ** Exceptions *)

Inductive exn :=
  | IndexError | KeyError | AttributeError | ValueError | BadZipFile
  | UnidentifiedImageError | SaveError | ProviderError.

Inductive result (A : Type) :=
  | Ok (a : A)
  | Raise (e : exn).
Arguments Ok {A} a.
Arguments Raise {A} e.

#[global] Instance result_ret : MRet result := fun _ a => Ok a.
#[global] Instance result_bind : MBind result := fun _ _ k m =>
  match m with Ok a => k a | Raise e => Raise e end.

(** [try: body / except Exception: handler] where the handler yields [d]. *)
Definition try_except {A} (body : result A) (d : A) : A :=
  match body with Ok a => a | Raise _ => d end.

Definition is_ok {A} (m : result A) : bool :=
  match m with Ok _ => true | Raise _ => false end.

(** ** Strings *)

(** A [str] is the list of its code points. *)
Abbreviation codepoint := N (only parsing).
Abbreviation str := (list N) (only parsing).

(** The literals of the source are ASCII; a literal with any other byte is
    refused. *)
Inductive literal := LitEnd | LitChar (c : N) (rest : literal).

Fixpoint literal_of_bytes (l : list Byte.byte) : option literal :=
  match l with
  | [] => Some LitEnd
  | b :: r =>
      if (Byte.to_N b <? 128)%N
      then LitChar (Byte.to_N b) <$> literal_of_bytes r
      else None
  end.

Fixpoint bytes_of_literal (s : literal) : option (list Byte.byte) :=
  match s with
  | LitEnd => Some []
  | LitChar c r =>
      if (c <? 128)%N
      then b ← Byte.of_N c; l ← bytes_of_literal r; Some (b :: l)
      else None
  end.

Declare Scope str_scope.
Delimit Scope str_scope with str.
#[warnings="-via-type-mismatch,-via-type-remapping"]
String Notation list literal_of_bytes bytes_of_literal
  (via literal mapping [[nil] => LitEnd, [cons] => LitChar]) : str_scope.
Open Scope str_scope.

(** [a == b] *)
Fixpoint str_eqb (a b : str) : bool :=
  match a, b with
  | [], [] => true
  | x :: a, y :: b => (x =? y)%N && str_eqb a b
  | _, _ => false
  end.
Infix "==" := str_eqb (at level 70, no associativity) : str_scope.

(** [s.startswith(p)] *)
Fixpoint str_prefix (p s : str) : bool :=
  match p, s with
  | [], _ => true
  | x :: p, y :: s => (x =? y)%N && str_prefix p s
  | _ :: _, [] => false
  end.

(** [needle in hay] *)
Fixpoint str_in (needle hay : str) : bool :=
  str_prefix needle hay ||
  match hay with
  | [] => false
  | _ :: r => str_in needle r
  end.

(** [s[:n]] and [s[n:]] *)
Definition str_take (n : nat) (s : str) : str := take n s.
Definition str_drop (n : nat) (s : str) : str := drop n s.

(** [str.lower].  On a string of ASCII characters it maps A-Z to a-z and
    nothing else.  On other strings the result depends on the Unicode
    tables of the interpreter (and on the context of a character, as for
    the capital sigma): there it is a function the runtime supplies. *)
Class Runtime := py_lower : str -> str.

Definition is_ascii (c : codepoint) : bool := (c <? 128)%N.

Definition lower_ascii (c : codepoint) : codepoint :=
  if (65 <=? c)%N && (c <=? 90)%N then (c + 32)%N else c.

Definition lower {R : Runtime} (s : str) : str :=
  if forallb is_ascii s then map lower_ascii s else py_lower s.

(** [str.isspace] of a character: the white space of [str.strip] and of
    the pattern [\s] on [str]. *)
Definition is_space (c : codepoint) : bool :=
  ((9 <=? c) && (c <=? 13) || (28 <=? c) && (c <=? 32)
   || (c =? 133) || (c =? 160) || (c =? 5760)
   || (8192 <=? c) && (c <=? 8202)
   || (c =? 8232) || (c =? 8233) || (c =? 8239) || (c =? 8287)
   || (c =? 12288))%N.

Fixpoint lstrip (s : str) : str :=
  match s with
  | [] => []
  | c :: r => if is_space c then lstrip r else s
  end.

Fixpoint rstrip (s : str) : str :=
  match s with
  | [] => []
  | c :: r =>
      match rstrip r with
      | [] => if is_space c then [] else [c]
      | r' => c :: r'
      end
  end.

(** [s.strip()] *)
Definition strip (s : str) : str := rstrip (lstrip s).

(** The digits of a Stdlib string, as a [str]. *)
Fixpoint of_string (s : string) : str :=
  match s with
  | EmptyString => []
  | String c r => N_of_ascii c :: of_string r
  end.

(** [int] in an f-string. *)
Definition show_nat (n : nat) : str :=
  of_string (NilZero.string_of_uint (Nat.to_uint n)).

(** ** The python-pptx object model *)

Inductive PP_PLACEHOLDER :=
  | TITLE | CENTER_TITLE | SUBTITLE | BODY | OBJECT | PICTURE | SLIDE_IMAGE
  | DATE | FOOTER | HEADER | SLIDE_NUMBER | CHART | TABLE | BITMAP
  | MEDIA_CLIP | ORG_CHART | VERTICAL_BODY | VERTICAL_OBJECT
  | VERTICAL_TITLE | MIXED.

Inductive MSO_SHAPE_TYPE :=
  | MSO_PICTURE | MSO_PLACEHOLDER | MSO_TEXT_BOX | MSO_AUTO_SHAPE
  | MSO_GROUP | MSO_MEDIA | MSO_CHART | MSO_TABLE.

Definition TITLE_TYPES (t : PP_PLACEHOLDER) : bool :=
  match t with TITLE | CENTER_TITLE | SUBTITLE => true | _ => false end.

Definition CONTENT_TYPES (t : PP_PLACEHOLDER) : bool :=
  match t with BODY | OBJECT => true | _ => false end.

Definition PICTURE_TYPES (t : PP_PLACEHOLDER) : bool :=
  match t with PICTURE | SLIDE_IMAGE => true | _ => false end.

(** Lengths are English Metric Units. *)
Definition Pt (n : Z) : Z := (n * 12700)%Z.

Record Run := mkRun {
  run_text : str;
  font_size : option Z            (* [None]: inherited from the theme *)
}.

Record Paragraph := mkParagraph {
  runs : list Run;
  level : nat
}.

(** A text body holds at least one paragraph. *)
Record TextFrame := mkTextFrame {
  first_paragraph : Paragraph;    (* [tf.paragraphs[0]] *)
  more_paragraphs : list Paragraph;
  word_wrap : option bool         (* [None]: inherited *)
}.

Definition paragraphs (tf : TextFrame) : list Paragraph :=
  first_paragraph tf :: more_paragraphs tf.

(** An image stream; [decodes] records whether the imaging backend behind
    [add_picture] / [insert_picture] identifies it. *)
Record Blob := mkBlob {
  data : list Byte.byte;
  decodes : bool
}.

(** [Inches(n / 10)] *)
Definition Inches_tenths (n : Z) : Z := (n * 91440)%Z.

(** Position and size, in EMU.  An extent left to the library ([None]) is
    scaled from the image's native size. *)
Record Box := mkBox {
  left : Z; top : Z; width : option Z; height : option Z
}.

(** [(blob, width, height)] *)
Definition HarvestedImage : Type := Blob * option Z * option Z.

Record Shape := mkShape {
  shape_type : MSO_SHAPE_TYPE;
  (* [placeholder_format]: index and type, [None] on a non-placeholder *)
  placeholder_format : option (nat * PP_PLACEHOLDER);
  (* attribute access on the shape raises *)
  broken : bool;
  (* [None]: no [text_frame] attribute, or the attribute is [None] *)
  text_frame : option TextFrame;
  (* [None]: no [image] attribute *)
  image : option Blob;
  box : Box;
  (* the placeholder class implements [insert_picture] *)
  has_insert_picture : bool
}.

Record Layout := mkLayout {
  name : option str;           (* [getattr(layout, "name", "")] *)
  lay_placeholders : list Shape
}.

(** What [slide.notes_slide] gives on a slide of this package. *)
Inductive NotesSlide :=
  | NotesRaises                   (* no usable notes master *)
  | NotesNoFrame                  (* notes slide or its text frame is [None] *)
  | NotesFrame (text : str).

Record Slide := mkSlide {
  slide_layout : Layout;
  shapes : list Shape;
  notes_slide : NotesSlide
}.

(** A [<p:sldId>] element with the slide part its relationship reaches. *)
Record SldId := mkSldId { sld_id : nat; rId : nat; sld_slide : Slide }.

Record Presentation := mkPresentation {
  slide_layouts : list Layout;
  slide_masters : list str;
  theme : str;
  sldIdLst : list SldId;
  rels : list nat;                (* relationship ids of the presentation part *)
  notes_master : NotesSlide;      (* what a fresh slide's [notes_slide] gives *)
  can_save : bool                 (* [prs.save] succeeds *)
}.

Definition slides (prs : Presentation) : list Slide :=
  map sld_slide (sldIdLst prs).

(** ** Attribute reads that may raise *)

Definition get_type (ph : Shape) : result PP_PLACEHOLDER :=
  if broken ph then Raise AttributeError
  else match placeholder_format ph with
       | Some (_, t) => Ok t
       | None => Raise ValueError
       end.

Definition get_text_frame (sh : Shape) : result (option TextFrame) :=
  if broken sh then Raise AttributeError else Ok (text_frame sh).

(** ** Layout resolution *)

Definition LAYOUT_PREFS : list (str * list str) :=
  [ ("title_and_content", ["Title and Content"; "Content with Caption";
                           "Title and Content (2)"; "Title and Content 2"]);
    ("title_only",        ["Title Only"; "Blank Title"; "Title"]);
    ("section_header",    ["Section Header"; "Section Title"; "Title Slide"]);
    ("two_content",       ["Two Content"; "Two Content and Title"; "Comparison"]);
    ("quote",             ["Quote"; "Title Only"]);
    ("comparison",        ["Comparison"; "Two Content"]);
    ("timeline",          ["Title and Content"; "Two Content"]);
    ("process",           ["Title and Content"; "Two Content"]);
    ("overview",          ["Title and Content"; "Title Only"]);
    ("summary",           ["Title and Content"; "Title Only"]) ].

Fixpoint _layout_has_body_loop (phs : list Shape) : result bool :=
  match phs with
  | [] => Ok false
  | ph :: rest =>
      t ← get_type ph;
      if CONTENT_TYPES t then Ok true
      else if negb (TITLE_TYPES t) then
        tf ← get_text_frame ph;
        if bool_decide (is_Some tf) then Ok true
        else _layout_has_body_loop rest
      else _layout_has_body_loop rest
  end.

Definition _layout_has_body (layout : Layout) : bool :=
  try_except (_layout_has_body_loop (lay_placeholders layout)) false.

(** [for i, x in enumerate(l): if p(x): return i], counting from [i]. *)
Fixpoint first_index {A} (p : A -> bool) (l : list A) (i : nat) : option nat :=
  match l with
  | [] => None
  | x :: r => if p x then Some i else first_index p r (S i)
  end.

(** [getattr(layout, "name", "") or ""] *)
Definition lname (layout : Layout) : str := default "" (name layout).

(** [name.lower() in lname.lower()] *)
Definition name_contains {R : Runtime} (pat : str) (layout : Layout) : bool :=
  str_in (lower pat) (lower (lname layout)).

(** [next((p[1] for p in LAYOUT_PREFS if p[0] == layout_hint), None)] *)
Fixpoint next_prefs (table : list (str * list str)) (hint : option str)
  : option (list str) :=
  match table with
  | [] => None
  | p :: r => if bool_decide (Some (fst p) = hint) then Some (snd p)
              else next_prefs r hint
  end.

(** [x or d] on an optional list: [None] and [[]] are falsy. *)
Definition or_list {A} (x : option (list A)) (d : list A) : list A :=
  match x with
  | Some (a :: r) => a :: r
  | _ => d
  end.

Definition prefs_of (hint : option str) : list str :=
  or_list (next_prefs LAYOUT_PREFS hint) ["Title and Content"; "Title Only"].

(** The outer [for name in prefs] loop around the enumerated scan. *)
Fixpoint by_name {R : Runtime} (prefs : list str) (layouts : list Layout) : option nat :=
  match prefs with
  | [] => None
  | pat :: r =>
      match first_index (name_contains pat) layouts 0 with
      | Some i => Some i
      | None => by_name r layouts
      end
  end.

Definition _find_layout_index {R : Runtime} (prs : Presentation) (layout_hint : option str)
  : nat :=
  match by_name (prefs_of layout_hint) (slide_layouts prs) with
  | Some i => i
  | None =>
    match first_index _layout_has_body (slide_layouts prs) 0 with
    | Some i => i
    | None =>
      match first_index (name_contains "title") (slide_layouts prs) 0 with
      | Some i => i
      | None => 0
      end
    end
  end.

(** ** Image harvest *)

(** The guarded body of the inner loop of [_collect_template_images]. *)
Definition harvest_shape (shape : Shape) : result (option HarvestedImage) :=
  if broken shape then Raise AttributeError
  else match shape_type shape, image shape with
       | MSO_PICTURE, Some b =>
           Ok (Some (b, width (box shape), height (box shape)))
       | _, _ => Ok None
       end.

Definition harvest_slide (slide : Slide) : list HarvestedImage :=
  omap (fun shape => try_except (harvest_shape shape) None) (shapes slide).

(** [x[i], x[j] = x[j], x[i]] *)
Definition swap {A} (x : list A) (i j : nat) : list A :=
  match x !! i, x !! j with
  | Some a, Some b => <[j := a]> (<[i := b]> x)
  | _, _ => x
  end.

(** [random.shuffle]: [for i in reversed(range(1, len(x)))], with
    [j = randbelow(i + 1)] read off the random source [rng]. *)
Fixpoint shuffle_loop {A} (rng : nat -> nat) (i : nat) (x : list A) : list A :=
  match i with
  | 0 => x
  | S k => shuffle_loop rng k (swap x i (rng i mod (i + 1)))
  end.

Definition shuffle {A} (rng : nat -> nat) (x : list A) : list A :=
  shuffle_loop rng (length x - 1) x.

Definition collect_unshuffled (prs : Presentation) : list HarvestedImage :=
  concat (map harvest_slide (slides prs)).

Definition _collect_template_images (rng : nat -> nat) (prs : Presentation)
  : list HarvestedImage :=
  shuffle rng (collect_unshuffled prs).

(** ** Slide purge *)

Definition set_sldIdLst (prs : Presentation) (l : list SldId) : Presentation :=
  mkPresentation (slide_layouts prs) (slide_masters prs) (theme prs) l
                 (rels prs) (notes_master prs) (can_save prs).

Definition set_rels (prs : Presentation) (r : list nat) : Presentation :=
  mkPresentation (slide_layouts prs) (slide_masters prs) (theme prs)
                 (sldIdLst prs) r (notes_master prs) (can_save prs).

Definition drop_rel (prs : Presentation) (r : nat) : Presentation :=
  set_rels prs (filter (fun x => x <> r) (rels prs)).

Definition same_element (a b : SldId) : bool :=
  Nat.eqb (sld_id a) (sld_id b) && Nat.eqb (rId a) (rId b).

(** [sldIdLst.remove(sldId)]: the element itself goes; elements are told
    apart by their [id] and [r:id] attributes. *)
Fixpoint remove_sldId (sldId : SldId) (l : list SldId) : list SldId :=
  match l with
  | [] => []
  | x :: r => if same_element x sldId then r else x :: remove_sldId sldId r
  end.

Definition purge_step (prs : Presentation) (sldId : SldId) : Presentation :=
  let prs := drop_rel prs (rId sldId) in
  set_sldIdLst prs (remove_sldId sldId (sldIdLst prs)).

(** The loop runs over a copy, [list(sldIdLst)], of the list it edits. *)
Definition _purge_all_existing_slides (prs : Presentation) : Presentation :=
  foldl purge_step prs (sldIdLst prs).

(** ** Placeholder lookup on a slide

    [slide.placeholders] are the shapes of the slide that are placeholders,
    in document order; a lookup answers with the position of the shape in
    [slide.shapes], which stands for the reference Python returns. *)

Definition is_placeholder (shp : Shape) : bool :=
  bool_decide (is_Some (placeholder_format shp)).

Definition type_in (allowed_types : PP_PLACEHOLDER -> bool) (shp : Shape) : bool :=
  is_placeholder shp &&
  try_except (t ← get_type shp; Ok (allowed_types t)) false.

Definition _first_placeholder (slide : Slide)
  (allowed_types : PP_PLACEHOLDER -> bool) : option nat :=
  first_index (type_in allowed_types) (shapes slide) 0.

Definition text_capable_non_title (shp : Shape) : bool :=
  is_placeholder shp &&
  try_except (t ← get_type shp;
              if TITLE_TYPES t then Ok false
              else tf ← get_text_frame shp; Ok (bool_decide (is_Some tf)))
             false.

Definition _first_text_capable_non_title (slide : Slide) : option nat :=
  first_index text_capable_non_title (shapes slide) 0.

(** [slide.shapes.title]: the first placeholder whose index is 0. *)
Definition shapes_title (slide : Slide) : option nat :=
  first_index (fun shp => match placeholder_format shp with
                          | Some (0, _) => true
                          | _ => false
                          end) (shapes slide) 0.

(** ** Writing text *)

Definition set_text_frame (shape : Shape) (tf : TextFrame) : Shape :=
  mkShape (shape_type shape) (placeholder_format shape) (broken shape)
          (Some tf) (image shape) (box shape) (has_insert_picture shape).

(** [tf.clear()]: all paragraphs but the first go, the first loses its
    runs and keeps its properties. *)
Definition clear (tf : TextFrame) : TextFrame :=
  mkTextFrame (mkParagraph [] (level (first_paragraph tf))) [] (word_wrap tf).

(** [run = p.add_run(); run.text = text] *)
Definition add_run (p : Paragraph) (text : str) : Paragraph :=
  mkParagraph (runs p ++ [mkRun text None]) (level p).

(** [for r in p.runs: r.font.size = sz] *)
Definition set_font_size (p : Paragraph) (sz : Z) : Paragraph :=
  mkParagraph (map (fun r => mkRun (run_text r) (Some sz)) (runs p)) (level p).

Definition set_level (p : Paragraph) (l : nat) : Paragraph :=
  mkParagraph (runs p) l.

Definition _set_text_body (shape : Shape) (text : str) : result Shape :=
  otf ← get_text_frame shape;
  match otf with
  | None => Ok shape
  | Some tf =>
      let tf := clear tf in
      let p := first_paragraph tf in
      let p := add_run p text in
      let p := if 90 <? length text
               then set_font_size p (Pt 20) else p in
      Ok (set_text_frame shape
            (mkTextFrame p (more_paragraphs tf) (word_wrap tf)))
  end.

Definition _set_text (shape : Shape) (text : str) : Shape :=
  try_except (_set_text_body shape text) shape.

(** One turn of the loop of [_set_bullets]. *)
Definition write_bullet (p : Paragraph) (b : str) : Paragraph :=
  let p := add_run p b in
  let p := set_level p 0 in
  if 100 <? length b then set_font_size p (Pt 16) else p.

(** [for i, b in enumerate(bullets)], counting from [i]: the first bullet
    goes to [tf.paragraphs[0]], the others to [tf.add_paragraph()]. *)
Fixpoint bullets_loop (i : nat) (bullets : list str) (tf : TextFrame)
  : TextFrame :=
  match bullets with
  | [] => tf
  | b :: rest =>
      let tf :=
        match i with
        | 0 => mkTextFrame (write_bullet (first_paragraph tf) b)
                           (more_paragraphs tf) (word_wrap tf)
        | S _ => mkTextFrame (first_paragraph tf)
                   (more_paragraphs tf ++ [write_bullet (mkParagraph [] 0) b])
                   (word_wrap tf)
        end in
      bullets_loop (S i) rest tf
  end.

(** [tf.word_wrap = True] *)
Definition set_word_wrap (tf : TextFrame) : TextFrame :=
  mkTextFrame (first_paragraph tf) (more_paragraphs tf) (Some true).

Definition _set_bullets_body (shape : Shape) (bullets : list str)
  : result Shape :=
  otf ← get_text_frame shape;
  match otf with
  | None => Ok shape
  | Some tf =>
      let tf := clear tf in
      let bullets := take 12 bullets in
      let tf := bullets_loop 0 bullets tf in
      Ok (set_text_frame shape (set_word_wrap tf))
  end.

Definition _set_bullets (shape : Shape) (bullets : list str) : Shape :=
  try_except (_set_bullets_body shape bullets) shape.

(** ** Notes *)

Definition set_notes (slide : Slide) (n : NotesSlide) : Slide :=
  mkSlide (slide_layout slide) (shapes slide) n.

(** [text] is what [slide_data.get("notes", "")] gave: [None] and [""]
    are falsy. *)
Definition _ensure_notes (slide : Slide) (text : option str) : Slide :=
  match text with
  | None | Some [] => slide
  | Some text =>
      match notes_slide slide with
      | NotesFrame _ => set_notes slide (NotesFrame text)
      | NotesRaises | NotesNoFrame => slide
      end
  end.

(** ** Pictures and text boxes *)

Definition set_shapes (slide : Slide) (l : list Shape) : Slide :=
  mkSlide (slide_layout slide) l (notes_slide slide).

(** Mutation of the shape a lookup returned. *)
Definition update_shape (slide : Slide) (i : nat) (f : Shape -> Shape) : Slide :=
  set_shapes slide (alter f i (shapes slide)).

(** The text body of a new placeholder: one empty paragraph, wrapping left
    to the layout. *)
Definition fresh_frame : TextFrame := mkTextFrame (mkParagraph [] 0) [] None.

(** The text body of a new text box: one empty paragraph, and
    [wrap="none"]. *)
Definition textbox_frame : TextFrame :=
  mkTextFrame (mkParagraph [] 0) [] (Some false).

(** [slide.shapes.add_textbox(left, top, width, height)]: the new shape goes
    last; its position in [slide.shapes] is returned with the slide. *)
Definition add_textbox (slide : Slide) (bx : Box) : Slide * nat :=
  (set_shapes slide
     (shapes slide ++
      [mkShape MSO_TEXT_BOX None false (Some textbox_frame) None bx false]),
   length (shapes slide)).

(** [slide.shapes.add_picture(io.BytesIO(blob), ...)] *)
Definition add_picture (slide : Slide) (blob : Blob) (bx : Box) : result Slide :=
  if decodes blob
  then Ok (set_shapes slide
             (shapes slide ++
              [mkShape MSO_PICTURE None false None (Some blob) bx false]))
  else Raise UnidentifiedImageError.

(** [pic_ph.insert_picture(io.BytesIO(blob))]: the placeholder becomes a
    picture that keeps the placeholder's format and frame. *)
Definition insert_picture (pic_ph : Shape) (blob : Blob) : result Shape :=
  if broken pic_ph || negb (has_insert_picture pic_ph)
  then Raise AttributeError
  else if decodes blob
  then Ok (mkShape MSO_PLACEHOLDER (placeholder_format pic_ph) false None
                   (Some blob) (box pic_ph) false)
  else Raise UnidentifiedImageError.

Definition get_box (sh : Shape) : result Box :=
  if broken sh then Raise AttributeError else Ok (box sh).

Definition _fill_picture_placeholder_if_any (slide : Slide) (image_blob : Blob)
  : Slide * bool :=
  match _first_placeholder slide PICTURE_TYPES with
  | None => (slide, false)
  | Some i =>
      match shapes slide !! i with
      | None => (slide, false)
      | Some pic_ph =>
          match insert_picture pic_ph image_blob with
          | Ok pic => (set_shapes slide (<[i := pic]> (shapes slide)), true)
          | Raise _ =>
              try_except
                (bx ← get_box pic_ph;
                 slide ← add_picture slide image_blob bx;
                 Ok (slide, true))
                (slide, false)
          end
      end
  end.

(** ** Creating slides *)

(** Date, footer and slide-number placeholders of a layout are not cloned
    onto a new slide. *)
Definition latent (t : PP_PLACEHOLDER) : bool :=
  match t with DATE | FOOTER | SLIDE_NUMBER => true | _ => false end.

(** The table from which python-pptx names a cloned placeholder; a type
    that is not in it makes the lookup raise [KeyError]. *)
Definition ph_basename (t : PP_PLACEHOLDER) : option str :=
  match t with
  | BITMAP => Some "ClipArt Placeholder"
  | BODY => Some "Text Placeholder"
  | CENTER_TITLE => Some "Title"
  | CHART => Some "Chart Placeholder"
  | DATE => Some "Date Placeholder"
  | FOOTER => Some "Footer Placeholder"
  | HEADER => Some "Header Placeholder"
  | MEDIA_CLIP => Some "Media Placeholder"
  | OBJECT => Some "Content Placeholder"
  | ORG_CHART => Some "SmartArt Placeholder"
  | PICTURE => Some "Picture Placeholder"
  | SLIDE_NUMBER => Some "Number Placeholder"
  | SUBTITLE => Some "Subtitle"
  | TABLE => Some "Table Placeholder"
  | TITLE => Some "Title"
  | _ => None
  end.

(** The placeholder classes of a slide that implement [insert_picture]. *)
Definition picture_class (t : PP_PLACEHOLDER) : bool :=
  match t with PICTURE | BITMAP => true | _ => false end.

(** The shape a placeholder is cloned to: a new shape of its own, with the
    index, the type and the frame of the layout placeholder and an empty
    text body, whatever the layout placeholder holds. *)
Definition cloned (idx : nat) (t : PP_PLACEHOLDER) (bx : Box) : Shape :=
  mkShape MSO_PLACEHOLDER (Some (idx, t)) false (Some fresh_frame) None bx
          (picture_class t).

(** One turn of [clone_layout_placeholders]: the type of the layout
    placeholder is read, a latent placeholder is passed over, and the clone
    is named from the table. *)
Definition clone_placeholder (ph : Shape) : result (option Shape) :=
  if broken ph then Raise AttributeError
  else match placeholder_format ph with
       | None => Raise KeyError
       | Some (idx, t) =>
           if latent t then Ok None
           else match ph_basename t with
                | Some _ => Ok (Some (cloned idx t (box ph)))
                | None => Raise KeyError
                end
       end.

Fixpoint clone_layout_placeholders (phs : list Shape) : result (list Shape) :=
  match phs with
  | [] => Ok []
  | ph :: rest =>
      c ← clone_placeholder ph;
      l ← clone_layout_placeholders rest;
      Ok (match c with Some shp => shp :: l | None => l end)
  end.

Definition new_slide (prs : Presentation) (layout : Layout) : result Slide :=
  shps ← clone_layout_placeholders (lay_placeholders layout);
  Ok (mkSlide layout shps (notes_master prs)).

Definition next_free (used : list nat) : nat := S (foldr Nat.max 0 used).

(** [prs.slides.add_slide(layout)]: the slide is appended to the slide list
    under a fresh relationship; an exception of the cloning leaves the
    call. *)
Definition add_slide (prs : Presentation) (layout : Layout)
  : result (Presentation * Slide) :=
  slide ← new_slide prs layout;
  let r := next_free (rels prs) in
  let i := next_free (map sld_id (sldIdLst prs)) in
  Ok (mkPresentation (slide_layouts prs) (slide_masters prs) (theme prs)
                     (sldIdLst prs ++ [mkSldId i r slide]) (rels prs ++ [r])
                     (notes_master prs) (can_save prs),
      slide).

(** The slide being written is the one [add_slide] appended last; its final
    state is stored back in place. *)
Definition store_last (prs : Presentation) (slide : Slide) : Presentation :=
  set_sldIdLst prs
    (alter (fun s => mkSldId (sld_id s) (rId s) slide)
           (pred (length (sldIdLst prs))) (sldIdLst prs)).

(** [seq[i]] *)
Definition getitem {A} (l : list A) (i : nat) : result A :=
  match l !! i with Some x => Ok x | None => Raise IndexError end.

(** ** Slide plan entries

    An entry is a dictionary with the four keys of the plan schema; a key
    may be missing, or present with the value [None]. *)

Inductive field (A : Type) :=
  | Absent
  | PyNone
  | Val (a : A).
Arguments Absent {A}.
Arguments PyNone {A}.
Arguments Val {A} a.

Record slide_data := mkSlideData {
  title : field str;
  bullets : field (list str);
  layout_hint : field str;
  notes : field str
}.

(** [d.get(key)] *)
Definition get {A} (f : field A) : option A :=
  match f with Val a => Some a | Absent | PyNone => None end.

(** [d.get(key, dflt)]: the default replaces a missing key only. *)
Definition get_or {A} (f : field A) (dflt : A) : option A :=
  match f with Val a => Some a | PyNone => None | Absent => Some dflt end.

(** [(slide_data.get("title") or "")[:200]] *)
Definition title_text (sd : slide_data) : str :=
  str_take 200 (default "" (get (title sd))).

(** [(slide_data.get("bullets") or [])[:12]] *)
Definition bullets_of (sd : slide_data) : list str :=
  take 12 (or_list (get (bullets sd)) []).

(** ** The per-entry body of [build_presentation] *)

Definition lacks_body (slide : Slide) : bool :=
  match _first_placeholder slide CONTENT_TYPES,
        _first_text_capable_non_title slide with
  | None, None => true
  | _, _ => false
  end.

Definition title_box : Box :=
  mkBox (Inches_tenths 10) (Inches_tenths 7)
        (Some (Inches_tenths 80)) (Some (Inches_tenths 10)).

Definition bullets_box : Box :=
  mkBox (Inches_tenths 10) (Inches_tenths 17)
        (Some (Inches_tenths 80)) (Some (Inches_tenths 45)).

Definition accent_box : Box :=
  mkBox (Inches_tenths 4) (Inches_tenths 51) None (Some (Inches_tenths 12)).

(** Lines 203-205: the title target. *)
Definition title_target (slide : Slide) : option nat :=
  match shapes_title slide with
  | Some i => Some i
  | None => _first_placeholder slide TITLE_TYPES
  end.

(** Line 208: the body target. *)
Definition body_target (slide : Slide) : option nat :=
  match _first_placeholder slide CONTENT_TYPES with
  | Some i => Some i
  | None => _first_text_capable_non_title slide
  end.

(** Lines 210-218. *)
Definition write_title (slide : Slide) (title_ph : option nat) (text : str)
  : Slide :=
  match title_ph with
  | Some i => update_shape slide i (fun shp => _set_text shp text)
  | None =>
      let '(slide, tb) := add_textbox slide title_box in
      update_shape slide tb (fun shp => _set_text shp text)
  end.

(** Lines 220-228. *)
Definition write_body (slide : Slide) (body_ph : option nat)
  (bullets : list str) : Slide :=
  match body_ph with
  | Some i => update_shape slide i (fun shp => _set_bullets shp bullets)
  | None =>
      let '(slide, tb) := add_textbox slide bullets_box in
      update_shape slide tb (fun shp => _set_bullets shp bullets)
  end.

(** The test of line 233 and the subscript of line 234. *)
Definition pick_image (template_images : list HarvestedImage) (idx : nat)
  (bullets : list str) : option HarvestedImage :=
  match template_images with
  | [] => None
  | _ :: _ =>
      if (idx mod 3 =? 0) || (length bullets <=? 2)
      then template_images !! (idx mod length template_images)
      else None
  end.

(** Lines 232-241. *)
Definition place_image (slide : Slide) (template_images : list HarvestedImage)
  (idx : nat) (bullets : list str) : Slide :=
  match pick_image template_images idx bullets with
  | None => slide
  | Some (blob, w, h) =>
      let '(slide, placed) := _fill_picture_placeholder_if_any slide blob in
      if placed then slide
      else try_except (add_picture slide blob accent_box) slide
  end.

(** Lines 199-241 on the slide the entry writes to. *)
Definition write_slide (slide : Slide) (template_images : list HarvestedImage)
  (idx : nat) (sd : slide_data) : Slide :=
  let text := title_text sd in
  let bullets := bullets_of sd in
  let title_ph := title_target slide in
  let body_ph := body_target slide in
  let slide := write_title slide title_ph text in
  let slide := write_body slide body_ph bullets in
  let slide := _ensure_notes slide (get_or (notes sd) "") in
  place_image slide template_images idx bullets.

(** Lines 188-197: the layout is resolved and a slide created; a slide
    without a body makes the loop over the layouts add one more. *)
Definition create_slide {R : Runtime} (prs : Presentation) (sd : slide_data)
  : result (Presentation * Slide) :=
  let hint := get_or (layout_hint sd) "title_and_content" in
  let layout_idx := _find_layout_index prs hint in
  layout ← getitem (slide_layouts prs) layout_idx;
  '(prs, slide) ← add_slide prs layout;
  if lacks_body slide then
    match List.find _layout_has_body (slide_layouts prs) with
    | Some layout => add_slide prs layout
    | None => Ok (prs, slide)
    end
  else Ok (prs, slide).

Definition build_slide {R : Runtime} (prs : Presentation)
  (template_images : list HarvestedImage) (idx : nat) (sd : slide_data)
  : result Presentation :=
  '(prs, slide) ← create_slide prs sd;
  Ok (store_last prs (write_slide slide template_images idx sd)).

(** [for idx, slide_data in enumerate(slides_plan)], counting from [idx]. *)
Fixpoint build_loop {R : Runtime} (prs : Presentation) (template_images : list HarvestedImage)
  (idx : nat) (slides_plan : list slide_data) : result Presentation :=
  match slides_plan with
  | [] => Ok prs
  | sd :: rest =>
      prs ← build_slide prs template_images idx sd;
      build_loop prs template_images (S idx) rest
  end.

(** The uploaded bytes, by what [Presentation(io.BytesIO(...))] makes of
    them: bytes that are no package make it raise [zipfile.BadZipFile].
    The document saved at the end stands for the bytes returned. *)
Inductive template_bytes :=
  | Unreadable
  | Package (prs : Presentation).

Definition Presentation_open (t : template_bytes) : result Presentation :=
  match t with
  | Unreadable => Raise BadZipFile
  | Package prs => Ok prs
  end.

Definition save (prs : Presentation) : result Presentation :=
  if can_save prs then Ok prs else Raise SaveError.

Definition build_presentation {R : Runtime} (rng : nat -> nat) (t : template_bytes)
  (slides_plan : list slide_data) : result Presentation :=
  prs ← Presentation_open t;
  let template_images := _collect_template_images rng prs in
  let prs := _purge_all_existing_slides prs in
  prs ← build_loop prs template_images 0 slides_plan;
  save prs.

(** ** Plan normalisation ([plan_slides_via_llm], lines 175-188) *)

Definition add_notes (s : slide_data) : slide_data :=
  match notes s with
  | Absent => mkSlideData (title s) (bullets s) (layout_hint s) (Val "")
  | _ => s
  end.

Definition default_hint (s : slide_data) : slide_data :=
  match get (layout_hint s) with
  | None | Some [] =>
      mkSlideData (title s) (bullets s) (Val "title_and_content") (notes s)
  | Some _ => s
  end.

Definition normalize_plan (include_notes : bool) (slides : list slide_data)
  : result (list slide_data) :=
  match slides with
  | [] => Raise ProviderError
  | _ :: _ =>
      let slides := take 30 slides in
      let slides := if include_notes then map add_notes slides else slides in
      Ok (map default_hint slides)
  end.

(** [generate] of app.py: the plan comes from the provider, is normalised,
    and is handed to the builder. *)
Definition generate {R : Runtime} (rng : nat -> nat) (t : template_bytes)
  (include_notes : bool) (provider_slides : list slide_data)
  : result Presentation :=
  slide_plan ← normalize_plan include_notes provider_slides;
  build_presentation rng t slide_plan.

(** ** Concrete templates and plans used below *)

Definition box0 : Box := mkBox 0 0 (Some 100%Z) (Some 100%Z).

Definition ph (i : nat) (t : PP_PLACEHOLDER) : Shape :=
  mkShape MSO_PLACEHOLDER (Some (i, t)) false (Some fresh_frame) None box0 false.

Definition picture (b : Blob) : Shape :=
  mkShape MSO_PICTURE None false None (Some b) box0 false.

Definition png1 : Blob := mkBlob [Byte.x89; Byte.x50; Byte.x01] true.
Definition png2 : Blob := mkBlob [Byte.x89; Byte.x50; Byte.x02] true.

Definition L_title_slide : Layout :=
  mkLayout (Some "Title Slide") [ph 0 CENTER_TITLE; ph 1 SUBTITLE].
Definition L_title_and_content : Layout :=
  mkLayout (Some "Title and Content") [ph 0 TITLE; ph 1 OBJECT; ph 10 DATE].
Definition L_title_only : Layout :=
  mkLayout (Some "Title Only") [ph 0 TITLE; ph 10 DATE; ph 11 FOOTER].
Definition L_blank : Layout := mkLayout (Some "Blank") [].

Definition old_slide : Slide :=
  mkSlide L_title_and_content [ph 0 TITLE; picture png1; picture png2]
          (NotesFrame "").

(** A template with the usual layouts and one slide holding two pictures. *)
Definition office_template : Presentation :=
  mkPresentation [L_title_slide; L_title_and_content; L_title_only; L_blank]
                 ["Office Theme"] "theme1" [mkSldId 256 7 old_slide]
                 [1; 2; 7] (NotesFrame "") true.

(** A runtime whose [str.lower] folds nothing beyond ASCII, for the
    examples: their strings are ASCII, so that it is never consulted. *)
Definition plain : Runtime := fun s => s.

(** ** Vocabulary of the statements *)

(** Every shape of every slide of the document, in document order. *)
Definition all_shapes (prs : Presentation) : list Shape :=
  concat (map shapes (slides prs)).

Definition is_picture (shape : Shape) : bool :=
  match shape_type shape with MSO_PICTURE => true | _ => false end.

(** A picture shape whose attributes can be read and that has an image. *)
Definition readable_picture (shape : Shape) : bool :=
  is_picture shape && negb (broken shape) && bool_decide (is_Some (image shape)).

(** A linked picture: the shape type is that of a picture, and there is no
    embedded image to read. *)
Definition linked_picture : Shape :=
  mkShape MSO_PICTURE None false None None box0 false.

Definition linked_template : Presentation :=
  mkPresentation [L_title_and_content] ["Office Theme"] "theme1"
    [mkSldId 256 7 (mkSlide L_title_and_content [linked_picture] (NotesFrame ""))]
    [1; 7] (NotesFrame "") true.

(** [i] is the position of the first element of [l] that satisfies [p]. *)
Definition first_match {A} (p : A -> bool) (l : list A) (i : nat) : Prop :=
  (exists x, l !! i = Some x /\ p x = true) /\
  (forall j y, j < i -> l !! j = Some y -> p y = false).

Definition no_match {A} (p : A -> bool) (l : list A) : Prop :=
  forall y, y ∈ l -> p y = false.

(** The resolution order of the specification, tier by tier. *)
Inductive resolves {R : Runtime} (prs : Presentation) (hint : option str) : nat -> Prop :=
  | by_pattern k pat i :
      prefs_of hint !! k = Some pat ->
      (forall k' pat', k' < k -> prefs_of hint !! k' = Some pat' ->
                       no_match (name_contains pat') (slide_layouts prs)) ->
      first_match (name_contains pat) (slide_layouts prs) i ->
      resolves prs hint i
  | by_body i :
      (forall pat, pat ∈ prefs_of hint ->
                   no_match (name_contains pat) (slide_layouts prs)) ->
      first_match _layout_has_body (slide_layouts prs) i ->
      resolves prs hint i
  | by_title i :
      (forall pat, pat ∈ prefs_of hint ->
                   no_match (name_contains pat) (slide_layouts prs)) ->
      no_match _layout_has_body (slide_layouts prs) ->
      first_match (name_contains "title") (slide_layouts prs) i ->
      resolves prs hint i
  | by_position :
      (forall pat, pat ∈ prefs_of hint ->
                   no_match (name_contains pat) (slide_layouts prs)) ->
      no_match _layout_has_body (slide_layouts prs) ->
      no_match (name_contains "title") (slide_layouts prs) ->
      resolves prs hint 0.


(** A template whose layouts are named in capitals. *)
Definition shouting_template : Presentation :=
  mkPresentation
    [mkLayout (Some "BLANK") [];
     mkLayout (Some "TITLE AND CONTENT") [ph 0 TITLE; ph 1 OBJECT];
     mkLayout (Some "Tit1e 0nly / TITLE ONLY") [ph 0 TITLE]]
    ["Office Theme"] "theme1" [] [1] (NotesFrame "") true.

(** The paragraph a bullet ends up in: one run, level 0, and an explicit
    size only on a long bullet. *)
Definition bullet_paragraph (b : str) : Paragraph :=
  mkParagraph [mkRun b (if 100 <? length b then Some (Pt 16) else None)] 0.

Definition has_run (p : Paragraph) : bool :=
  match runs p with [] => false | _ :: _ => true end.

(** The paragraphs of a frame that carry text. *)
Definition written_paragraphs (tf : TextFrame) : list Paragraph :=
  List.filter has_run (paragraphs tf).

(** The text frame of the shape at position [i] of a slide. *)
Definition frame_at (slide : Slide) (i : nat) : option TextFrame :=
  shapes slide !! i ≫= text_frame.

(** The paragraphs carrying text there; a shape without a text frame has
    none. *)
Definition written_at (slide : Slide) (i : nat) : list Paragraph :=
  match frame_at slide i with
  | Some tf => written_paragraphs tf
  | None => []
  end.

Definition intro_entry : slide_data :=
  mkSlideData (Val "Intro") (Val ["a"; "b"]) (Val "title_and_content") Absent.

Definition fresh_title_slide : Slide :=
  mkSlide L_title_and_content [ph 0 TITLE; ph 1 OBJECT] (NotesFrame "").

(** Every run text on a slide, shape by shape. *)
Definition slide_texts (slide : Slide) : list str :=
  concat (map (fun shp => match text_frame shp with
                          | Some tf => concat (map (fun p => map run_text (runs p))
                                                   (paragraphs tf))
                          | None => []
                          end) (shapes slide)).

(** The images on a slide, in shape order. *)
Definition slide_images (slide : Slide) : list Blob :=
  omap image (shapes slide).

(** The condition of the specification for placing an image on the slide of
    entry [idx]. *)
Definition eligible (template_images : list HarvestedImage) (idx : nat)
  (sd : slide_data) : Prop :=
  template_images <> [] /\
  (idx mod 3 = 0 \/ length (or_list (get (bullets sd)) []) <= 2).

(** A stream the imaging backend does not identify. *)
Definition emf1 : Blob := mkBlob [Byte.x01; Byte.x00; Byte.x00; Byte.x00] false.

Definition two_images : list HarvestedImage :=
  [(png1, Some 100%Z, Some 100%Z); (png2, Some 100%Z, Some 100%Z)].

(** The entry with its layout hint set. *)
Definition with_hint (sd : slide_data) (h : str) : slide_data :=
  mkSlideData (title sd) (bullets sd) (Val h) (notes sd).

(** The hint is missing, [None], or the empty string. *)
Definition hint_missing (sd : slide_data) : Prop :=
  layout_hint sd = Absent \/ layout_hint sd = PyNone \/ layout_hint sd = Val "".

Definition empty_hint_entry : slide_data :=
  mkSlideData (Val "Agenda") (Val ["a"]) (Val "") Absent.

(** Layouts on which the fallback pattern list and the pattern list of
    [title_and_content] choose differently. *)
Definition caption_template : Presentation :=
  mkPresentation
    [L_title_only; mkLayout (Some "Content with Caption") [ph 0 TITLE; ph 1 BODY]]
    ["Office Theme"] "theme1" [] [1] (NotesFrame "") true.

(** What the build keeps fixed while it adds slides. *)
Definition same_template (a b : Presentation) : Prop :=
  slide_layouts a = slide_layouts b /\ can_save a = can_save b /\
  notes_master a = notes_master b.

(** A template without a notes master, holding one picture the backend
    cannot re-insert. *)
Definition hostile_template : Presentation :=
  mkPresentation [L_title_and_content] ["Office Theme"] "theme1"
    [mkSldId 256 7 (mkSlide L_title_and_content [picture emf1] NotesRaises)]
    [1; 7] NotesRaises true.



(** A template whose one layout pairs the title with a picture placeholder,
    and whose one slide holds a picture. *)
Definition L_title_and_picture : Layout :=
  mkLayout (Some "Title and Picture") [ph 0 TITLE; ph 13 PICTURE].

Definition picture_layout_template : Presentation :=
  mkPresentation [L_title_and_picture] ["Office Theme"] "theme1"
    [mkSldId 256 7
       (mkSlide L_title_and_picture [ph 0 TITLE; picture png1] (NotesFrame ""))]
    [1; 7] (NotesFrame "") true.

(** A template whose one layout has a single placeholder, of index 0 and
    of a content type: [slide.shapes.title] and the body lookup both answer
    with it. *)
Definition L_content_first : Layout :=
  mkLayout (Some "Title and Content") [ph 0 OBJECT].

Definition content_first_template : Presentation :=
  mkPresentation [L_content_first] ["Office Theme"] "theme1" [] [1]
                 (NotesFrame "") true.

Definition noted_entry : slide_data :=
  mkSlideData (Val "Intro") (Val ["a"; "b"]) (Val "title_and_content")
              (Val "say hello").

Definition title_only_entry : slide_data :=
  mkSlideData (Val "Thank you") (Val []) (Val "title_only") Absent.


(** The entry with its three optional fields taken out. *)
Definition bare (sd : slide_data) : slide_data :=
  mkSlideData Absent Absent (layout_hint sd) Absent.

(** Every layout of the template gives its slides a body to write to. *)
Definition bodies_everywhere (prs : Presentation) : Prop :=
  forall layout slide, layout ∈ slide_layouts prs ->
                       new_slide prs layout = Ok slide ->
                       lacks_body slide = false.

(** The placeholders of the layout can be cloned: [add_slide] on it does
    not raise. *)
Definition clones (layout : Layout) : bool :=
  is_ok (clone_layout_placeholders (lay_placeholders layout)).

(** Where the title and the bullets of an entry go on a slide: the target
    found, or the text box added for want of one (the title's first). *)
Definition title_place (slide : Slide) : nat :=
  default (length (shapes slide)) (title_target slide).

Definition body_place (slide : Slide) : nat :=
  match body_target slide, title_target slide with
  | Some j, _ => j
  | None, Some _ => length (shapes slide)
  | None, None => S (length (shapes slide))
  end.

(** The shape at position [i], if the slide has one, has a text frame that
    can be read. *)
Definition writable (slide : Slide) (i : nat) : Prop :=
  forall shp, shapes slide !! i = Some shp ->
              exists tf, get_text_frame shp = Ok (Some tf).



(** The template and the plan of the end-to-end scenario. *)
Definition scenario_template : Presentation :=
  mkPresentation [L_title_slide; L_title_and_content; L_blank]
                 ["Office Theme"] "theme1" [] [1] (NotesFrame "") true.

Definition end_entry : slide_data :=
  mkSlideData (Val "End") (Val []) (Val "summary") Absent.

(** A template whose one slide holds a picture in a format the backend does
    not identify. *)
Definition emf_template : Presentation :=
  mkPresentation [L_title_and_content] ["Office Theme"] "theme1"
    [mkSldId 256 7 (mkSlide L_title_and_content [picture emf1] (NotesFrame ""))]
    [1; 7] (NotesFrame "") true.

(** ** Vocabulary of the further properties *)

(** The placeholder's type can be read. *)
Definition readable (ph : Shape) : bool :=
  negb (broken ph) && bool_decide (is_Some (placeholder_format ph)).

(** A readable placeholder of a content type, or of a type that is not a
    title type and with a text frame. *)
Definition body_like (ph : Shape) : bool :=
  match placeholder_format ph with
  | Some (_, t) =>
      negb (broken ph) &&
      (CONTENT_TYPES t ||
       (negb (TITLE_TYPES t) && bool_decide (is_Some (text_frame ph))))
  | None => false
  end.

(** A free-standing text box. *)
Definition text_box (bx : Box) (tf : TextFrame) : Shape :=
  mkShape MSO_TEXT_BOX None false (Some tf) None bx false.

(** What identifies a shape's place on the slide: its placeholder format and
    its position and size. *)
Definition shape_sig (shp : Shape) : option (nat * PP_PLACEHOLDER) * Box :=
  (placeholder_format shp, box shp).

(** A slide made from the layout "Blank": no placeholder at all. *)
Definition blank_slide : Slide := mkSlide L_blank [] (NotesFrame "").

(** The shapes of [b] continue those of [a], place for place, with at most
    [k] more at the end. *)
Definition grows_by (k : nat) (a b : Slide) : Prop :=
  map shape_sig (shapes a) `prefix_of` map shape_sig (shapes b) /\
  length (shapes b) <= length (shapes a) + k.


(** A picture placeholder once filled. *)
Definition filled (ph : Shape) (b : Blob) : Shape :=
  mkShape MSO_PLACEHOLDER (placeholder_format ph) false None (Some b) (box ph)
          false.



(** The parts of a document the build has no business with. *)
Definition same_frame (a b : Presentation) : Prop :=
  slide_layouts a = slide_layouts b /\ slide_masters a = slide_masters b /\
  theme a = theme b.

(** The result with a function applied to the value returned. *)
Definition result_map {A B} (f : A -> B) (m : result A) : result B :=
  match m with Ok a => Ok (f a) | Raise e => Raise e end.

(** Two documents the build cannot tell apart: same layouts, notes master
    and [save], and the same slides. *)
Definition alike (p q : Presentation) : Prop :=
  same_template p q /\ slides p = slides q.

(** The office template with other text on its one slide and other
    relationship ids. *)
Definition office_template_retitled : Presentation :=
  mkPresentation [L_title_slide; L_title_and_content; L_title_only; L_blank]
    ["Office Theme"] "theme1"
    [mkSldId 300 9
       (mkSlide L_title_only
          [_set_text (ph 0 TITLE) "Quarterly figures, internal";
           picture png1; picture png2]
          (NotesFrame "do not share"))]
    [3; 9] (NotesFrame "") true.

(** * The provider layer ([llm_providers.py]) and its caller ([app.py])

    [requests.post] is a network: the answer to the [n]-th request sent, as
    a function of that request.  Functions that send requests thread the
    number of requests sent so far. *)

(** Exceptions other than [ProviderError] that cross this layer. *)
Inductive other_exn :=
  | RequestException              (* raised by [requests.post] *)
  | JSONDecodeError               (* raised by [r.json()] *)
  | NoneAttributeError.           (* [None.lower()] *)

Inductive outcome (A : Type) :=
  | Return (a : A)
  | RaiseProviderError (msg : str)
  | RaiseOther (e : other_exn).
Arguments Return {A} a.
Arguments RaiseProviderError {A} msg.
Arguments RaiseOther {A} e.

(** A computation that sends requests: from the number sent so far to its
    outcome and the number sent afterwards. *)
Definition io (A : Type) : Type := nat -> outcome A * nat.

(** [x or d] on a string that may be [None]. *)
Definition or_str (x : option str) (d : str) : str :=
  match x with
  | Some (c :: s) => c :: s
  | Some [] | None => d
  end.

(** [f"{x}"] on a string that may be [None]. *)
Definition show_opt (x : option str) : str := default "None" x.

(** ** Key checks *)

Definition bad_substrings : list str :=
  [" "; "http"; "Bearer "; "provider.lower()"; "elif "].

Definition key_invalid_message : str :=
  "API key looks invalid. Paste only your provider token (no quotes/Bearer/spaces).".

Definition _validate_api_key_like (s : str) : outcome unit :=
  if (s == "")
     || existsb (fun x => str_in x s) bad_substrings
     || (length s <? 20)
  then RaiseProviderError key_invalid_message
  else Return tt.

Definition startswith (k pre : str) : bool := str_prefix pre k.

Definition is_google (p : str) : bool :=
  (p == "google") || (p == "gemini") || (p == "google-gemini").

(** [_key_looks_like] of app.py. *)
Definition _key_looks_like {R : Runtime} (provider api_key : option str) : bool :=
  let p := lower (default "" provider) in
  let k := default "" api_key in
  if (p == "openai") then startswith k "sk-"
  else if (p == "anthropic") then startswith k "sk-ant-"
  else if is_google p then startswith k "AIza" || (25 <? length k)
  else if (p == "perplexity") then startswith k "pplx-"
  else if (p == "aipipe")
  then startswith k "eyJ" || startswith k "ap_" || (25 <? length k)
  else true.

(** [[x for x in models if x != c]] *)
Definition without (c : str) (models : list str) : list str :=
  List.filter (fun x => negb (x == c)) models.

(** [_fallback_models] of app.py. *)
Definition _fallback_models {R : Runtime} (provider current : option str) : list str :=
  let p := lower (default "" provider) in
  let c := strip (default "" current) in
  if (p == "openai")
  then without c ["gpt-4o-mini"; "gpt-4o"; "gpt-3.5-turbo"]
  else if (p == "anthropic")
  then without c ["claude-3-5-sonnet-20240620"; "claude-3-5-haiku"]
  else if is_google p
  then without c ["gemini-1.5-pro"; "gemini-1.5-flash"]
  else if (p == "perplexity")
  then without c ["sonar-small-chat"; "sonar-medium-chat"]
  else if (p == "aipipe")
  then without c ["gpt-4o-mini"; "claude-3-5-sonnet"; "gemini-1.5-pro"]
  else [].

(** ** [_coerce_json]

    The two compiled patterns and the brace search are used for what they
    match: a think block runs from a "<think>" to the first "</think>" after
    it; a fence opens at the first three backticks, optionally followed by
    "json", and closes at the next three backticks; the brace pattern spans
    from the first "{" to the last "}". *)

(** [s.find(sub)] *)
Fixpoint find (sub s : str) : option nat :=
  if str_prefix sub s then Some 0
  else match s with
       | [] => None
       | (_ :: r) => S <$> find sub r
       end.

(** [s.rfind(c)] for one character. *)
Fixpoint rfind_char (c : codepoint) (s : str) : option nat :=
  match s with
  | [] => None
  | (d :: r) =>
      match rfind_char c r with
      | Some j => Some (S j)
      | None => if (d =? c)%N then Some 0 else None
      end
  end.

(** [_THINK_RE.sub("", s)]: [skip] characters are still to be dropped from a
    block found earlier.  A "<think>" that nothing closes ends the scan:
    nothing closes a later one either. *)
Fixpoint think_sub_from (skip : nat) (s : str) : str :=
  match s with
  | [] => []
  | (c :: r) =>
      match skip with
      | S k => think_sub_from k r
      | 0 =>
          if str_prefix "<think>" s
          then match find "</think>" (str_drop 7 s) with
               | Some j => think_sub_from (j + 14) r
               | None => s
               end
          else c :: think_sub_from 0 r
      end
  end.

Definition think_sub (s : str) : str := think_sub_from 0 s.

(** [m = _FENCE_RE.search(s)], as [m.group(1).strip()]. *)
Definition fence (s : str) : option str :=
  match find "```" s with
  | None => None
  | Some i =>
      let after := str_drop (i + 3) s in
      let after := if str_prefix "json" after then str_drop 4 after
                   else after in
      match find "```" after with
      | None => None
      | Some q => Some (strip (str_take q after))
      end
  end.

(** The closing brace, U+007D. *)
Definition rbrace : codepoint := 125%N.

(** [re.search(r"\{.*\}", s, flags=re.S)], as [m2.group(0)]. *)
Definition braces (s : str) : option str :=
  match find "{" s, rfind_char rbrace s with
  | Some i, Some j =>
      if i <? j then Some (str_take (S j - i) (str_drop i s)) else None
  | _, _ => None
  end.

(** The string [_coerce_json] hands to [json.loads]. *)
Definition json_candidate (text : str) : str :=
  let s := strip text in
  let s := think_sub s in
  let s := match fence s with Some g => g | None => s end in
  if str_prefix "{" s then s
  else match braces s with
       | Some b => strip b
       | None => s
       end.

(** [json_loads] is [json.loads]: the value, or the text of the
    [JSONDecodeError]. *)
Definition _coerce_json {J} (json_loads : str -> J + str)
  (text : option str) : outcome J :=
  match text with
  | None => RaiseProviderError "Provider returned non-text output"
  | Some text =>
      match json_loads (json_candidate text) with
      | inl data => Return data
      | inr e => RaiseProviderError ("Provider returned non-JSON output: " ++ e)
      end
  end.

(** ** Requests *)

Record Message := mkMessage { msg_role : str; msg_content : str }.

(** The JSON body of a request; the temperature is 0.2 in both. *)
Inductive Payload :=
  | ChatPayload (model : str) (messages : list Message)
                (response_format_json : bool)
  | GeminiPayload (prompt : str).

Record Request := mkRequest {
  req_url : str;
  req_headers : list (str * str);
  req_payload : Payload;
  req_timeout : nat
}.

(** What the path into the answer's JSON gives
    ([choices[0].message.content], [candidates[0].content.parts[0].text]). *)
Inductive JsonBody :=
  | NotJson                       (* [r.json()] raises *)
  | PathMissing                   (* the subscripts raise *)
  | Found (v : option str).    (* the value there; [None]: not a [str] *)

Record Response := mkResponse {
  status_code : nat;
  resp_text : str;
  resp_json : JsonBody
}.

Inductive Reply :=
  | NoReply                       (* [requests.post] raises *)
  | Answer (r : Response).

Definition Network : Type := nat -> Request -> Reply.

Definition PROVIDER_DEFAULTS (provider : str) : str :=
  if (provider == "openai") then "gpt-4o-mini"
  else if (provider == "aipipe") then "gpt-4o-mini"
  else "gemini-2.5-pro".

Definition nl : str := [10%N].

(** [USER_TEMPLATE.format(guidance=..., input_text=...)] *)
Definition USER_TEMPLATE (guidance input_text : str) : str :=
  "GUIDANCE (optional): " ++ guidance ++ nl ++ nl ++
  "SOURCE TEXT:" ++ nl ++ input_text ++ nl.

Definition chat_request (url api_key model system user : str)
  (response_format_json : bool) : Request :=
  mkRequest url
    [("Authorization", "Bearer " ++ api_key);
     ("Content-Type", "application/json")]
    (ChatPayload model [mkMessage "system" system; mkMessage "user" user]
                 response_format_json)
    60.

(** The part the three helpers share: refuse a status of 400 or more, then
    read the content out of the JSON. *)
Definition read_answer (who : str) (what : str) (r : Response)
  : outcome (option str) :=
  if 400 <=? status_code r
  then RaiseProviderError
         (who ++ " API error " ++ show_nat (status_code r) ++ ": "
          ++ str_take 200 (resp_text r))
  else match resp_json r with
       | NotJson => RaiseOther JSONDecodeError
       | PathMissing => RaiseProviderError (who ++ " response missing " ++ what)
       | Found v => Return v
       end.

Definition _post_openai (net : Network) (api_key : str)
  (model : option str) (system user : str) : io (option str) :=
  fun n =>
    let req := chat_request "https://api.openai.com/v1/chat/completions" api_key
                 (or_str model (PROVIDER_DEFAULTS "openai")) system user true in
    match net n req with
    | NoReply => (RaiseOther RequestException, S n)
    | Answer r => (read_answer "OpenAI" "content" r, S n)
    end.

Definition _post_aipipe (net : Network) (api_key : str)
  (model : option str) (system user : str) : io (option str) :=
  fun n =>
    let url := "https://aipipe.org/openai/v1/chat/completions" in
    let m := or_str model (PROVIDER_DEFAULTS "aipipe") in
    match net n (chat_request url api_key m system user true) with
    | NoReply => (RaiseOther RequestException, S n)
    | Answer r =>
        if status_code r =? 400
        then match net (S n) (chat_request url api_key m system user false) with
             | NoReply => (RaiseOther RequestException, S (S n))
             | Answer r => (read_answer "AI-Pipe" "content" r, S (S n))
             end
        else (read_answer "AI-Pipe" "content" r, S n)
    end.

Definition _post_gemini (net : Network) (api_key : str)
  (model : option str) (system user : str) : io (option str) :=
  fun n =>
    let model_name := or_str model (PROVIDER_DEFAULTS "gemini") in
    let url := "https://generativelanguage.googleapis.com/v1beta/models/"
               ++ model_name ++ ":generateContent?key=" ++ api_key in
    let prompt := system ++ nl ++ nl ++ "User Input:" ++ nl ++ user
                  ++ nl ++ nl ++ "Return STRICT JSON only." in
    match net n (mkRequest url [("content-type", "application/json")]
                           (GeminiPayload prompt) 60) with
    | NoReply => (RaiseOther RequestException, S n)
    | Answer r => (read_answer "Gemini" "text content" r, S n)
    end.

(** ** [plan_slides_via_llm]

    [SYSTEM_PROMPT] is a constant of the module; [json_slides] stands for
    [_coerce_json] followed by [data.get("slides") or []], a value that is
    not a list counting as the empty list (both are refused alike). *)

Definition finish_plan (json_slides : str -> outcome (list slide_data))
  (include_notes : bool) (raw : option str) : outcome (list slide_data) :=
  match raw with
  | None => RaiseProviderError "Provider returned non-text output"
  | Some text =>
      match json_slides text with
      | Return slides =>
          match normalize_plan include_notes slides with
          | Ok plan => Return plan
          | Raise _ => RaiseProviderError "No slides returned by provider."
          end
      | RaiseProviderError msg => RaiseProviderError msg
      | RaiseOther e => RaiseOther e
      end
  end.

Definition plan_slides_via_llm {R : Runtime} (SYSTEM_PROMPT : str) (net : Network)
  (json_slides : str -> outcome (list slide_data))
  (provider model : option str) (api_key input_text : str)
  (guidance : option str) (include_notes : bool) : io (list slide_data) :=
  fun n =>
    match _validate_api_key_like api_key with
    | RaiseProviderError msg => (RaiseProviderError msg, n)
    | RaiseOther e => (RaiseOther e, n)
    | Return _ =>
        let p := lower (default "" provider) in
        let user := USER_TEMPLATE (or_str guidance "(none)")
                                  (str_take 15000 input_text) in
        let '(raw, n) :=
          if (p == "openai")
          then _post_openai net api_key model SYSTEM_PROMPT user n
          else if is_google p
          then _post_gemini net api_key model SYSTEM_PROMPT user n
          else if (p == "aipipe")
          then _post_aipipe net api_key model SYSTEM_PROMPT user n
          else (RaiseProviderError
                  ("Unsupported provider: " ++ show_opt provider), n) in
        match raw with
        | Return raw => (finish_plan json_slides include_notes raw, n)
        | RaiseProviderError msg => (RaiseProviderError msg, n)
        | RaiseOther e => (RaiseOther e, n)
        end
    end.

(** ** [_plan_with_fallback] of app.py *)

(** [m or None] *)
Definition or_none (m : option str) : option str :=
  match m with
  | Some (c :: s) => Some (c :: s)
  | Some [] | None => None
  end.

(** The loop over the candidates, with the last error so far. *)
Fixpoint try_candidates {A} (attempt : option str -> io A)
  (candidates : list str) (last_err : str) : io A :=
  fun n =>
    match candidates with
    | [] => (RaiseProviderError last_err, n)
    | alt :: rest =>
        match attempt (Some alt) n with
        | (Return x, n) => (Return x, n)
        | (RaiseProviderError msg, n) => try_candidates attempt rest msg n
        | (RaiseOther e, n) => (RaiseOther e, n)
        end
    end.

Definition _plan_with_fallback {R : Runtime} (SYSTEM_PROMPT : str) (net : Network)
  (json_slides : str -> outcome (list slide_data))
  (provider model : option str) (api_key input_text : str)
  (guidance : option str) (include_notes : bool) : io (list slide_data) :=
  fun n =>
    if negb (_key_looks_like provider (Some api_key))
    then (RaiseProviderError
            ("API key does not look like a " ++ show_opt provider
             ++ " key. Please check."), n)
    else
      let attempt := fun m =>
        plan_slides_via_llm SYSTEM_PROMPT net json_slides provider (or_none m)
                            api_key input_text guidance include_notes in
      match attempt model n with
      | (Return x, n) => (Return x, n)
      | (RaiseOther e, n) => (RaiseOther e, n)
      | (RaiseProviderError msg, n) =>
          let candidates := _fallback_models provider model in
          if str_in "invalid model" (lower msg) || str_in "not found" (lower msg)
          then match provider with
               | None => (RaiseOther NoneAttributeError, n)
               | Some pv =>
                   let candidates :=
                     if (lower pv == "perplexity")
                     then ["sonar-small-chat"; "sonar-medium-chat"]
                     else candidates in
                   try_candidates attempt candidates msg n
               end
          else try_candidates attempt candidates msg n
      end.

(** The providers [plan_slides_via_llm] has a branch for. *)
Definition supported {R : Runtime} (provider : option str) : bool :=
  let p := lower (default "" provider) in
  (p == "openai") || is_google p || (p == "aipipe").

(** An entry as the normalisation leaves it: a layout hint that is a
    non-empty string, and a [notes] key if notes were asked for. *)
Definition normal_entry (include_notes : bool) (s : slide_data) : Prop :=
  (exists h, layout_hint s = Val h /\ h <> "") /\
  (include_notes = true -> notes s <> Absent).

Definition thirty_one_entries : list slide_data := replicate 31 empty_hint_entry.

(** A network that answers every request with a plan, and the parser that
    reads one entry out of it. *)
Definition obliging_network : Network :=
  fun _ _ => Answer (mkResponse 200 "OK" (Found (Some "{...}"))).

Definition one_entry_parser (text : str) : outcome (list slide_data) :=
  Return [empty_hint_entry].

Definition good_key : str := "sk-0123456789abcdefghij".

(** ** The routes of app.py

    [extension] stands for [os.path.splitext(secure_filename(name))[1]]; an
    error response is kept by its status and its cause. *)

Module app.

Record Upload := mkUpload { filename : str; contents : template_bytes }.

(** [request.form] and [request.files]: a missing field is [None]. *)
Record Form := mkForm {
  inputText : option str;
  guidance : option str;
  provider : option str;
  model : option str;
  apiKey : option str;
  includeNotes : option str;
  templateFile : option Upload
}.

Inductive Cause :=
  | InputTextRequired
  | ApiKeyRequired
  | UploadRequired
  | ExtensionNotSupported
  | ProviderFailure (provider msg : str)
  | BuildFailure (e : exn)
  | Unexpected (e : other_exn).

Inductive Response :=
  | JsonError (status : nat) (cause : Cause)
  | JsonSlides (slides : list slide_data)       (* 200, [{"ok": True, ...}] *)
  | SendFile (document : Presentation).          (* 200, the deck *)

(** [request.form.get(key, dflt).strip()] *)
Definition form_get (field : option str) (dflt : str) : str :=
  strip (default dflt field).

Definition UPLOAD_EXTENSIONS : list str := [".pptx"; ".potx"].

Definition allowed_extension (ext : str) : bool :=
  existsb (fun e => (ext == e)) UPLOAD_EXTENSIONS.

Definition generate {R : Runtime} (SYSTEM_PROMPT : str) (net : Network)
  (json_slides : str -> outcome (list slide_data))
  (extension : str -> str) (rng : nat -> nat) (form : Form)
  : nat -> Response * nat :=
  fun n =>
    let input_text := form_get (inputText form) "" in
    let guidance := form_get (guidance form) "" in
    let provider := form_get (provider form) "openai" in
    let model := form_get (model form) "" in
    let api_key := form_get (apiKey form) "" in
    let include_notes := (default "off" (includeNotes form) == "on") in
    if (input_text == "") then (JsonError 400 InputTextRequired, n)
    else if (api_key == "") then (JsonError 400 ApiKeyRequired, n)
    else
      match templateFile form with
      | None => (JsonError 400 UploadRequired, n)
      | Some f =>
          if (filename f == "") then (JsonError 400 UploadRequired, n)
          else if negb (allowed_extension (lower (extension (filename f))))
          then (JsonError 400 ExtensionNotSupported, n)
          else
            match _plan_with_fallback SYSTEM_PROMPT net json_slides
                    (Some provider) (Some model) api_key input_text
                    (Some guidance) include_notes n with
            | (RaiseProviderError e, n) =>
                (JsonError 400 (ProviderFailure provider e), n)
            | (RaiseOther e, n) => (JsonError 500 (Unexpected e), n)
            | (Return slide_plan, n) =>
                match build_presentation rng (contents f) slide_plan with
                | Raise e => (JsonError 500 (BuildFailure e), n)
                | Ok out_pptx => (SendFile out_pptx, n)
                end
            end
      end.

Definition preview {R : Runtime} (SYSTEM_PROMPT : str) (net : Network)
  (json_slides : str -> outcome (list slide_data)) (form : Form)
  : nat -> Response * nat :=
  fun n =>
    let input_text := form_get (inputText form) "" in
    let guidance := form_get (guidance form) "" in
    let provider := form_get (provider form) "openai" in
    let model := form_get (model form) "" in
    let api_key := form_get (apiKey form) "" in
    let include_notes := (default "off" (includeNotes form) == "on") in
    if (input_text == "") then (JsonError 400 InputTextRequired, n)
    else if (api_key == "") then (JsonError 400 ApiKeyRequired, n)
    else
      match _plan_with_fallback SYSTEM_PROMPT net json_slides
              (Some provider) (Some model) api_key input_text
              (Some guidance) include_notes n with
      | (RaiseProviderError e, n) =>
          (JsonError 400 (ProviderFailure provider e), n)
      | (RaiseOther e, n) => (JsonError 500 (Unexpected e), n)
      | (Return slide_plan, n) => (JsonSlides slide_plan, n)
      end.

Definition status (r : Response) : nat :=
  match r with
  | JsonError s _ => s
  | JsonSlides _ | SendFile _ => 200
  end.

End app.

(** A form as the page submits it, with the office template uploaded. *)
Definition office_form : app.Form :=
  app.mkForm (Some "  Quarterly results and outlook  ") None (Some "OpenAI ")
             None (Some good_key) (Some "on")
             (Some (app.mkUpload "deck.PPTX" (Package office_template))).

(** The extension function of the example.  "deck.PPTX" is a safe file
    name as it stands, and [os.path.splitext] splits it before its dot; no
    other name is uploaded here. *)
Definition deck_extension (name : str) : str :=
  if name == "deck.PPTX" then ".PPTX" else "".

(** * Properties *)

(** ** Strings *)

Lemma str_eqb_spec (a b : str) : reflect (a = b) (a == b).
Proof.
  revert b. induction a as [|x a IH]; intros [|y b]; cbn [str_eqb];
    try (by constructor).
  destruct (N.eqb_spec x y) as [->|Hne]; cbn [andb].
  - destruct (IH b) as [->|Hne]; constructor; congruence.
  - constructor. congruence.
Qed.

Lemma str_eqb_refl (a : str) : (a == a) = true.
Proof. by destruct (str_eqb_spec a a). Qed.

Lemma str_eqb_eq (a b : str) : (a == b) = true <-> a = b.
Proof. by destruct (str_eqb_spec a b). Qed.

Lemma str_eqb_neq (a b : str) : (a == b) = false <-> a <> b.
Proof. by destruct (str_eqb_spec a b). Qed.

Lemma append_nil (s : str) : [] ++ s = s.
Proof. reflexivity. Qed.

Lemma append_cons (c : codepoint) (a s : str) : (c :: a) ++ s = c :: (a ++ s).
Proof. reflexivity. Qed.

Lemma append_nil_r (s : str) : s ++ [] = s.
Proof. apply app_nil_r. Qed.

Lemma append_assoc (a b c : str) : (a ++ b) ++ c = a ++ (b ++ c).
Proof. symmetry. apply app_assoc. Qed.

Lemma length_append (a b : str) : length (a ++ b) = length a + length b.
Proof. apply length_app. Qed.

Lemma prefix_app (a b : str) :
  str_prefix a b = true <-> exists s, b = a ++ s.
Proof.
  revert b. induction a as [|c a IH]; intros b.
  - split; [intros _; by exists b|intros _; by destruct b].
  - destruct b as [|d b]; [split; [done|by intros [s Hs]]|].
    cbn [str_prefix]. destruct (N.eqb_spec c d) as [->|Hne]; cbn [andb].
    + rewrite IH. split; intros [s Hs]; exists s; simpl in *; congruence.
    + split; [done|]. intros [s Hs]. simpl in Hs. congruence.
Qed.

(** [str_in a b] is Python's [a in b]: [a] occurs in [b] as a contiguous
    piece. *)
Lemma str_in_spec (a b : str) :
  str_in a b = true <-> exists p s, b = p ++ a ++ s.
Proof.
  induction b as [|d b IH]; cbn [str_in].
  - rewrite orb_false_r, prefix_app. split.
    + intros [s Hs]. by exists [], s.
    + intros ([|c p] & s & Hs); [by exists s|done].
  - rewrite orb_true_iff, IH, prefix_app. split.
    + intros [[s Hs]|(p & s & ->)].
      * by exists [], s.
      * by exists (d :: p), s.
    + intros ([|c p] & s & Hs).
      * left. by exists s.
      * right. simpl in Hs. injection Hs as -> ->. by exists p, s.
Qed.

(** A piece of a piece is a piece. *)
Lemma str_in_trans (x y s : str) :
  str_in x y = true -> str_in y s = true -> str_in x s = true.
Proof.
  rewrite !str_in_spec. intros (p1 & q1 & ->) (p2 & q2 & ->).
  exists (p2 ++ p1), (q1 ++ q2). by rewrite !append_assoc.
Qed.

Lemma str_in_piece (x y s p q : str) :
  str_in x s = false -> s = p ++ y ++ q -> str_in x y = false.
Proof.
  intros H ->. destruct (str_in x y) eqn:E; [|done]. rewrite <- H. symmetry.
  apply (str_in_trans _ y); [done|]. apply str_in_spec. by exists p, q.
Qed.

Lemma prefix_app_here (p v : str) : str_prefix p (p ++ v) = true.
Proof. apply prefix_app. by exists v. Qed.

(** A prefix of [u ++ v] no longer than [u] is a prefix of [u]. *)
Lemma prefix_app_short (p u v : str) :
  str_prefix p (u ++ v) = true -> length p <= length u ->
  str_prefix p u = true.
Proof.
  revert u. induction p as [|c p IH]; intros u H L.
  - by destruct u.
  - destruct u as [|d u]; simpl in L; [lia|]. simpl in H. cbn [str_prefix].
    apply andb_prop in H as [-> H]. apply IH; [done|lia].
Qed.

Lemma str_in_cons_false (sub : str) (c : codepoint) (s : str) :
  str_in sub (c :: s) = false ->
  str_prefix sub (c :: s) = false /\ str_in sub s = false.
Proof. cbn [str_in]. by intros [? ?]%orb_false_elim. Qed.


Lemma str_take_idem (n : nat) (s : str) :
  str_take n (str_take n s) = str_take n s.
Proof. apply take_idemp. Qed.

Lemma str_take_app (n : nat) (a b : str) :
  n <= length a -> str_take n (a ++ b) = str_take n a.
Proof. intros H. by apply take_app_le. Qed.

Lemma str_take_app_exact (u v : str) : str_take (length u) (u ++ v) = u.
Proof. apply take_app_length. Qed.

Lemma str_drop_app (u v : str) (k : nat) :
  str_drop (length u + k) (u ++ v) = str_drop k v.
Proof. apply drop_app_add. Qed.

Lemma str_drop_0 (s : str) : str_drop 0 s = s.
Proof. reflexivity. Qed.


(** ** Slide purge (C5) *)

Lemma purge_step_frame (prs : Presentation) (x : SldId) :
  slide_layouts (purge_step prs x) = slide_layouts prs /\
  slide_masters (purge_step prs x) = slide_masters prs /\
  theme (purge_step prs x) = theme prs /\
  notes_master (purge_step prs x) = notes_master prs /\
  can_save (purge_step prs x) = can_save prs.
Proof. by destruct prs. Qed.

Lemma same_element_refl (x : SldId) : same_element x x = true.
Proof. unfold same_element. by rewrite !Nat.eqb_refl. Qed.

Lemma purge_loop (l : list SldId) :
  forall prs, sldIdLst prs = l ->
    sldIdLst (foldl purge_step prs l) = [] /\
    slide_layouts (foldl purge_step prs l) = slide_layouts prs /\
    slide_masters (foldl purge_step prs l) = slide_masters prs /\
    theme (foldl purge_step prs l) = theme prs /\
    notes_master (foldl purge_step prs l) = notes_master prs /\
    can_save (foldl purge_step prs l) = can_save prs.
Proof.
  induction l as [|x l IH]; intros prs Hl; simpl.
  - done.
  - destruct (purge_step_frame prs x) as (E1 & E2 & E3 & E4 & E5).
    rewrite <- E1, <- E2, <- E3, <- E4, <- E5.
    apply IH. simpl. by rewrite Hl; simpl; rewrite same_element_refl.
Qed.

Lemma purge_leaves_slides_empty (prs : Presentation) :
  slides (_purge_all_existing_slides prs) = [] /\
  slide_layouts (_purge_all_existing_slides prs) = slide_layouts prs.
Proof.
  unfold _purge_all_existing_slides, slides.
  destruct (purge_loop (sldIdLst prs) prs eq_refl) as (E0 & E1 & _).
  by rewrite E0, E1.
Qed.

(** C5.  After [_purge_all_existing_slides] the document has no slide; its
    layouts (hence their number), its masters and its theme are those it
    had before. *)
Theorem purge_leaves_layouts_masters_theme (prs : Presentation) :
  let prs' := _purge_all_existing_slides prs in
  slides prs' = [] /\
  length (slides prs') = 0 /\
  length (slide_layouts prs') = length (slide_layouts prs) /\
  slide_layouts prs' = slide_layouts prs /\
  slide_masters prs' = slide_masters prs /\
  theme prs' = theme prs.
Proof.
  intros prs'. subst prs'. unfold _purge_all_existing_slides, slides.
  destruct (purge_loop (sldIdLst prs) prs eq_refl) as (E0 & E1 & E2 & E3 & _).
  rewrite E0, E1, E2, E3. done.
Qed.

(** ** Image harvest (C4) *)

Lemma length_swap {A} (x : list A) (i j : nat) : length (swap x i j) = length x.
Proof.
  unfold swap. destruct (x !! i), (x !! j); try done.
  by rewrite !length_insert.
Qed.

Lemma swap_Permutation {A} (x : list A) (i j : nat) : swap x i j ≡ₚ x.
Proof.
  unfold swap. destruct (x !! i) eqn:Hi, (x !! j) eqn:Hj; try done.
  by apply Permutation_insert_swap.
Qed.

Lemma shuffle_Permutation {A} (rng : nat -> nat) (x : list A) : shuffle rng x ≡ₚ x.
Proof.
  unfold shuffle. generalize (length x - 1) as i. intros i. revert x.
  induction i as [|i IH]; intros x; simpl; [done|].
  rewrite IH. apply swap_Permutation.
Qed.

Lemma length_shuffle {A} (rng : nat -> nat) (x : list A) :
  length (shuffle rng x) = length x.
Proof. apply Permutation_length, shuffle_Permutation. Qed.

Lemma harvest_slide_filter (l : list Shape) :
  length (omap (fun shape => try_except (harvest_shape shape) None) l)
  = length (List.filter readable_picture l).
Proof.
  induction l as [|sh l IH]; [done|].
  cbn [omap list_omap List.filter]. unfold readable_picture, is_picture, harvest_shape at 1.
  destruct (broken sh), (shape_type sh), (image sh); simpl; by rewrite ?IH.
Qed.

Lemma length_collect_unshuffled (l : list Slide) :
  length (concat (map harvest_slide l))
  = length (List.filter readable_picture (concat (map shapes l))).
Proof.
  induction l as [|s l IH]; [done|]. simpl.
  rewrite length_app, List.filter_app, length_app, IH.
  unfold harvest_slide. by rewrite harvest_slide_filter.
Qed.

(** C4, amended.  The harvest reads the document as opened, before the purge
    (after it nothing is left to harvest); the sequence is a shuffle of the
    images found, and its length is the number of picture shapes, over all
    the original slides, whose image can be read. *)
Theorem harvest_count {R : Runtime} (rng : nat -> nat) (prs : Presentation) :
  length (_collect_template_images rng prs)
    = length (List.filter readable_picture (all_shapes prs)) /\
  _collect_template_images rng prs ≡ₚ collect_unshuffled prs /\
  _collect_template_images rng (_purge_all_existing_slides prs) = [] /\
  (forall plan,
     build_presentation rng (Package prs) plan
     = (prs' ← build_loop (_purge_all_existing_slides prs)
                           (_collect_template_images rng prs) 0 plan;
        save prs')).
Proof.
  repeat split.
  - unfold _collect_template_images. rewrite length_shuffle.
    apply length_collect_unshuffled.
  - apply shuffle_Permutation.
  - unfold _collect_template_images, collect_unshuffled.
    destruct (purge_leaves_slides_empty prs) as [-> _]. done.
Qed.

(** C4 as stated fails: a linked picture is a picture shape and is not
    harvested. *)
Lemma harvest_count_counterexample :
  length (_collect_template_images (fun _ => 0) linked_template)
  <> length (List.filter is_picture (all_shapes linked_template)).
Proof. vm_compute. discriminate. Qed.

(** ** Layout resolution (C2) *)

Lemma first_index_Some {A} (p : A -> bool) (l : list A) :
  forall n i, first_index p l n = Some i ->
    exists k, i = n + k /\ first_match p l k.
Proof.
  induction l as [|x l IH]; intros n i H; simpl in H; [done|].
  destruct (p x) eqn:Hp.
  - injection H as <-. exists 0. split; [lia|]. split.
    + by exists x.
    + intros j y Hj. lia.
  - apply IH in H as (k & -> & (z & Hz & Hpz) & Hmin).
    exists (S k). split; [lia|]. split.
    + by exists z.
    + intros [|j] y Hj Hy; simpl in Hy.
      * by injection Hy as <-.
      * apply (Hmin j); [lia|done].
Qed.

Lemma first_index_None {A} (p : A -> bool) (l : list A) :
  forall n, first_index p l n = None -> no_match p l.
Proof.
  induction l as [|x l IH]; intros n H y Hy; simpl in H.
  - by apply elem_of_nil in Hy.
  - destruct (p x) eqn:Hp; [done|].
    apply elem_of_cons in Hy as [->|Hy]; [done|]. by eapply IH.
Qed.



(** The outer loop: the first pattern, in preference order, that some layout
    matches, and for it the first such layout. *)
Lemma by_name_Some {R : Runtime} (layouts : list Layout) (prefs : list str) (i : nat) :
  by_name prefs layouts = Some i ->
  exists k pat, prefs !! k = Some pat /\
    (forall k' pat', k' < k -> prefs !! k' = Some pat' ->
                     no_match (name_contains pat') layouts) /\
    first_match (name_contains pat) layouts i.
Proof.
  induction prefs as [|pat prefs IH]; intros H; simpl in H; [done|].
  destruct (first_index (name_contains pat) layouts 0) as [i'|] eqn:E.
  - injection H as ->. apply first_index_Some in E as (k & -> & Hk).
    exists 0, pat. split; [done|]. split; [intros; lia|done].
  - apply IH in H as (k & pat0 & Hk & Hbefore & Hm).
    exists (S k), pat0. split; [done|]. split; [|done].
    intros [|k'] pat' Hlt Hp; simpl in Hp.
    + injection Hp as <-. by eapply first_index_None.
    + apply (Hbefore k'); [lia|done].
Qed.

Lemma by_name_None {R : Runtime} (layouts : list Layout) (prefs : list str) :
  by_name prefs layouts = None ->
  forall pat, pat ∈ prefs -> no_match (name_contains pat) layouts.
Proof.
  induction prefs as [|pat0 prefs IH]; intros H pat Hin; simpl in H.
  - by apply elem_of_nil in Hin.
  - destruct (first_index (name_contains pat0) layouts 0) eqn:E; [done|].
    apply elem_of_cons in Hin as [->|Hin]; [by eapply first_index_None|].
    by apply IH.
Qed.

Lemma find_layout_index_resolves {R : Runtime} (prs : Presentation) (hint : option str) :
  resolves prs hint (_find_layout_index prs hint).
Proof.
  unfold _find_layout_index.
  destruct (by_name _ _) as [i|] eqn:E1.
  { apply by_name_Some in E1 as (k & pat & ? & ? & ?). by eapply by_pattern. }
  pose proof (by_name_None _ _ E1) as N1.
  destruct (first_index _layout_has_body _ 0) as [i|] eqn:E2.
  { apply first_index_Some in E2 as (k & -> & ?). by apply by_body. }
  pose proof (first_index_None _ _ _ E2) as N2.
  destruct (first_index (name_contains "title") _ 0) as [i|] eqn:E3.
  { apply first_index_Some in E3 as (k & -> & ?). by apply by_title. }
  pose proof (first_index_None _ _ _ E3) as N3.
  by apply by_position.
Qed.






(** A layout named in capitals is found by the pattern of the table, and a
    name that only resembles the pattern is not. *)
Lemma find_layout_index_ignores_case :
  let R : Runtime := plain in
  _find_layout_index shouting_template (Some "title_and_content") = 1 /\
  _find_layout_index shouting_template (Some "title_only") = 2.
Proof. intros R. vm_compute. done. Qed.

(** A name with a letter outside ASCII is folded by the runtime: where
    [str.lower] takes the Kelvin sign to the letter k, as Python's does,
    the layout "BLAN(Kelvin sign) TITLE" is the one the pattern "Blank Title"
    finds. *)
Lemma find_layout_index_kelvin_sign {R : Runtime} :
  py_lower ("BLAN" ++ [8490%N] ++ " TITLE") = "blank title" ->
  _find_layout_index
    (mkPresentation [L_blank; mkLayout (Some ("BLAN" ++ [8490%N] ++ " TITLE")) []]
                    ["Office Theme"] "theme1" [] [1] (NotesFrame "") true)
    (Some "title_only") = 1.
Proof.
  intros H. unfold _find_layout_index, prefs_of. cbn [next_prefs LAYOUT_PREFS].
  vm_compute. vm_compute in H. rewrite H. by vm_compute.
Qed.

(** ** Text writes (C7, C3) *)

Lemma write_bullet_empty (l : nat) (b : str) :
  write_bullet (mkParagraph [] l) b = bullet_paragraph b.
Proof.
  unfold write_bullet, bullet_paragraph. simpl.
  by destruct (100 <? length b).
Qed.

Lemma bullets_loop_S (bullets : list str) :
  forall i tf,
    bullets_loop (S i) bullets tf
    = mkTextFrame (first_paragraph tf)
                  (more_paragraphs tf ++ map bullet_paragraph bullets)
                  (word_wrap tf).
Proof.
  induction bullets as [|b bs IH]; intros i tf; simpl.
  - rewrite app_nil_r. by destruct tf.
  - rewrite IH. simpl. by rewrite write_bullet_empty, <- app_assoc.
Qed.

Lemma bullets_loop_clear (bullets : list str) (tf : TextFrame) :
  written_paragraphs (bullets_loop 0 bullets (clear tf))
    = map bullet_paragraph bullets /\
  word_wrap (bullets_loop 0 bullets (clear tf)) = word_wrap tf /\
  (bullets <> [] ->
   paragraphs (bullets_loop 0 bullets (clear tf)) = map bullet_paragraph bullets).
Proof.
  destruct bullets as [|b bs]; [done|].
  cbn [bullets_loop]. rewrite bullets_loop_S. simpl.
  rewrite write_bullet_empty. unfold written_paragraphs, paragraphs. simpl.
  split; [|done]. f_equal.
  induction bs as [|c bs IH]; [done|]. simpl. by rewrite IH.
Qed.

Lemma set_text_frame_eq (shape : Shape) (tf : TextFrame) (text : str) :
  get_text_frame shape = Ok (Some tf) ->
  _set_text shape text
  = set_text_frame shape
      (mkTextFrame
         (mkParagraph
            [mkRun text (if 90 <? length text then Some (Pt 20) else None)]
            (level (first_paragraph tf)))
         [] (word_wrap tf)).
Proof.
  intros H. unfold _set_text, _set_text_body. rewrite H. simpl.
  by destruct (90 <? length text).
Qed.

Lemma set_bullets_frame_eq (shape : Shape) (tf : TextFrame) (bullets : list str) :
  get_text_frame shape = Ok (Some tf) ->
  _set_bullets shape bullets
  = set_text_frame shape
      (set_word_wrap (bullets_loop 0 (take 12 bullets) (clear tf))).
Proof. intros H. unfold _set_bullets, _set_bullets_body. by rewrite H. Qed.

Lemma frame_at_update (slide : Slide) (i : nat) (f : Shape -> Shape) (shp : Shape) :
  shapes slide !! i = Some shp ->
  frame_at (update_shape slide i f) i = text_frame (f shp).
Proof.
  intros H. unfold frame_at, update_shape. simpl.
  by rewrite list_lookup_alter_eq, H.
Qed.

(** C7.  On a shape whose text frame can be reached, [_set_text] leaves a
    single paragraph holding a single run with the text, whatever the frame
    held before; the run gets an explicit size exactly when the text is
    longer than 90 characters, and wrap and level are as the template had
    them.  A bullet's run gets an explicit size exactly when the bullet is
    longer than 100 characters: a bullet of 150 characters is shrunk, one of
    50 is not. *)
Theorem set_text_single_run (shape : Shape) (tf : TextFrame) (text : str)
  (bullets : list str) :
  get_text_frame shape = Ok (Some tf) ->
  (exists tf',
     text_frame (_set_text shape text) = Some tf' /\
     paragraphs tf'
       = [mkParagraph
            [mkRun text (if 90 <? length text then Some (Pt 20) else None)]
            (level (first_paragraph tf))] /\
     word_wrap tf' = word_wrap tf) /\
  (exists tf',
     text_frame (_set_bullets shape bullets) = Some tf' /\
     written_paragraphs tf' = map bullet_paragraph (take 12 bullets)) /\
  (forall b, length b = 150 ->
             map font_size (runs (bullet_paragraph b)) = [Some (Pt 16)]) /\
  (forall b, length b = 50 ->
             map font_size (runs (bullet_paragraph b)) = [None]).
Proof.
  intros H. split; [|split; [|split]].
  - rewrite (set_text_frame_eq shape tf text H). eexists. split; [reflexivity|done].
  - rewrite (set_bullets_frame_eq shape tf bullets H). eexists. split; [reflexivity|].
    apply (bullets_loop_clear (take 12 bullets) tf).
  - intros b Hb. unfold bullet_paragraph. by rewrite Hb.
  - intros b Hb. unfold bullet_paragraph. by rewrite Hb.
Qed.

Lemma set_text_single_run_witness :
  get_text_frame (ph 0 TITLE) = Ok (Some fresh_frame) /\
  exists tf',
    text_frame (_set_text (ph 0 TITLE) "Intro") = Some tf' /\
    paragraphs tf' = [mkParagraph [mkRun "Intro" None] 0] /\
    word_wrap tf' = None.
Proof.
  split; [reflexivity|].
  exact (proj1 (set_text_single_run (ph 0 TITLE) fresh_frame "Intro" ["a"; "b"]
                  eq_refl)).
Defined.


Lemma length_bullets_of (sd : slide_data) :
  length (bullets_of sd) = min (length (or_list (get (bullets sd)) [])) 12.
Proof. unfold bullets_of. rewrite length_take. lia. Qed.

(** The thresholds count characters: a title of 40 CJK characters keeps
    the size of the theme. *)
Lemma cjk_title_keeps_size :
  text_frame (_set_text (ph 0 TITLE) (replicate 40 20013%N))
  = Some (mkTextFrame
            (mkParagraph [mkRun (replicate 40 20013%N) None] 0) [] None).
Proof. reflexivity. Qed.

(** ** Image placement (C6) *)

Lemma omap_image_insert (l : list Shape) :
  forall i x y b,
    omap image l = [] -> l !! i = Some x -> image y = Some b ->
    omap image (<[i := y]> l) = [b].
Proof.
  induction l as [|z l IH]; intros i x y b Hnil Hi Hy; [done|].
  cbn [omap list_omap] in Hnil. destruct (image z) eqn:Hz; [done|].
  destruct i as [|i]; cbn [insert list_insert omap list_omap].
  - rewrite Hy. cbn [omap] in Hnil. by rewrite Hnil.
  - rewrite Hz. apply (IH i x y b Hnil Hi Hy).
Qed.

Lemma omap_image_alter (f : Shape -> Shape) (l : list Shape) (i : nat) :
  (forall shp, image (f shp) = image shp) ->
  omap image (alter f i l) = omap image l.
Proof.
  intros Hf. revert i.
  induction l as [|z l IH]; intros [|i]; cbn [alter list_alter omap list_omap];
    try done.
  - by rewrite Hf.
  - by rewrite (IH i).
Qed.

Lemma image_set_text (shp : Shape) (text : str) :
  image (_set_text shp text) = image shp.
Proof.
  unfold _set_text, _set_text_body, get_text_frame.
  by destruct (broken shp), (text_frame shp).
Qed.

Lemma image_set_bullets (shp : Shape) (bullets : list str) :
  image (_set_bullets shp bullets) = image shp.
Proof.
  unfold _set_bullets, _set_bullets_body, get_text_frame.
  by destruct (broken shp), (text_frame shp).
Qed.

Lemma slide_images_write_title (slide : Slide) (t : option nat) (text : str) :
  slide_images (write_title slide t text) = slide_images slide.
Proof.
  unfold slide_images, write_title, add_textbox, update_shape, set_shapes.
  destruct t as [i|]; cbn [shapes].
  - apply omap_image_alter. intros. apply image_set_text.
  - rewrite omap_image_alter by (intros; apply image_set_text).
    rewrite omap_app. cbn. by rewrite app_nil_r.
Qed.

Lemma slide_images_write_body (slide : Slide) (t : option nat) (bs : list str) :
  slide_images (write_body slide t bs) = slide_images slide.
Proof.
  unfold slide_images, write_body, add_textbox, update_shape, set_shapes.
  destruct t as [i|]; cbn [shapes].
  - apply omap_image_alter. intros. apply image_set_bullets.
  - rewrite omap_image_alter by (intros; apply image_set_bullets).
    rewrite omap_app. cbn. by rewrite app_nil_r.
Qed.

Lemma slide_images_ensure_notes (slide : Slide) (text : option str) :
  slide_images (_ensure_notes slide text) = slide_images slide.
Proof.
  unfold _ensure_notes. destruct text as [[|c s]|]; try done.
  by destruct (notes_slide slide).
Qed.

(** A slide just created holds no image. *)
(** Every shape of a new slide is a clone. *)
Lemma clone_layout_placeholders_clones (phs l : list Shape) :
  clone_layout_placeholders phs = Ok l ->
  Forall (fun shp => exists idx t, shp = cloned idx t (box shp) /\
                                   latent t = false /\
                                   is_Some (ph_basename t)) l.
Proof.
  revert l. induction phs as [|ph phs IH]; intros l; cbn [clone_layout_placeholders].
  { by intros [= <-]. }
  unfold clone_placeholder.
  destruct (broken ph); [done|].
  destruct (placeholder_format ph) as [[idx t]|]; [|done].
  destruct (latent t) eqn:Hl; cbn [mbind result_bind].
  - destruct (clone_layout_placeholders phs) as [l'|]; [|done].
    intros [= <-]. by apply IH.
  - destruct (ph_basename t) as [nm|] eqn:Hn; [|done]. cbn [mbind result_bind].
    destruct (clone_layout_placeholders phs) as [l'|]; [|done].
    intros [= <-]. constructor; [|by apply IH].
    exists idx, t. by rewrite Hn.
Qed.

Lemma new_slide_clones (prs : Presentation) (layout : Layout) (slide : Slide) :
  new_slide prs layout = Ok slide ->
  slide_layout slide = layout /\ notes_slide slide = notes_master prs /\
  Forall (fun shp => exists idx t, shp = cloned idx t (box shp) /\
                                   latent t = false /\
                                   is_Some (ph_basename t)) (shapes slide).
Proof.
  unfold new_slide.
  destruct (clone_layout_placeholders _) as [l|] eqn:E; [|done].
  intros [= <-]. cbn. repeat split. by apply clone_layout_placeholders_clones in E.
Qed.

Lemma new_slide_no_images (prs : Presentation) (layout : Layout) (slide : Slide) :
  new_slide prs layout = Ok slide -> slide_images slide = [].
Proof.
  intros (_ & _ & H)%new_slide_clones. unfold slide_images.
  induction H as [|shp l (idx & t & -> & _) _ IH]; [done|].
  cbn [omap list_omap cloned image]. exact IH.
Qed.

(** What the placement does with a chosen image on a slide that holds none:
    the image is on the slide if the backend takes it, and the slide is
    untouched if it does not. *)
Lemma place_chosen (slide : Slide) (blob : Blob) :
  slide_images slide = [] ->
  let '(slide1, placed) := _fill_picture_placeholder_if_any slide blob in
  let slide' := if placed then slide1
                else try_except (add_picture slide1 blob accent_box) slide1 in
  if decodes blob then slide_images slide' = [blob] else slide' = slide.
Proof.
  intros Hnil. unfold _fill_picture_placeholder_if_any.
  assert (Hadd : forall bx, decodes blob = true ->
            slide_images (set_shapes slide
              (shapes slide ++
               [mkShape MSO_PICTURE None false None (Some blob) bx false])) = [blob]).
  { intros bx _. unfold slide_images. simpl. rewrite omap_app.
    unfold slide_images in Hnil. by rewrite Hnil. }
  destruct (_first_placeholder slide PICTURE_TYPES) as [i|]; simpl.
  2:{ unfold add_picture. destruct (decodes blob) eqn:D; simpl; [by apply Hadd|done]. }
  destruct (shapes slide !! i) as [pic_ph|] eqn:Hi; simpl.
  2:{ unfold add_picture. destruct (decodes blob) eqn:D; simpl; [by apply Hadd|done]. }
  unfold insert_picture, get_box, add_picture.
  destruct (broken pic_ph), (has_insert_picture pic_ph), (decodes blob) eqn:D;
    simpl; try done; try (by apply Hadd).
  unfold slide_images. simpl. by eapply omap_image_insert.
Qed.

Lemma pick_image_Some (images : list HarvestedImage) (idx : nat) (bs : list str)
  (img : HarvestedImage) :
  pick_image images idx bs = Some img <->
  images <> [] /\ (idx mod 3 = 0 \/ length bs <= 2) /\
  images !! (idx mod length images) = Some img.
Proof.
  unfold pick_image. destruct images as [|x l].
  { split; [done|]. by intros [? _]. }
  destruct (Nat.eqb_spec (idx mod 3) 0) as [E3|E3];
    destruct (Nat.leb_spec0 (length bs) 2) as [E2|E2]; simpl.
  1-3: split; [intros H; split; [done|]; split; [auto|done]|by intros (_ & _ & H)].
  split; [done|]. intros (_ & [?|?] & _); done.
Qed.

Lemma pick_image_None (images : list HarvestedImage) (idx : nat) (bs : list str) :
  pick_image images idx bs = None ->
  images = [] \/ ~ (idx mod 3 = 0 \/ length bs <= 2).
Proof.
  unfold pick_image. destruct images as [|x l]; [by left|]. intros H. right.
  assert (Hlt : idx mod length (x :: l) < length (x :: l)).
  { apply Nat.mod_upper_bound. simpl. lia. }
  destruct (Nat.eqb_spec (idx mod 3) 0) as [E3|E3];
    destruct (Nat.leb_spec0 (length bs) 2) as [E2|E2]; simpl in H.
  1-3: apply lookup_ge_None in H; simpl in *; lia.
  intros [?|?]; done.
Qed.

Lemma sparse_bullets (sd : slide_data) :
  length (bullets_of sd) <= 2 <-> length (or_list (get (bullets sd)) []) <= 2.
Proof. rewrite length_bullets_of. lia. Qed.

Lemma slide_images_before_placement (slide : Slide) (sd : slide_data) :
  slide_images
    (_ensure_notes
       (write_body (write_title slide (title_target slide) (title_text sd))
                   (body_target slide) (bullets_of sd))
       (get_or (notes sd) ""))
  = slide_images slide.
Proof.
  by rewrite slide_images_ensure_notes, slide_images_write_body,
             slide_images_write_title.
Qed.

(** C6, amended.  On the slide of entry [idx] (a new slide holds no image),
    an image is found after the entry is written only if some image was
    harvested and [idx mod 3 = 0] or the entry has at most 2 bullets; under
    that condition the image chosen is [images[idx mod len(images)]], and
    the slide holds exactly that image when the insertion succeeds and no
    image when it raises.  With no harvested image no slide receives one.
    Two images over five such consecutive entries are used in the order
    0, 1, 0, 1, 0. *)
Theorem image_placement (slide : Slide) (images : list HarvestedImage)
  (idx : nat) (sd : slide_data) :
  slide_images slide = [] ->
  let slide' := write_slide slide images idx sd in
  (slide_images slide' <> [] -> eligible images idx sd) /\
  (eligible images idx sd ->
   exists blob w h,
     images !! (idx mod length images) = Some (blob, w, h) /\
     slide_images slide' = if decodes blob then [blob] else []) /\
  (images = [] -> slide_images slide' = []) /\
  (forall a b : HarvestedImage,
     length (bullets_of sd) <= 2 ->
     map (fun k => pick_image [a; b] k (bullets_of sd)) (seq 0 5)
     = [Some a; Some b; Some a; Some b; Some a]).
Proof.
  intros Hnil slide'. subst slide'. unfold write_slide, place_image.
  pose proof (slide_images_before_placement slide sd) as Hpre.
  rewrite Hnil in Hpre.
  set (s3 := _ensure_notes _ _) in *.
  destruct (pick_image images idx (bullets_of sd)) as [[[blob w] h]|] eqn:Hp.
  - apply pick_image_Some in Hp as (Hne & Hc & Hl).
    rewrite sparse_bullets in Hc.
    pose proof (place_chosen s3 blob Hpre) as Hplace.
    destruct (_fill_picture_placeholder_if_any s3 blob) as [s4 placed].
    split; [by intros _|]. split; [|split; [done|]].
    + intros _. exists blob, w, h. split; [done|].
      destruct (decodes blob); [done|]. by rewrite Hplace.
    + intros a b Hs. simpl. by destruct (length (bullets_of sd) <=? 2) eqn:E;
        [|apply Nat.leb_gt in E; lia].
  - split; [by rewrite Hpre|]. split; [|split; [by rewrite Hpre|]].
    + intros [Hne Hc]. rewrite <- sparse_bullets in Hc.
      apply pick_image_None in Hp as [?|?]; done.
    + intros a b Hs. simpl. by destruct (length (bullets_of sd) <=? 2) eqn:E;
        [|apply Nat.leb_gt in E; lia].
Qed.

Lemma image_placement_witness :
  slide_images fresh_title_slide = [] /\
  exists blob w h,
    two_images !! (0 mod length two_images) = Some (blob, w, h) /\
    slide_images (write_slide fresh_title_slide two_images 0 intro_entry)
    = if decodes blob then [blob] else [].
Proof.
  split; [reflexivity|].
  apply (proj1 (proj2 (image_placement fresh_title_slide two_images 0 intro_entry
                         eq_refl))).
  split; [discriminate|]. left. reflexivity.
Defined.

(** C6 as stated fails: one image was harvested and entry 0 qualifies, yet
    the slide receives no image, because the stream is not one the backend
    can insert and the failure is swallowed. *)
Lemma image_placement_counterexample :
  let R : Runtime := plain in
  ~ (slide_images (write_slide fresh_title_slide [(emf1, None, None)] 0 intro_entry)
       <> []
     <-> eligible [(emf1, None, None)] 0 intro_entry) /\
  exists out,
    build_presentation (fun _ => 0) (Package emf_template) [intro_entry] = Ok out /\
    length (_collect_template_images (fun _ => 0) emf_template) = 1 /\
    map slide_images (slides out) = [[]].
Proof. intros R.
  split.
  - intros [_ H]. apply H; [|reflexivity].
    split; [discriminate|]. left. reflexivity.
  - eexists. split; [reflexivity|]. split; reflexivity.
Qed.

(** ** The default layout hint (C9) *)

Lemma default_hint_missing (sd : slide_data) :
  hint_missing sd -> default_hint sd = with_hint sd "title_and_content".
Proof. unfold default_hint, with_hint. by intros [H|[H|H]]; rewrite H. Qed.

Lemma default_hint_with_hint (sd : slide_data) :
  default_hint (with_hint sd "title_and_content")
  = with_hint sd "title_and_content".
Proof. done. Qed.

Lemma add_notes_with_hint (sd : slide_data) (h : str) :
  add_notes (with_hint sd h) = with_hint (add_notes sd) h.
Proof. destruct sd as [t b l n]. by destruct n. Qed.

Lemma hint_missing_add_notes (sd : slide_data) :
  hint_missing sd -> hint_missing (add_notes sd).
Proof. destruct sd as [t b l n]. by destruct n. Qed.

Lemma normalize_plan_missing_hint (include_notes : bool)
  (before after : list slide_data) (sd : slide_data) :
  hint_missing sd ->
  normalize_plan include_notes (before ++ sd :: after)
  = normalize_plan include_notes
      (before ++ with_hint sd "title_and_content" :: after).
Proof.
  intros H. unfold normalize_plan.
  assert (E : forall f : slide_data -> slide_data,
            f sd = f (with_hint sd "title_and_content") ->
            map f (take 30 (before ++ sd :: after))
            = map f (take 30 (before ++ with_hint sd "title_and_content" :: after))).
  { intros f Hf. rewrite <- !List.firstn_map, !List.map_app. simpl. by rewrite Hf. }
  destruct before as [|x before]; simpl app; cbv iota beta;
    destruct include_notes.
  all: rewrite ?map_map; f_equal; apply E.
  all: rewrite ?add_notes_with_hint, ?default_hint_with_hint;
    by rewrite default_hint_missing by auto using hint_missing_add_notes.
Qed.

(** C9.  An entry of the provider's plan whose [layout_hint] is missing,
    [None] or empty goes through the pipeline exactly as the same entry
    with the hint [title_and_content]; handed to [build_presentation]
    without the key, it is built as with that hint; and the patterns tried
    for it are those of [title_and_content]. *)
Theorem missing_hint_is_title_and_content {R : Runtime} (rng : nat -> nat) (t : template_bytes)
  (include_notes : bool) (before after : list slide_data) (sd : slide_data) :
  hint_missing sd ->
  generate rng t include_notes (before ++ sd :: after)
    = generate rng t include_notes
        (before ++ with_hint sd "title_and_content" :: after) /\
  (layout_hint sd = Absent ->
   forall prs images idx,
     build_slide prs images idx sd
     = build_slide prs images idx (with_hint sd "title_and_content")) /\
  prefs_of (get_or (layout_hint (default_hint sd)) "title_and_content")
    = ["Title and Content"; "Content with Caption";
       "Title and Content (2)"; "Title and Content 2"].
Proof.
  intros H. split; [|split].
  - unfold generate. by rewrite normalize_plan_missing_hint.
  - intros Ha prs images idx. unfold build_slide, create_slide, write_slide.
    by rewrite Ha.
  - by rewrite default_hint_missing.
Qed.

Lemma missing_hint_is_title_and_content_witness :
  let R : Runtime := plain in
  hint_missing empty_hint_entry /\
  generate (fun _ => 0) (Package caption_template) true
           ([intro_entry] ++ empty_hint_entry :: [])
  = generate (fun _ => 0) (Package caption_template) true
             ([intro_entry] ++ with_hint empty_hint_entry "title_and_content" :: []).
Proof. intros R.
  assert (H : hint_missing empty_hint_entry) by (right; right; reflexivity).
  split; [exact H|].
  exact (proj1 (missing_hint_is_title_and_content (fun _ => 0)
                  (Package caption_template) true [intro_entry] []
                  empty_hint_entry H)).
Defined.

(** Outside the pipeline the empty hint is not the default: handed straight
    to [_find_layout_index], it selects the fallback patterns. *)
Lemma empty_hint_unnormalised :
  let R : Runtime := plain in
  _find_layout_index caption_template (Some "") = 0 /\
  _find_layout_index caption_template (Some "title_and_content") = 1.
Proof. intros R. split; reflexivity. Qed.

(** ** The build as a whole (C8, C10, C1) *)

Lemma find_layout_index_lt {R : Runtime} (prs : Presentation) (hint : option str) :
  slide_layouts prs <> [] ->
  _find_layout_index prs hint < length (slide_layouts prs).
Proof.
  intros Hne.
  destruct (find_layout_index_resolves prs hint)
    as [k pat i _ _ [(x & Hx & _) _]|i _ [(x & Hx & _) _]
       |i _ _ [(x & Hx & _) _]|_ _ _];
    try by eapply lookup_lt_Some.
  destruct (slide_layouts prs); [done|simpl; lia].
Qed.

Lemma new_slide_notes (p q : Presentation) (layout : Layout) :
  notes_master p = notes_master q -> new_slide p layout = new_slide q layout.
Proof. unfold new_slide. by intros ->. Qed.

Lemma new_slide_raise (prs : Presentation) (layout : Layout) (e : exn) :
  new_slide prs layout = Raise e <->
  clone_layout_placeholders (lay_placeholders layout) = Raise e.
Proof.
  unfold new_slide. destruct (clone_layout_placeholders _); cbn; split;
    by intros [= ->].
Qed.

Lemma new_slide_ok (prs : Presentation) (layout : Layout) :
  clones layout = true -> exists slide, new_slide prs layout = Ok slide.
Proof.
  unfold clones, new_slide.
  destruct (clone_layout_placeholders _) as [l|]; [|done]. by eexists.
Qed.

Lemma add_slide_inv (prs prs' : Presentation) (layout : Layout) (slide : Slide) :
  add_slide prs layout = Ok (prs', slide) ->
  new_slide prs layout = Ok slide /\ same_template prs' prs /\
  slide_masters prs' = slide_masters prs /\ theme prs' = theme prs /\
  (exists i r, sldIdLst prs' = sldIdLst prs ++ [mkSldId i r slide]).
Proof.
  unfold add_slide. destruct (new_slide prs layout) as [s|]; [|done].
  cbn [mbind result_bind]. intros [= <- <-]. repeat split. by eexists _, _.
Qed.

Lemma add_slide_raise (prs : Presentation) (layout : Layout) (e : exn) :
  add_slide prs layout = Raise e <-> new_slide prs layout = Raise e.
Proof.
  unfold add_slide. destruct (new_slide prs layout); cbn; split; by intros [= ->].
Qed.

Lemma add_slide_ok (prs : Presentation) (layout : Layout) (slide : Slide) :
  new_slide prs layout = Ok slide ->
  exists prs', add_slide prs layout = Ok (prs', slide).
Proof. unfold add_slide. intros ->. by eexists. Qed.

Lemma store_last_spec (prs : Presentation) (slide : Slide) :
  same_template (store_last prs slide) prs /\
  length (sldIdLst (store_last prs slide)) = length (sldIdLst prs).
Proof. split; [done|]. simpl. by rewrite length_alter. Qed.

Lemma same_template_trans (a b c : Presentation) :
  same_template a b -> same_template b c -> same_template a c.
Proof. intros (?&?&?) (?&?&?). repeat split; congruence. Qed.

(** What a created slide is, when one is created. *)
Lemma create_slide_inv {R : Runtime} (prs prs' : Presentation) (sd : slide_data)
  (slide : Slide) :
  create_slide prs sd = Ok (prs', slide) ->
  same_template prs' prs /\
  S (length (sldIdLst prs)) <= length (sldIdLst prs')
    <= S (S (length (sldIdLst prs))) /\
  (exists layout, layout ∈ slide_layouts prs /\ new_slide prs layout = Ok slide) /\
  (exists i r, last (sldIdLst prs') = Some (mkSldId i r slide)).
Proof.
  unfold create_slide, getitem.
  destruct (slide_layouts prs !! _) as [layout|] eqn:Hl; [|done].
  cbn [mbind result_bind].
  destruct (add_slide prs layout) as [[prs1 slide1]|] eqn:E1; [|done].
  cbn [mbind result_bind].
  apply add_slide_inv in E1 as (N1 & T1 & _ & _ & i1 & r1 & L1).
  assert (In1 : layout ∈ slide_layouts prs) by by eapply list_elem_of_lookup_2.
  assert (Len1 : length (sldIdLst prs1) = S (length (sldIdLst prs))).
  { rewrite L1, length_app. simpl. lia. }
  assert (Done1 : (prs1, slide1) = (prs', slide) ->
            same_template prs' prs /\
            S (length (sldIdLst prs)) <= length (sldIdLst prs')
              <= S (S (length (sldIdLst prs))) /\
            (exists layout, layout ∈ slide_layouts prs /\
                            new_slide prs layout = Ok slide) /\
            (exists i r, last (sldIdLst prs') = Some (mkSldId i r slide))).
  { intros [= <- <-]. split; [done|]. split; [lia|]. split; [by eauto|].
    exists i1, r1. by rewrite L1, last_snoc. }
  destruct (lacks_body slide1); [|by intros [= <- <-]; apply Done1].
  destruct (List.find _layout_has_body (slide_layouts prs1)) as [layout2|] eqn:F;
    [|by intros [= <- <-]; apply Done1].
  intros E2. apply add_slide_inv in E2 as (N2 & T2 & _ & _ & i2 & r2 & L2).
  split; [by eapply same_template_trans|]. split.
  { rewrite L2, length_app. simpl. lia. }
  split.
  - exists layout2. split.
    + apply List.find_some in F as [F _]. apply list_elem_of_In in F.
      destruct T1 as (<- & _). done.
    + rewrite <- N2. apply new_slide_notes. by destruct T1 as (_ & _ & ->).
  - exists i2, r2. by rewrite L2, last_snoc.
Qed.

(** What makes the creation raise: no layout to fetch, or a layout whose
    placeholders cannot be cloned. *)
Lemma create_slide_raise {R : Runtime} (prs : Presentation) (sd : slide_data)
  (e : exn) :
  create_slide prs sd = Raise e ->
  (slide_layouts prs = [] /\ e = IndexError) \/
  (exists layout, layout ∈ slide_layouts prs /\
                  clone_layout_placeholders (lay_placeholders layout) = Raise e).
Proof.
  unfold create_slide, getitem.
  destruct (slide_layouts prs !! _) as [layout|] eqn:Hl.
  - cbn [mbind result_bind]. intros H. right.
    assert (In1 : layout ∈ slide_layouts prs) by by eapply list_elem_of_lookup_2.
    destruct (add_slide prs layout) as [[prs1 slide1]|e1] eqn:E1.
    + cbn [mbind result_bind] in H.
      apply add_slide_inv in E1 as (_ & T1 & _).
      destruct (lacks_body slide1); [|done].
      destruct (List.find _layout_has_body (slide_layouts prs1)) as [layout2|] eqn:F;
        [|done].
      apply add_slide_raise, new_slide_raise in H. exists layout2. split; [|done].
      apply List.find_some in F as [F _]. apply list_elem_of_In in F.
      by destruct T1 as (<- & _).
    + cbn [mbind result_bind] in H. injection H as ->.
      apply add_slide_raise, new_slide_raise in E1. by exists layout.
  - cbn [mbind result_bind]. intros [= <-]. left. split; [|done].
    destruct (slide_layouts prs) as [|l ls] eqn:El; [done|].
    apply lookup_ge_None in Hl.
    pose proof (find_layout_index_lt prs
                  (get_or (layout_hint sd) "title_and_content")) as Hlt.
    rewrite El in Hlt. specialize (Hlt ltac:(done)). lia.
Qed.

Lemma create_slide_ok {R : Runtime} (prs : Presentation) (sd : slide_data) :
  slide_layouts prs <> [] -> Forall (fun l => clones l = true) (slide_layouts prs) ->
  exists prs' slide, create_slide prs sd = Ok (prs', slide).
Proof.
  intros Hne Hc.
  destruct (create_slide prs sd) as [[prs' slide]|e] eqn:E; [by eauto|].
  apply create_slide_raise in E as [[? _]|(layout & Hin & Hr)]; [done|].
  rewrite Forall_forall in Hc. specialize (Hc layout Hin).
  unfold clones in Hc. by rewrite Hr in Hc.
Qed.


(** The document a run of the loop returns. *)
Lemma build_loop_inv {R : Runtime} (images : list HarvestedImage)
  (plan : list slide_data) :
  forall prs idx prs',
    build_loop prs images idx plan = Ok prs' ->
    same_template prs' prs /\
    length (sldIdLst prs) + length plan <= length (sldIdLst prs')
      <= length (sldIdLst prs) + 2 * length plan.
Proof.
  induction plan as [|sd plan IH]; intros prs idx prs'; simpl.
  - intros [= <-]. split; [done|lia].
  - unfold build_slide.
    destruct (create_slide prs sd) as [[prs1 slide]|] eqn:E; [|done].
    cbn [mbind result_bind]. intros H.
    apply create_slide_inv in E as (T1 & L1 & _).
    destruct (store_last_spec prs1 (write_slide slide images idx sd)) as [T2 L2].
    apply IH in H as (T3 & L3). split; [|lia].
    eapply same_template_trans; [exact T3|]. by eapply same_template_trans.
Qed.




Lemma purge_same_template (prs : Presentation) :
  same_template (_purge_all_existing_slides prs) prs /\
  sldIdLst (_purge_all_existing_slides prs) = [].
Proof.
  unfold _purge_all_existing_slides, same_template.
  destruct (purge_loop (sldIdLst prs) prs eq_refl) as (E0 & E1 & _ & _ & E4 & E5).
  by rewrite E0, E1, E4, E5.
Qed.

(** A document the build returns: the template could be opened and saved,
    its layouts are those of the template, and it holds at least one slide
    per entry and at most two. *)
Lemma build_presentation_inv {R : Runtime} (rng : nat -> nat) (t : template_bytes)
  (plan : list slide_data) (out : Presentation) :
  build_presentation rng t plan = Ok out ->
  exists prs, t = Package prs /\ can_save prs = true /\
    slide_layouts out = slide_layouts prs /\
    length plan <= length (slides out) <= 2 * length plan.
Proof.
  unfold build_presentation. destruct t as [|prs]; [done|].
  cbn [Presentation_open mbind result_bind].
  destruct (purge_same_template prs) as [(E1 & E2 & E3) E0].
  destruct (build_loop _ _ 0 plan) as [prs'|] eqn:E; [|done].
  cbn [mbind result_bind]. unfold save.
  apply build_loop_inv in E as ((T1 & T2 & _) & L).
  destruct (can_save prs') eqn:Hs; [|done]. intros [= <-].
  exists prs. split; [done|]. split; [congruence|]. split; [congruence|].
  unfold slides. rewrite length_map. rewrite E0 in L. simpl in L. lia.
Qed.




Lemma length_normalize_plan (include_notes : bool) (slides : list slide_data) :
  slides <> [] ->
  exists plan, normalize_plan include_notes slides = Ok plan /\
               length plan = min (length slides) 30.
Proof.
  intros Hne. unfold normalize_plan. destruct slides as [|s l]; [done|].
  eexists. split; [reflexivity|].
  destruct include_notes; rewrite ?length_map, length_take; lia.
Qed.

(** Over the pipeline the number of slides lies between [min (len plan) 30]
    and twice that; the plan is cut to 30 entries by the normalisation, not
    by the builder. *)
Lemma slide_count_bounds {R : Runtime} (rng : nat -> nat) (t : template_bytes)
  (include_notes : bool) (provider_slides : list slide_data) (out : Presentation) :
  generate rng t include_notes provider_slides = Ok out ->
  min (length provider_slides) 30 <= length (slides out)
    <= 2 * min (length provider_slides) 30.
Proof.
  unfold generate. destruct provider_slides as [|s l]; [done|].
  destruct (length_normalize_plan include_notes (s :: l)) as (plan & -> & <-);
    [done|].
  cbn [mbind result_bind]. by intros (? & _ & _ & _ & ?)%build_presentation_inv.
Qed.

(** C1 fails on the code.  The hint [title_only] resolves to the layout
    "Title Only"; the slide made from it has no body, so the loop of lines
    194-197 adds a second slide from the first layout that has one and the
    first slide stays in the document: one entry, two slides. *)
Theorem title_only_entry_yields_two_slides {R : Runtime} :
  exists out,
    generate (fun _ => 0) (Package office_template) false [title_only_entry]
      = Ok out /\
    length (slides out) = 2 /\
    min (length [title_only_entry]) 30 = 1 /\
    map (fun s => name (slide_layout s)) (slides out)
      = [Some "Title Only"; Some "Title and Content"] /\
    map slide_texts (slides out) = [[]; ["Thank you"]].
Proof. eexists. split; [reflexivity|]. by vm_compute. Qed.

Lemma bodies_everywhere_same (a b : Presentation) :
  same_template a b -> bodies_everywhere b -> bodies_everywhere a.
Proof.
  intros (E1 & _ & E3) H layout slide Hin Hs.
  apply (H layout slide); [by rewrite <- E1|].
  rewrite <- Hs. by apply new_slide_notes.
Qed.

Lemma create_slide_one {R : Runtime} (prs prs' : Presentation) (sd : slide_data)
  (slide : Slide) :
  bodies_everywhere prs -> create_slide prs sd = Ok (prs', slide) ->
  length (sldIdLst prs') = S (length (sldIdLst prs)).
Proof.
  intros Hb. unfold create_slide, getitem.
  destruct (slide_layouts prs !! _) as [layout|] eqn:Hl; [|done].
  cbn [mbind result_bind].
  destruct (add_slide prs layout) as [[prs1 slide1]|] eqn:E1; [|done].
  cbn [mbind result_bind].
  apply add_slide_inv in E1 as (N1 & _ & _ & _ & i1 & r1 & L1).
  rewrite (Hb layout slide1 (list_elem_of_lookup_2 _ _ _ Hl) N1).
  intros [= <- <-]. rewrite L1, length_app. simpl. lia.
Qed.

Lemma build_loop_one {R : Runtime} (images : list HarvestedImage)
  (plan : list slide_data) :
  forall prs idx prs',
    bodies_everywhere prs -> build_loop prs images idx plan = Ok prs' ->
    length (sldIdLst prs') = length (sldIdLst prs) + length plan.
Proof.
  induction plan as [|sd plan IH]; intros prs idx prs' Hb; simpl.
  - intros [= <-]. lia.
  - unfold build_slide.
    destruct (create_slide prs sd) as [[prs1 slide]|] eqn:E; [|done].
    cbn [mbind result_bind]. intros H.
    pose proof (create_slide_one _ _ _ _ Hb E) as L1.
    apply create_slide_inv in E as (T1 & _).
    destruct (store_last_spec prs1 (write_slide slide images idx sd)) as [T2 L2].
    apply IH in H; [lia|].
    eapply bodies_everywhere_same; [|exact Hb]. by eapply same_template_trans.
Qed.

(** Where every layout gives its slides a body, the count is the one the
    specification states. *)
Lemma slide_count_exact {R : Runtime} (rng : nat -> nat) (prs : Presentation)
  (include_notes : bool) (provider_slides : list slide_data) (out : Presentation) :
  bodies_everywhere prs ->
  generate rng (Package prs) include_notes provider_slides = Ok out ->
  length (slides out) = min (length provider_slides) 30.
Proof.
  intros Hb. unfold generate. destruct provider_slides as [|s l]; [done|].
  destruct (length_normalize_plan include_notes (s :: l)) as (plan & -> & <-);
    [done|].
  cbn [mbind result_bind]. unfold build_presentation.
  cbn [Presentation_open mbind result_bind].
  destruct (purge_same_template prs) as [T E0].
  destruct (build_loop _ _ 0 plan) as [prs'|] eqn:E; [|done].
  cbn [mbind result_bind]. unfold save. destruct (can_save prs'); [|done].
  intros [= <-]. unfold slides. rewrite length_map.
  apply build_loop_one in E; [by rewrite E, E0|].
  by eapply bodies_everywhere_same.
Qed.

(** The end-to-end scenario: two entries on the layouts "Title Slide",
    "Title and Content" and "Blank" give two slides, both on "Title and
    Content", and no image. *)
Lemma end_to_end_scenario {R : Runtime} :
  exists out,
    generate (fun _ => 0) (Package scenario_template) false
             [intro_entry; end_entry] = Ok out /\
    map (fun s => name (slide_layout s)) (slides out)
      = [Some "Title and Content"; Some "Title and Content"] /\
    map slide_texts (slides out) = [["Intro"; "a"; "b"]; ["End"]] /\
    map slide_images (slides out) = [[]; []].
Proof. eexists. split; [reflexivity|]. by vm_compute. Qed.

(** * Further properties of the builder *)

(** X1.  On a template with at least one layout, the index returned by
    [_find_layout_index] is the position of a layout of the template, for
    every hint, known or not. *)
Theorem find_layout_index_in_range {R : Runtime} (prs : Presentation) (hint : option str) :
  slide_layouts prs <> [] ->
  exists layout,
    slide_layouts prs !! _find_layout_index prs hint = Some layout /\
    getitem (slide_layouts prs) (_find_layout_index prs hint) = Ok layout.
Proof.
  intros Hne. pose proof (find_layout_index_lt prs hint Hne) as Hlt.
  apply lookup_lt_is_Some_2 in Hlt as [layout Hl].
  exists layout. split; [done|]. unfold getitem. by rewrite Hl.
Qed.

Lemma find_layout_index_in_range_witness :
  let R : Runtime := plain in
  slide_layouts office_template <> [] /\
  exists layout,
    slide_layouts office_template
      !! _find_layout_index office_template (Some "no such hint") = Some layout /\
    getitem (slide_layouts office_template)
            (_find_layout_index office_template (Some "no such hint")) = Ok layout.
Proof. intros R.
  assert (H : slide_layouts office_template <> []) by discriminate.
  split; [exact H|].
  exact (find_layout_index_in_range office_template (Some "no such hint") H).
Defined.

Lemma layout_has_body_loop_spec (phs : list Shape) :
  try_except (_layout_has_body_loop phs) false = true <->
  exists i ph,
    phs !! i = Some ph /\ body_like ph = true /\
    forall j q, j < i -> phs !! j = Some q -> readable q = true.
Proof.
  induction phs as [|ph rest IH].
  { split; [done|]. by intros (i & q & Hq & _). }
  assert (Hskip : readable ph = true -> body_like ph = false ->
            (try_except (_layout_has_body_loop rest) false = true <->
             exists i q, (ph :: rest) !! i = Some q /\ body_like q = true /\
               forall j r, j < i -> (ph :: rest) !! j = Some r -> readable r = true)).
  { intros Hr Hb. rewrite IH. split.
    - intros (i & q & Hq & Hbq & Hmin). exists (S i), q. split; [done|].
      split; [done|]. intros [|j] r Hj Hr'; simpl in Hr'.
      + by injection Hr' as <-.
      + apply (Hmin j); [lia|done].
    - intros ([|i] & q & Hq & Hbq & Hmin); simpl in Hq.
      + injection Hq as <-. congruence.
      + exists i, q. split; [done|]. split; [done|].
        intros j r Hj Hr'. apply (Hmin (S j)); [lia|done]. }
  assert (Hstop : body_like ph = false -> readable ph = false ->
            ~ exists i q, (ph :: rest) !! i = Some q /\ body_like q = true /\
               forall j r, j < i -> (ph :: rest) !! j = Some r -> readable r = true).
  { intros Hb Hr ([|i] & q & Hq & Hbq & Hmin); simpl in Hq.
    - injection Hq as <-. congruence.
    - specialize (Hmin 0 ph). simpl in Hmin. rewrite Hmin in Hr; [done|lia|done]. }
  assert (Hhit : body_like ph = true ->
            exists i q, (ph :: rest) !! i = Some q /\ body_like q = true /\
               forall j r, j < i -> (ph :: rest) !! j = Some r -> readable r = true).
  { intros Hb. exists 0, ph. split; [done|]. split; [done|]. intros; lia. }
  cbn [_layout_has_body_loop]. unfold get_type, get_text_frame.
  unfold readable, body_like in Hskip, Hstop, Hhit.
  destruct (broken ph); cbn [mbind result_bind try_except negb andb] in *.
  { split; [done|]. intros H. by destruct Hstop; [destruct (placeholder_format ph) as [[]|]| |]. }
  destruct (placeholder_format ph) as [[n t]|];
    cbn [mbind result_bind try_except] in *.
  2:{ split; [done|]. intros H. by destruct Hstop. }
  destruct (CONTENT_TYPES t); cbn [orb] in *; [split; auto|].
  destruct (TITLE_TYPES t); cbn [negb andb] in *.
  { apply Hskip; [by rewrite bool_decide_eq_true|done]. }
  destruct (text_frame ph) as [tf|]; cbn [mbind result_bind try_except].
  - rewrite bool_decide_true in * by done. split; auto.
  - rewrite bool_decide_false in * by (by intros [? ?]).
    apply Hskip; [by rewrite bool_decide_eq_true|done].
Qed.

(** X2.  [_layout_has_body] holds exactly when some placeholder of the
    layout is body-like and every placeholder before it could be read: the
    scan is given up at the first placeholder whose type cannot be read, so
    a body placeholder behind such a one does not count. *)
Theorem layout_has_body_iff (layout : Layout) :
  _layout_has_body layout = true <->
  exists i ph,
    lay_placeholders layout !! i = Some ph /\ body_like ph = true /\
    forall j q, j < i -> lay_placeholders layout !! j = Some q ->
                readable q = true.
Proof. apply layout_has_body_loop_spec. Qed.


Lemma first_index_holds {A} (p : A -> bool) (l : list A) (i : nat) :
  first_index p l 0 = Some i -> exists x, l !! i = Some x /\ p x = true.
Proof.
  intros H. apply first_index_Some in H as (k & -> & Hk & _). exact Hk.
Qed.

(** The three ways the image placement can leave the shapes of a slide. *)
Lemma place_image_shapes (slide : Slide) (images : list HarvestedImage)
  (idx : nat) (bs : list str) :
  shapes (place_image slide images idx bs) = shapes slide \/
  (exists blob bx,
     decodes blob = true /\
     shapes (place_image slide images idx bs)
     = shapes slide ++ [mkShape MSO_PICTURE None false None (Some blob) bx false]) \/
  (exists j ph blob,
     shapes slide !! j = Some ph /\ type_in PICTURE_TYPES ph = true /\
     has_insert_picture ph = true /\ decodes blob = true /\
     shapes (place_image slide images idx bs)
     = <[j := mkShape MSO_PLACEHOLDER (placeholder_format ph) false None
                      (Some blob) (box ph) false]> (shapes slide)).
Proof.
  unfold place_image.
  destruct (pick_image images idx bs) as [[[blob w] h]|]; [|by left].
  unfold _fill_picture_placeholder_if_any.
  destruct (_first_placeholder slide PICTURE_TYPES) as [j|] eqn:Ej.
  2:{ unfold add_picture. destruct (decodes blob) eqn:D; [|by left].
      right; left. by exists blob, accent_box. }
  destruct (first_index_holds _ _ _ Ej) as (ph & Hj & Hty). rewrite Hj.
  unfold insert_picture, get_box, add_picture.
  destruct (broken ph) eqn:B, (has_insert_picture ph) eqn:I,
    (decodes blob) eqn:D; cbn; try (by left);
    try (right; left; by eexists blob, _).
  right; right. by exists j, ph, blob.
Qed.

Lemma shapes_write_title_None (slide : Slide) (text : str) :
  shapes (write_title slide None text)
  = shapes slide ++ [_set_text (text_box title_box textbox_frame) text].
Proof.
  unfold write_title, add_textbox, update_shape, set_shapes. cbn [shapes].
  rewrite <- (Nat.add_0_r (length (shapes slide))) at 1.
  by rewrite alter_app_r.
Qed.

Lemma shapes_write_body_None (slide : Slide) (bs : list str) :
  shapes (write_body slide None bs)
  = shapes slide ++ [_set_bullets (text_box bullets_box textbox_frame) bs].
Proof.
  unfold write_body, add_textbox, update_shape, set_shapes. cbn [shapes].
  rewrite <- (Nat.add_0_r (length (shapes slide))) at 1.
  by rewrite alter_app_r.
Qed.

Lemma shapes_ensure_notes (slide : Slide) (text : option str) :
  shapes (_ensure_notes slide text) = shapes slide.
Proof.
  unfold _ensure_notes. destruct text as [[|c s]|]; try done.
  by destruct (notes_slide slide).
Qed.

(** The image placement leaves every shape that is not a placeholder where
    and as it was. *)
Lemma place_image_keeps_free_shapes (slide : Slide) (images : list HarvestedImage)
  (idx : nat) (bs : list str) (i : nat) (shp : Shape) :
  shapes slide !! i = Some shp -> placeholder_format shp = None ->
  shapes (place_image slide images idx bs) !! i = Some shp.
Proof.
  intros Hi Hp.
  destruct (place_image_shapes slide images idx bs)
    as [->|[(blob & bx & _ & ->)|(j & ph & blob & Hj & Hty & _ & _ & ->)]].
  - done.
  - by apply lookup_app_l_Some.
  - rewrite list_lookup_insert_ne; [done|]. intros ->.
    rewrite Hj in Hi. injection Hi as ->.
    unfold type_in, is_placeholder in Hty. rewrite Hp in Hty.
    rewrite bool_decide_false in Hty by (by intros [? ?]). done.
Qed.

(** X4.  On a slide with neither a title target nor a body target, the
    entry's title and bullets go into two new text boxes, appended to the
    shapes in this order at the fixed title and bullet positions, and the
    image placement leaves them alone.  The title box keeps the setting of
    a new text box, no wrapping; the bullet box wraps. *)
Theorem text_box_fallback (slide : Slide) (images : list HarvestedImage)
  (idx : nat) (sd : slide_data) :
  title_target slide = None -> body_target slide = None ->
  let n := length (shapes slide) in
  let slide' := write_slide slide images idx sd in
  shapes slide' !! n
    = Some (text_box title_box
              (mkTextFrame
                 (mkParagraph
                    [mkRun (title_text sd)
                           (if 90 <? length (title_text sd)
                            then Some (Pt 20) else None)] 0)
                 [] (Some false))) /\
  exists tf,
    shapes slide' !! S n = Some (text_box bullets_box tf) /\
    written_paragraphs tf = map bullet_paragraph (bullets_of sd) /\
    word_wrap tf = Some true.
Proof.
  intros Ht Hb n slide'. subst n slide'. unfold write_slide.
  rewrite Ht, Hb.
  set (s3 := _ensure_notes _ _).
  assert (E3 : shapes s3
               = shapes slide
                 ++ [_set_text (text_box title_box textbox_frame) (title_text sd)]
                 ++ [_set_bullets (text_box bullets_box textbox_frame) (bullets_of sd)]).
  { unfold s3. rewrite shapes_ensure_notes, shapes_write_body_None,
      shapes_write_title_None. by rewrite <- app_assoc. }
  rewrite (set_text_frame_eq (text_box title_box textbox_frame) textbox_frame
             (title_text sd) eq_refl) in E3.
  rewrite (set_bullets_frame_eq (text_box bullets_box textbox_frame) textbox_frame
             (bullets_of sd) eq_refl) in E3.
  split.
  - apply place_image_keeps_free_shapes; [|done].
    rewrite E3. by rewrite lookup_app_r, Nat.sub_diag by lia.
  - eexists. split.
    + apply place_image_keeps_free_shapes; [|done].
      rewrite E3. rewrite lookup_app_r by lia.
      replace (S (length (shapes slide)) - length (shapes slide)) with 1 by lia.
      reflexivity.
    + destruct (bullets_loop_clear (take 12 (bullets_of sd)) textbox_frame)
        as (E & _ & _).
      assert (Et : take 12 (bullets_of sd) = bullets_of sd).
      { unfold bullets_of. by rewrite take_take. }
      rewrite Et in E. split; [|done]. rewrite Et. exact E.
Qed.

Lemma text_box_fallback_witness :
  title_target blank_slide = None /\ body_target blank_slide = None /\
  exists tf,
    shapes (write_slide blank_slide two_images 1 intro_entry)
      !! S (length (shapes blank_slide)) = Some (text_box bullets_box tf) /\
    written_paragraphs tf = map bullet_paragraph (bullets_of intro_entry) /\
    word_wrap tf = Some true.
Proof.
  split; [reflexivity|]. split; [reflexivity|].
  exact (proj2 (text_box_fallback blank_slide two_images 1 intro_entry
                  eq_refl eq_refl)).
Defined.

Lemma grows_by_refl (a : Slide) : grows_by 0 a a.
Proof. split; [done|lia]. Qed.

Lemma grows_by_trans (k m : nat) (a b c : Slide) :
  grows_by k a b -> grows_by m b c -> grows_by (k + m) a c.
Proof. intros [P1 L1] [P2 L2]. split; [by etrans|lia]. Qed.

Lemma grows_by_same_sig (a b : Slide) :
  map shape_sig (shapes b) = map shape_sig (shapes a) -> grows_by 0 a b.
Proof.
  intros E. split; [by rewrite E|].
  apply (f_equal length) in E. rewrite !length_map in E. lia.
Qed.

Lemma grows_by_snoc (a b : Slide) (shp : Shape) :
  shapes b = shapes a ++ [shp] -> grows_by 1 a b.
Proof.
  intros E. unfold grows_by. rewrite E. split.
  - rewrite map_app. by apply prefix_app_r.
  - rewrite length_app. simpl. lia.
Qed.

Lemma grows_by_weaken (k m : nat) (a b : Slide) :
  k <= m -> grows_by k a b -> grows_by m a b.
Proof. intros Hk [P L]. split; [done|lia]. Qed.

Lemma shape_sig_set_text (shp : Shape) (text : str) :
  shape_sig (_set_text shp text) = shape_sig shp.
Proof.
  unfold _set_text, _set_text_body, get_text_frame.
  by destruct (broken shp), (text_frame shp).
Qed.

Lemma shape_sig_set_bullets (shp : Shape) (bs : list str) :
  shape_sig (_set_bullets shp bs) = shape_sig shp.
Proof.
  unfold _set_bullets, _set_bullets_body, get_text_frame.
  by destruct (broken shp), (text_frame shp).
Qed.

Lemma map_sig_alter (f : Shape -> Shape) (l : list Shape) (i : nat) :
  (forall shp, shape_sig (f shp) = shape_sig shp) ->
  map shape_sig (alter f i l) = map shape_sig l.
Proof.
  intros Hf. revert i.
  induction l as [|x l IH]; intros [|i]; cbn [alter list_alter map]; try done.
  - by rewrite Hf.
  - by rewrite (IH i).
Qed.

Lemma map_sig_insert (l : list Shape) (j : nat) (x y : Shape) :
  l !! j = Some x -> shape_sig y = shape_sig x ->
  map shape_sig (<[j := y]> l) = map shape_sig l.
Proof.
  revert j. induction l as [|z l IH]; intros [|j] Hj Hs; simpl in *; try done.
  - injection Hj as ->. by rewrite Hs.
  - by rewrite (IH j).
Qed.

Lemma grows_write_title (slide : Slide) (t : option nat) (text : str) :
  grows_by 1 slide (write_title slide t text).
Proof.
  destruct t as [i|].
  - apply (grows_by_weaken 0); [lia|]. apply grows_by_same_sig.
    unfold write_title, update_shape, set_shapes. cbn [shapes].
    apply map_sig_alter; intros; apply shape_sig_set_text.
  - eapply grows_by_snoc, shapes_write_title_None.
Qed.

Lemma grows_write_body (slide : Slide) (t : option nat) (bs : list str) :
  grows_by 1 slide (write_body slide t bs).
Proof.
  destruct t as [i|].
  - apply (grows_by_weaken 0); [lia|]. apply grows_by_same_sig.
    unfold write_body, update_shape, set_shapes. cbn [shapes].
    apply map_sig_alter; intros; apply shape_sig_set_bullets.
  - eapply grows_by_snoc, shapes_write_body_None.
Qed.

Lemma grows_place_image (slide : Slide) (images : list HarvestedImage)
  (idx : nat) (bs : list str) :
  grows_by 1 slide (place_image slide images idx bs).
Proof.
  destruct (place_image_shapes slide images idx bs)
    as [E|[(blob & bx & _ & E)|(j & ph & blob & Hj & _ & _ & _ & E)]].
  - apply (grows_by_weaken 0); [lia|]. apply grows_by_same_sig. by rewrite E.
  - by eapply grows_by_snoc.
  - apply (grows_by_weaken 0); [lia|]. apply grows_by_same_sig. rewrite E.
    by eapply map_sig_insert.
Qed.

(** X5.  Writing an entry never removes or moves a shape of the slide:
    place for place the shapes keep their placeholder format (index and
    placeholder type) and their position and size, and at most three shapes
    are added at the end (a title text box, a bullet text box, a
    picture). *)
Theorem write_slide_keeps_shapes (slide : Slide) (images : list HarvestedImage)
  (idx : nat) (sd : slide_data) :
  map shape_sig (shapes slide)
    `prefix_of` map shape_sig (shapes (write_slide slide images idx sd)) /\
  length (shapes slide) <= length (shapes (write_slide slide images idx sd))
    <= length (shapes slide) + 3.
Proof.
  assert (G : grows_by 3 slide (write_slide slide images idx sd)).
  { unfold write_slide.
    eapply (grows_by_trans 2 1); [|apply grows_place_image].
    eapply (grows_by_trans 2 0);
      [|apply grows_by_same_sig; by rewrite shapes_ensure_notes].
    eapply (grows_by_trans 1 1);
      [apply grows_write_title|apply grows_write_body]. }
  destruct G as [P L]. split; [done|]. split; [|done].
  apply prefix_length in P. by rewrite !length_map in P.
Qed.

Lemma notes_place_image (slide : Slide) (images : list HarvestedImage)
  (idx : nat) (bs : list str) :
  notes_slide (place_image slide images idx bs) = notes_slide slide.
Proof.
  unfold place_image.
  destruct (pick_image images idx bs) as [[[blob w] h]|]; [|done].
  unfold _fill_picture_placeholder_if_any, insert_picture, get_box, add_picture.
  destruct (_first_placeholder slide PICTURE_TYPES) as [j|];
    [destruct (shapes slide !! j) as [ph|];
       [destruct (broken ph), (has_insert_picture ph)|]|];
    by destruct (decodes blob).
Qed.

Lemma notes_write_title (slide : Slide) (t : option nat) (text : str) :
  notes_slide (write_title slide t text) = notes_slide slide.
Proof. by destruct t. Qed.

Lemma notes_write_body (slide : Slide) (t : option nat) (bs : list str) :
  notes_slide (write_body slide t bs) = notes_slide slide.
Proof. by destruct t. Qed.

(** X6.  The speaker notes of a written slide are set by the entry's notes
    alone: a non-empty notes string replaces the text of an available notes
    frame; with missing, [None] or empty notes, or without a usable notes
    frame, the notes stay as the template gives them.  The title, bullet
    and image writes never touch them. *)
Theorem notes_written (slide : Slide) (images : list HarvestedImage)
  (idx : nat) (sd : slide_data) :
  notes_slide (write_slide slide images idx sd)
  = match get (notes sd), notes_slide slide with
    | Some (c :: s), NotesFrame _ => NotesFrame (c :: s)
    | _, n => n
    end.
Proof.
  unfold write_slide. rewrite notes_place_image.
  set (s2 := write_body _ _ _).
  assert (E : notes_slide s2 = notes_slide slide).
  { unfold s2. by rewrite notes_write_body, notes_write_title. }
  unfold _ensure_notes.
  destruct (notes sd) as [| |[|c s]]; cbn [get get_or]; rewrite ?E;
    by destruct (notes_slide slide).
Qed.




Lemma same_frame_trans (a b c : Presentation) :
  same_frame a b -> same_frame b c -> same_frame a c.
Proof. intros (?&?&?) (?&?&?). repeat split; congruence. Qed.

Lemma create_slide_frame {R : Runtime} (prs prs1 : Presentation)
  (sd : slide_data) (slide : Slide) :
  create_slide prs sd = Ok (prs1, slide) -> same_frame prs1 prs.
Proof.
  unfold create_slide.
  destruct (getitem _ _) as [layout|e]; cbn [mbind result_bind]; [|done].
  destruct (add_slide prs layout) as [[p1 s1]|] eqn:E1; [|done].
  cbn [mbind result_bind].
  apply add_slide_inv in E1 as (_ & (L1 & _) & M1 & T1 & _).
  assert (F1 : same_frame p1 prs) by done.
  destruct (lacks_body s1); [|by intros [= <- <-]].
  destruct (List.find _ _) as [layout2|]; [|by intros [= <- <-]].
  intros E2. apply add_slide_inv in E2 as (_ & (L2 & _) & M2 & T2 & _).
  eapply same_frame_trans; [|exact F1]. done.
Qed.

Lemma build_loop_frame {R : Runtime} (images : list HarvestedImage) (plan : list slide_data) :
  forall prs idx out,
    build_loop prs images idx plan = Ok out -> same_frame out prs.
Proof.
  induction plan as [|sd plan IH]; intros prs idx out; simpl.
  - by intros [= ->].
  - unfold build_slide.
    destruct (create_slide prs sd) as [[prs1 slide]|e] eqn:Ec;
      cbn [mbind result_bind]; [|done].
    intros H. apply IH in H. eapply same_frame_trans; [exact H|].
    eapply same_frame_trans; [|by eapply create_slide_frame]. done.
Qed.

Lemma build_keeps_layouts_masters_theme_aux {R : Runtime} (rng : nat -> nat) (prs out : Presentation)
  (plan : list slide_data) :
  build_presentation rng (Package prs) plan = Ok out ->
  slide_layouts out = slide_layouts prs /\
  slide_masters out = slide_masters prs /\
  theme out = theme prs.
Proof.
  unfold build_presentation. cbn [Presentation_open mbind result_bind].
  destruct (build_loop _ _ 0 plan) as [prs2|e] eqn:El;
    cbn [mbind result_bind]; [|done].
  unfold save. destruct (can_save prs2); [|done]. intros [= <-].
  apply build_loop_frame in El.
  destruct (purge_loop (sldIdLst prs) prs eq_refl) as (_ & E1 & E2 & E3 & _).
  eapply same_frame_trans; [exact El|]. by split.
Qed.

(** X8.  A document returned by [build_presentation] has the layouts, the
    masters and the theme of the template, whatever the plan. *)
Theorem build_keeps_layouts_masters_theme {R : Runtime} (rng : nat -> nat) (prs out : Presentation)
  (plan : list slide_data) :
  build_presentation rng (Package prs) plan = Ok out ->
  slide_layouts out = slide_layouts prs /\
  slide_masters out = slide_masters prs /\
  theme out = theme prs.
Proof. apply build_keeps_layouts_masters_theme_aux. Qed.

Lemma build_keeps_layouts_masters_theme_witness :
  let R : Runtime := plain in
  exists out,
    build_presentation (fun _ => 0) (Package office_template) [intro_entry] = Ok out /\
    slide_layouts out = slide_layouts office_template /\
    slide_masters out = slide_masters office_template /\
    theme out = theme office_template.
Proof. intros R.
  eexists. split; [reflexivity|].
  exact (build_keeps_layouts_masters_theme (fun _ => 0) office_template _
           [intro_entry] eq_refl).
Defined.

Lemma find_layout_index_layouts {R : Runtime} (p q : Presentation) (hint : option str) :
  slide_layouts p = slide_layouts q ->
  _find_layout_index p hint = _find_layout_index q hint.
Proof. intros E. unfold _find_layout_index. by rewrite E. Qed.

Lemma slides_store_last (p : Presentation) (slide : Slide) :
  slides (store_last p slide)
  = alter (fun _ => slide) (pred (length (slides p))) (slides p).
Proof.
  unfold slides, store_last. cbn [sldIdLst set_sldIdLst]. rewrite length_map.
  generalize (pred (length (sldIdLst p))) as i. intros i.
  revert i. induction (sldIdLst p) as [|x l IH]; intros [|i]; cbn; try done.
  by rewrite IH.
Qed.

Lemma alike_add_slide (p q : Presentation) (layout : Layout) :
  alike p q ->
  match add_slide p layout, add_slide q layout with
  | Ok (p1, s1), Ok (q1, s2) => alike p1 q1 /\ s1 = s2
  | Raise e1, Raise e2 => e1 = e2
  | _, _ => False
  end.
Proof.
  intros [T S]. unfold add_slide.
  rewrite (new_slide_notes p q layout) by by destruct T as (_ & _ & ->).
  destruct (new_slide q layout) as [s|e]; cbn [mbind result_bind]; [|done].
  split; [|done]. split.
  - destruct T as (?&?&?). by repeat split.
  - unfold slides in *. cbn [sldIdLst]. by rewrite !map_app, S.
Qed.

Lemma alike_create_slide {R : Runtime} (p q : Presentation) (sd : slide_data) :
  alike p q ->
  match create_slide p sd, create_slide q sd with
  | Ok (p1, s1), Ok (q1, s2) => alike p1 q1 /\ s1 = s2
  | Raise e1, Raise e2 => e1 = e2
  | _, _ => False
  end.
Proof.
  intros A. pose proof A as [(EL & _) _]. unfold create_slide.
  rewrite (find_layout_index_layouts p q _ EL), EL.
  destruct (getitem (slide_layouts q) _) as [layout|e];
    cbn [mbind result_bind]; [|done].
  pose proof (alike_add_slide p q layout A) as A1.
  destruct (add_slide p layout) as [[p1 s1]|e1],
           (add_slide q layout) as [[q1 s2]|e2];
    cbn [mbind result_bind]; try done.
  destruct A1 as [A1 <-].
  destruct (lacks_body s1); [|done].
  pose proof A1 as [(EL1 & _) _]. rewrite EL1.
  destruct (List.find _layout_has_body (slide_layouts q1)) as [layout2|]; [|done].
  apply (alike_add_slide p1 q1 layout2 A1).
Qed.

Lemma alike_store_last (p q : Presentation) (slide : Slide) :
  alike p q -> alike (store_last p slide) (store_last q slide).
Proof.
  intros [T S]. split.
  - destruct (store_last_spec p slide) as [(?&?&?) _].
    destruct (store_last_spec q slide) as [(?&?&?) _].
    destruct T as (?&?&?). repeat split; congruence.
  - by rewrite !slides_store_last, S.
Qed.

Lemma alike_build_loop {R : Runtime} (images : list HarvestedImage) (plan : list slide_data) :
  forall p q idx,
    alike p q ->
    match build_loop p images idx plan, build_loop q images idx plan with
    | Ok p', Ok q' => alike p' q'
    | Raise e1, Raise e2 => e1 = e2
    | _, _ => False
    end.
Proof.
  induction plan as [|sd plan IH]; intros p q idx A; simpl; [done|].
  unfold build_slide. pose proof (alike_create_slide p q sd A) as C.
  destruct (create_slide p sd) as [[p1 s1]|e1],
           (create_slide q sd) as [[q1 s2]|e2]; cbn [mbind result_bind];
    try done.
  destruct C as [A1 <-]. apply IH. by apply alike_store_last.
Qed.

(** X9.  Nothing of the template's original slides reaches the output but
    the harvested images: two templates with the same layouts, the same
    notes master and the same harvest give, for every plan, the same slides
    (or the same failure), whatever their slides held. *)
Theorem no_template_content_leaks {R : Runtime} (rng : nat -> nat) (a b : Presentation)
  (plan : list slide_data) :
  same_template a b ->
  _collect_template_images rng a = _collect_template_images rng b ->
  result_map slides (build_presentation rng (Package a) plan)
  = result_map slides (build_presentation rng (Package b) plan).
Proof.
  intros T H. unfold build_presentation.
  cbn [Presentation_open mbind result_bind]. rewrite H.
  destruct (purge_same_template a) as [Ta Ea], (purge_same_template b) as [Tb Eb].
  assert (A : alike (_purge_all_existing_slides a) (_purge_all_existing_slides b)).
  { split.
    - destruct T as (?&?&?), Ta as (?&?&?), Tb as (?&?&?).
      repeat split; congruence.
    - unfold slides. by rewrite Ea, Eb. }
  pose proof (alike_build_loop (_collect_template_images rng b) plan _ _ 0 A) as L.
  destruct (build_loop (_purge_all_existing_slides a) _ 0 plan) as [p'|e1],
           (build_loop (_purge_all_existing_slides b) _ 0 plan) as [q'|e2];
    cbn [mbind result_bind result_map]; try done; [|by subst].
  destruct L as [(_ & Es & _) S]. unfold save. rewrite Es.
  destruct (can_save q'); cbn [result_map]; by rewrite ?S.
Qed.

Lemma no_template_content_leaks_witness :
  let R : Runtime := plain in
  same_template office_template office_template_retitled /\
  _collect_template_images (fun _ => 0) office_template
    = _collect_template_images (fun _ => 0) office_template_retitled /\
  sldIdLst office_template <> sldIdLst office_template_retitled /\
  result_map slides
    (build_presentation (fun _ => 0) (Package office_template)
                        [intro_entry; title_only_entry])
  = result_map slides
      (build_presentation (fun _ => 0) (Package office_template_retitled)
                          [intro_entry; title_only_entry]).
Proof. intros R.
  assert (T : same_template office_template office_template_retitled)
    by (by repeat split).
  split; [exact T|]. split; [reflexivity|]. split; [discriminate|].
  exact (no_template_content_leaks (fun _ => 0) office_template
           office_template_retitled [intro_entry; title_only_entry] T eq_refl).
Defined.

Lemma deck_size_aux {R : Runtime} (rng : nat -> nat) (prs out : Presentation)
  (plan : list slide_data) :
  build_presentation rng (Package prs) plan = Ok out ->
  length plan <= length (slides out) <= 2 * length plan /\
  (bodies_everywhere prs -> length (slides out) = length plan).
Proof.
  intros H. split.
  { by apply build_presentation_inv in H as (? & _ & _ & _ & ?). }
  intros Hb. unfold build_presentation in H.
  cbn [Presentation_open mbind result_bind] in H.
  destruct (purge_same_template prs) as [T E0].
  destruct (build_loop _ _ 0 plan) as [p'|] eqn:E; [|done].
  cbn [mbind result_bind] in H. unfold save in H.
  destruct (can_save p'); [|done]. injection H as <-.
  unfold slides. rewrite length_map.
  apply build_loop_one in E; [by rewrite E, E0|].
  by eapply bodies_everywhere_same.
Qed.

(** X10.  A document returned by [build_presentation] holds at least one
    slide for every entry of the plan it was given and at most two; the
    builder itself does not cut the plan.  Where every layout gives its
    slides a body, it holds exactly one slide per entry. *)
Theorem deck_size {R : Runtime} (rng : nat -> nat) (prs out : Presentation)
  (plan : list slide_data) :
  build_presentation rng (Package prs) plan = Ok out ->
  length plan <= length (slides out) <= 2 * length plan /\
  (bodies_everywhere prs -> length (slides out) = length plan).
Proof. apply deck_size_aux. Qed.

Lemma deck_size_witness :
  let R : Runtime := plain in
  exists out,
    build_presentation (fun _ => 0) (Package office_template)
                       [intro_entry; title_only_entry] = Ok out /\
    length [intro_entry; title_only_entry] <= length (slides out)
      <= 2 * length [intro_entry; title_only_entry].
Proof. intros R.
  eexists. split; [reflexivity|].
  exact (proj1 (deck_size (fun _ => 0) office_template _
                  [intro_entry; title_only_entry] eq_refl)).
Defined.

Lemma collect_unshuffled_omap (l : list Slide) :
  concat (map harvest_slide l)
  = omap (fun shape => try_except (harvest_shape shape) None)
         (concat (map shapes l)).
Proof.
  induction l as [|s l IH]; [done|]. simpl. by rewrite omap_app, IH.
Qed.

(** X11.  What is harvested is, for each readable picture shape of the
    template's slides, its image with the width and the height of that very
    shape, and nothing else, whatever the shuffle does. *)
Theorem harvested_from_pictures (rng : nat -> nat) (prs : Presentation)
  (img : HarvestedImage) :
  img ∈ _collect_template_images rng prs <->
  exists shape,
    shape ∈ all_shapes prs /\ readable_picture shape = true /\
    image shape = Some img.1.1 /\
    img.1.2 = width (box shape) /\ img.2 = height (box shape).
Proof.
  unfold _collect_template_images. rewrite (shuffle_Permutation rng _).
  unfold collect_unshuffled, all_shapes. rewrite collect_unshuffled_omap.
  rewrite list_elem_of_omap. split.
  - intros (shape & Hin & Hh). exists shape. split; [done|].
    unfold harvest_shape, readable_picture, is_picture in *.
    destruct (broken shape), (shape_type shape), (image shape);
      simpl in Hh; try done.
    injection Hh as <-. by rewrite bool_decide_true.
  - intros (shape & Hin & Hr & Hi & Hw & Hh). exists shape. split; [done|].
    unfold harvest_shape, readable_picture, is_picture in *.
    destruct img as [[b w] h]. simpl in *. subst w h. rewrite Hi.
    destruct (broken shape), (shape_type shape); simpl in Hr; try done.
Qed.

(** * Further properties of the provider layer *)

(** The check either passes or raises the one message. *)
Lemma validate_api_key_cases (s : str) :
  _validate_api_key_like s = Return tt \/
  _validate_api_key_like s = RaiseProviderError key_invalid_message.
Proof.
  unfold _validate_api_key_like.
  destruct (_ || _ || _); [by right|by left].
Qed.

(** X12.  A key passes [_validate_api_key_like] exactly when it has at
    least 20 characters and contains neither a space, nor "http", nor
    "provider.lower()"; the entries "Bearer " and "elif " of the list add
    nothing, since each contains a space.  Every refusal carries the same
    message. *)
Theorem validate_api_key_iff (s : str) :
  (_validate_api_key_like s = Return tt <->
   20 <= length s /\ str_in " " s = false /\ str_in "http" s = false /\
   str_in "provider.lower()" s = false) /\
  (_validate_api_key_like s = Return tt \/
   _validate_api_key_like s = RaiseProviderError key_invalid_message).
Proof.
  assert (Hb : str_in "Bearer " s = true -> str_in " " s = true)
    by (by apply str_in_trans).
  assert (He : str_in "elif " s = true -> str_in " " s = true)
    by (by apply str_in_trans).
  unfold _validate_api_key_like, bad_substrings. cbn [existsb].
  destruct (str_eqb_spec s "") as [->|Hne]; cbn [orb].
  { split; [|by right]. split; [done|]. simpl. lia. }
  destruct (str_in " " s); cbn [orb].
  { split; [|by right]. split; [done|]. by intros (_ & ? & _). }
  destruct (str_in "http" s); cbn [orb].
  { split; [|by right]. split; [done|]. by intros (_ & _ & ? & _). }
  destruct (str_in "Bearer " s); [by specialize (Hb eq_refl)|]. cbn [orb].
  destruct (str_in "provider.lower()" s); cbn [orb].
  { split; [|by right]. split; [done|]. by intros (_ & _ & _ & ?). }
  destruct (str_in "elif " s); [by specialize (He eq_refl)|]. cbn [orb].
  destruct (Nat.ltb_spec (length s) 20) as [Hlt|Hge].
  - split; [|by right]. split; [done|]. intros (? & _). lia.
  - split; [|by left]. split; [by intros _|done].
Qed.

Lemma without_spec (c : str) (models : list str) (x : str) :
  x ∈ without c models <-> x ∈ models /\ x <> c.
Proof.
  unfold without. rewrite list_elem_of_In, List.filter_In, <- list_elem_of_In.
  rewrite negb_true_iff, str_eqb_neq. done.
Qed.

Lemma without_NoDup (c : str) (models : list str) :
  NoDup models -> NoDup (without c models).
Proof.
  intros H. apply NoDup_ListNoDup, List.NoDup_filter. by apply NoDup_ListNoDup.
Qed.

Lemma without_nonempty (c a b : str) (rest : list str) :
  a <> b -> without c (a :: b :: rest) <> [].
Proof.
  intros Hab. unfold without. cbn [List.filter].
  destruct (str_eqb_spec a c) as [->|Ha]; cbn [negb]; [|done].
  destruct (str_eqb_spec b c) as [->|Hb]; cbn [negb]; done.
Qed.

Lemma length_without (c : str) (models : list str) :
  length (without c models) <= length models.
Proof.
  unfold without. induction models as [|x l IH]; [done|]. cbn [List.filter].
  destruct (negb _); simpl; lia.
Qed.

(** The providers for which [_fallback_models] has a list. *)
Lemma fallback_models_cases {R : Runtime} (provider current : option str) :
  exists models,
    _fallback_models provider current
      = without (strip (default "" current)) models /\
    NoDup models /\ length models <= 3 /\
    (models = [] \/ exists a b rest, models = a :: b :: rest /\ a <> b) /\
    (models = [] <->
     forall p, p ∈ ["openai"; "anthropic"; "google"; "gemini"; "google-gemini";
                    "perplexity"; "aipipe"] ->
               lower (default "" provider) <> p).
Proof.
  unfold _fallback_models, is_google.
  set (p := lower (default "" provider)).
  destruct (str_eqb_spec p "openai") as [E|N1].
  { eexists. split; [reflexivity|]. split; [by apply (bool_decide_unpack _)|]. split; [simpl; lia|].
    split; [right; by eexists _, _, _|]. split; [done|].
    intros H. exfalso. apply (H "openai"); [by apply (bool_decide_unpack _)|done]. }
  destruct (str_eqb_spec p "anthropic") as [E|N2].
  { eexists. split; [reflexivity|]. split; [by apply (bool_decide_unpack _)|]. split; [simpl; lia|].
    split; [right; by eexists _, _, _|]. split; [done|].
    intros H. exfalso. apply (H "anthropic"); [by apply (bool_decide_unpack _)|done]. }
  destruct (str_eqb_spec p "google") as [E|N3]; cbn [orb].
  { eexists. split; [reflexivity|]. split; [by apply (bool_decide_unpack _)|]. split; [simpl; lia|].
    split; [right; by eexists _, _, _|]. split; [done|].
    intros H. exfalso. apply (H "google"); [by apply (bool_decide_unpack _)|done]. }
  destruct (str_eqb_spec p "gemini") as [E|N4]; cbn [orb].
  { eexists. split; [reflexivity|]. split; [by apply (bool_decide_unpack _)|]. split; [simpl; lia|].
    split; [right; by eexists _, _, _|]. split; [done|].
    intros H. exfalso. apply (H "gemini"); [by apply (bool_decide_unpack _)|done]. }
  destruct (str_eqb_spec p "google-gemini") as [E|N5].
  { eexists. split; [reflexivity|]. split; [by apply (bool_decide_unpack _)|]. split; [simpl; lia|].
    split; [right; by eexists _, _, _|]. split; [done|].
    intros H. exfalso. apply (H "google-gemini"); [by apply (bool_decide_unpack _)|done]. }
  destruct (str_eqb_spec p "perplexity") as [E|N6].
  { eexists. split; [reflexivity|]. split; [by apply (bool_decide_unpack _)|]. split; [simpl; lia|].
    split; [right; by eexists _, _, _|]. split; [done|].
    intros H. exfalso. apply (H "perplexity"); [by apply (bool_decide_unpack _)|done]. }
  destruct (str_eqb_spec p "aipipe") as [E|N7].
  { eexists. split; [reflexivity|]. split; [by apply (bool_decide_unpack _)|]. split; [simpl; lia|].
    split; [right; by eexists _, _, _|]. split; [done|].
    intros H. exfalso. apply (H "aipipe"); [by apply (bool_decide_unpack _)|done]. }
  exists []. split; [done|]. split; [constructor|]. split; [simpl; lia|].
  split; [by left|]. split; [|done]. intros _ q Hq.
  repeat (apply elem_of_cons in Hq as [->|Hq]; [done|]). by apply elem_of_nil in Hq.
Qed.

(** X13.  The fallback models never include the current model (as stripped
    of surrounding white space), hold no model twice, are at most three, and
    there is at least one of them for each of the seven provider names the
    function knows, whatever the current model; for any other provider
    there is none. *)
Theorem fallback_models_spec {R : Runtime} (provider current : option str) :
  (strip (default "" current) ∉ _fallback_models provider current) /\
  NoDup (_fallback_models provider current) /\
  length (_fallback_models provider current) <= 3 /\
  (_fallback_models provider current = [] <->
   forall p, p ∈ ["openai"; "anthropic"; "google"; "gemini"; "google-gemini";
                  "perplexity"; "aipipe"] ->
             lower (default "" provider) <> p).
Proof.
  destruct (fallback_models_cases provider current)
    as (models & -> & Hnd & Hlen & Hshape & Hknown).
  split; [|split; [|split]].
  - rewrite without_spec. by intros [_ ?].
  - by apply without_NoDup.
  - pose proof (length_without (strip (default "" current)) models). lia.
  - rewrite <- Hknown. destruct Hshape as [->|(a & b & rest & -> & Hab)]; [done|].
    split; [|done]. intros H. by apply without_nonempty in H.
Qed.

Lemma default_hint_normal (s : slide_data) :
  (exists h, layout_hint (default_hint s) = Val h /\ h <> "") /\
  title (default_hint s) = title s /\ bullets (default_hint s) = bullets s /\
  notes (default_hint s) = notes s.
Proof.
  unfold default_hint. destruct s as [t b [| |[|c h]] n]; cbn.
  1-3: split; [by exists "title_and_content"|done].
  split; [by eexists|done].
Qed.

Lemma add_notes_normal (s : slide_data) :
  notes (add_notes s) <> Absent /\
  title (add_notes s) = title s /\ bullets (add_notes s) = bullets s /\
  layout_hint (add_notes s) = layout_hint s.
Proof. unfold add_notes. by destruct s as [t b l [| |n]]. Qed.

Lemma default_hint_id (s : slide_data) :
  (exists h, layout_hint s = Val h /\ h <> "") -> default_hint s = s.
Proof.
  intros (h & Hh & Hne). unfold default_hint. rewrite Hh. cbn.
  by destruct h.
Qed.

Lemma add_notes_id (s : slide_data) : notes s <> Absent -> add_notes s = s.
Proof. unfold add_notes. by destruct (notes s). Qed.

Lemma normalize_plan_facts (include_notes : bool) (slides plan : list slide_data) :
  normalize_plan include_notes slides = Ok plan ->
  1 <= length plan <= 30 /\
  length plan = min (length slides) 30 /\
  map title plan = take 30 (map title slides) /\
  map bullets plan = take 30 (map bullets slides) /\
  Forall (normal_entry include_notes) plan /\
  normalize_plan include_notes plan = Ok plan.
Proof.
  intros H.
  assert (Hlen : length plan = min (length slides) 30 /\ slides <> []).
  { destruct slides as [|s l]; [done|]. split; [|done].
    destruct (length_normalize_plan include_notes (s :: l)) as (plan' & E & L);
      [done|]. rewrite H in E. by injection E as <-. }
  destruct Hlen as [Hlen Hne].
  assert (Hpos : 1 <= length slides) by (destruct slides; [done|simpl; lia]).
  unfold normalize_plan in H. destruct slides as [|s0 l0] eqn:Es; [done|].
  rewrite <- Es in *. clear Es s0 l0.
  set (f := if include_notes then add_notes else (fun s => s)) in *.
  assert (Hplan : plan = map default_hint (map f (take 30 slides))).
  { injection H as <-. unfold f. destruct include_notes; [done|].
    by rewrite List.map_id. }
  clear H.
  assert (Hf : forall s, title (f s) = title s /\ bullets (f s) = bullets s /\
                         (include_notes = true -> notes (f s) <> Absent)).
  { intros s. unfold f. destruct include_notes; [|done].
    destruct (add_notes_normal s) as (?&?&?&?). done. }
  assert (Hnormal : Forall (normal_entry include_notes) plan).
  { rewrite Hplan. apply Forall_forall. intros s Hs.
    apply list_elem_of_fmap in Hs as (s1 & -> & Hs1).
    apply list_elem_of_fmap in Hs1 as (s2 & -> & _).
    destruct (default_hint_normal (f s2)) as (Hh & _ & _ & Hn).
    split; [done|]. rewrite Hn. apply Hf. }
  split; [lia|]. split; [done|]. split; [|split; [|split; [done|]]].
  - rewrite Hplan, !List.map_map, <- List.firstn_map. f_equal.
    apply List.map_ext. intros s.
    destruct (default_hint_normal (f s)) as (_ & -> & _). apply Hf.
  - rewrite Hplan, !List.map_map, <- List.firstn_map. f_equal.
    apply List.map_ext. intros s.
    destruct (default_hint_normal (f s)) as (_ & _ & -> & _). apply Hf.
  - unfold normalize_plan. destruct plan as [|p0 pl] eqn:Ep; [simpl in *; lia|].
    rewrite <- Ep in *. f_equal.
    rewrite take_ge by lia.
    assert (Hid : map default_hint (map f plan) = plan).
    { rewrite List.map_map. rewrite <- (List.map_id plan) at 2.
      apply List.map_ext_in. intros s Hs. apply list_elem_of_In in Hs.
      rewrite Forall_forall in Hnormal. destruct (Hnormal s Hs) as [Hh Hn].
      assert (Efs : f s = s).
      { unfold f. destruct include_notes; [|done]. by apply add_notes_id, Hn. }
      rewrite Efs. by apply default_hint_id. }
    unfold f in Hid. by destruct include_notes; rewrite ?List.map_id in Hid.
Qed.

(** X14.  A plan that comes out of the normalisation has between 1 and 30
    entries, the first [min (len slides) 30] of the provider's, in their
    order and with their titles and bullets untouched; each has a non-empty
    layout hint, and a [notes] key when notes were asked for.  Normalising
    it again changes nothing. *)
Theorem normalize_plan_spec (include_notes : bool) (slides plan : list slide_data) :
  normalize_plan include_notes slides = Ok plan ->
  1 <= length plan <= 30 /\
  length plan = min (length slides) 30 /\
  map title plan = take 30 (map title slides) /\
  map bullets plan = take 30 (map bullets slides) /\
  Forall (normal_entry include_notes) plan /\
  normalize_plan include_notes plan = Ok plan.
Proof. apply normalize_plan_facts. Qed.

Lemma normalize_plan_spec_witness :
  exists plan,
    normalize_plan true thirty_one_entries = Ok plan /\
    1 <= length plan <= 30 /\
    length plan = min (length thirty_one_entries) 30 /\
    map title plan = take 30 (map title thirty_one_entries) /\
    map bullets plan = take 30 (map bullets thirty_one_entries) /\
    Forall (normal_entry true) plan /\
    normalize_plan true plan = Ok plan.
Proof.
  eexists. split; [reflexivity|].
  exact (normalize_plan_spec true thirty_one_entries _ eq_refl).
Defined.

Lemma post_openai_count (net : Network) (k : str) (m : option str)
  (sys u : str) (n : nat) :
  (_post_openai net k m sys u n).2 = S n.
Proof. unfold _post_openai. by destruct (net n _). Qed.

Lemma post_gemini_count (net : Network) (k : str) (m : option str)
  (sys u : str) (n : nat) :
  (_post_gemini net k m sys u n).2 = S n.
Proof. unfold _post_gemini. by destruct (net n _). Qed.

Lemma post_aipipe_count (net : Network) (k : str) (m : option str)
  (sys u : str) (n : nat) :
  S n <= (_post_aipipe net k m sys u n).2 <= S (S n).
Proof.
  unfold _post_aipipe. destruct (net n _) as [|r]; cbn; [lia|].
  destruct (status_code r =? 400); [|cbn; lia].
  destruct (net (S n) _); cbn; lia.
Qed.

(** What one call of [plan_slides_via_llm] amounts to. *)
Lemma plan_slides_cases {R : Runtime} (SYS : str) (net : Network)
  (json : str -> outcome (list slide_data)) (provider model : option str)
  (api_key input_text : str) (guidance : option str) (inc : bool) (n : nat) :
  let r := plan_slides_via_llm SYS net json provider model api_key input_text
                               guidance inc n in
  (_validate_api_key_like api_key <> Return tt /\
   r = (RaiseProviderError key_invalid_message, n)) \/
  (_validate_api_key_like api_key = Return tt /\ supported provider = false /\
   r = (RaiseProviderError ("Unsupported provider: " ++ show_opt provider), n)) \/
  (_validate_api_key_like api_key = Return tt /\ supported provider = true /\
   n < r.2 <= n + 2 /\
   (forall plan, r.1 = Return plan ->
      exists raw slides, json raw = Return slides /\
                         normalize_plan inc slides = Ok plan)).
Proof.
  intros r. subst r. unfold plan_slides_via_llm, supported.
  destruct (validate_api_key_cases api_key) as [V|V]; rewrite V.
  2:{ left. by split. }
  right. set (p := lower (default "" provider)).
  assert (Hfin : forall (raw : outcome (option str)) (k : nat) plan,
            (match raw with
             | Return raw => (finish_plan json inc raw, k)
             | RaiseProviderError msg => (RaiseProviderError msg, k)
             | RaiseOther e => (RaiseOther e, k)
             end).1 = Return plan ->
            exists raw0 slides, json raw0 = Return slides /\
                                normalize_plan inc slides = Ok plan).
  { intros [[text|]|msg|e] k plan; cbn; try done.
    destruct (json text) as [slides|msg|e] eqn:Ej; try done.
    destruct (normalize_plan inc slides) as [plan'|e] eqn:En; try done.
    intros [= <-]. by exists text, slides. }
  assert (Hsnd : forall (raw : outcome (option str)) (k : nat),
            (match raw with
             | Return raw => (finish_plan json inc raw, k)
             | RaiseProviderError msg => (RaiseProviderError msg, k)
             | RaiseOther e => (RaiseOther e, k)
             end).2 = k).
  { by intros [?|?|?] k. }
  destruct (str_eqb_spec p "openai") as [E1|N1]; cbn [orb].
  { right. split; [done|]. split; [done|].
    pose proof (post_openai_count net api_key model SYS
                  (USER_TEMPLATE (or_str guidance "(none)")
                     (str_take 15000 input_text)) n) as C.
    destruct (_post_openai _ _ _ _ _ n) as [raw k]. cbn [snd] in C. subst k.
    rewrite Hsnd. split; [lia|]. apply Hfin. }
  destruct (is_google p); cbn [orb].
  { right. split; [done|]. split; [done|].
    pose proof (post_gemini_count net api_key model SYS
                  (USER_TEMPLATE (or_str guidance "(none)")
                     (str_take 15000 input_text)) n) as C.
    destruct (_post_gemini _ _ _ _ _ n) as [raw k]. cbn [snd] in C. subst k.
    rewrite Hsnd. split; [lia|]. apply Hfin. }
  destruct (str_eqb_spec p "aipipe") as [E3|N3].
  { right. split; [done|]. split; [done|].
    pose proof (post_aipipe_count net api_key model SYS
                  (USER_TEMPLATE (or_str guidance "(none)")
                     (str_take 15000 input_text)) n) as C.
    destruct (_post_aipipe _ _ _ _ _ n) as [raw k]. cbn [snd] in C.
    rewrite Hsnd. split; [lia|]. apply Hfin. }
  left. by split.
Qed.

(** X15.  A plan returned by [plan_slides_via_llm] means that the key
    passed the check, that the provider is one of the five supported names,
    that one or two requests were sent, and that the plan has between 1 and
    30 entries, each with a non-empty layout hint (and a [notes] key when
    notes were asked for). *)
Theorem plan_slides_returns {R : Runtime} (SYS : str) (net : Network)
  (json : str -> outcome (list slide_data)) (provider model : option str)
  (api_key input_text : str) (guidance : option str) (inc : bool)
  (n n' : nat) (plan : list slide_data) :
  plan_slides_via_llm SYS net json provider model api_key input_text guidance
                      inc n = (Return plan, n') ->
  _validate_api_key_like api_key = Return tt /\ supported provider = true /\
  n < n' <= n + 2 /\
  1 <= length plan <= 30 /\ Forall (normal_entry inc) plan.
Proof.
  intros H.
  destruct (plan_slides_cases SYS net json provider model api_key input_text
              guidance inc n) as [[_ E]|[(_ & _ & E)|(V & S & C & P)]];
    rewrite H in *; try done.
  split; [done|]. split; [done|]. split; [done|].
  destruct (P plan eq_refl) as (raw & slides & _ & Hn).
  destruct (normalize_plan_facts inc slides plan Hn) as (? & _ & _ & _ & ? & _).
  done.
Qed.

Lemma plan_slides_returns_witness :
  let R : Runtime := plain in
  exists plan n',
    plan_slides_via_llm "system" obliging_network one_entry_parser
      (Some "OpenAI") None good_key "some text" None true 0 = (Return plan, n') /\
    _validate_api_key_like good_key = Return tt /\
    supported (Some "OpenAI") = true /\
    0 < n' <= 0 + 2 /\
    1 <= length plan <= 30 /\ Forall (normal_entry true) plan.
Proof. intros R.
  eexists _, _. split; [reflexivity|].
  exact (plan_slides_returns "system" obliging_network one_entry_parser
           (Some "OpenAI") None good_key "some text" None true 0 _ _ eq_refl).
Defined.

Lemma try_candidates_constant {A} (attempt : option str -> io A)
  (msg0 : str) (n : nat) (candidates : list str) (last : str) :
  (forall m, attempt m n = (RaiseProviderError msg0, n)) ->
  try_candidates attempt candidates last n
  = (RaiseProviderError (match candidates with [] => last | _ => msg0 end), n).
Proof.
  intros H. revert last. induction candidates as [|c l IH]; intros last; [done|].
  cbn [try_candidates]. rewrite H, IH. by destruct l.
Qed.

Lemma try_candidates_count {A} (attempt : option str -> io A)
  (candidates : list str) :
  (forall m k, k <= (attempt m k).2 <= k + 2) ->
  forall last n,
    n <= (try_candidates attempt candidates last n).2
      <= n + 2 * length candidates.
Proof.
  intros H. induction candidates as [|c l IH]; intros last n; cbn [try_candidates].
  - cbn. lia.
  - pose proof (H (Some c) n) as Hc.
    destruct (attempt (Some c) n) as [[x|msg|e] k]; cbn [snd length] in *; try lia.
    specialize (IH msg k). lia.
Qed.

Lemma plan_slides_count {R : Runtime} (SYS : str) (net : Network)
  (json : str -> outcome (list slide_data)) (provider model : option str)
  (api_key input_text : str) (guidance : option str) (inc : bool) (n : nat) :
  n <= (plan_slides_via_llm SYS net json provider model api_key input_text
                            guidance inc n).2 <= n + 2.
Proof.
  destruct (plan_slides_cases SYS net json provider model api_key input_text
              guidance inc n) as [[_ ->]|[(_ & _ & ->)|(_ & _ & C & _)]];
    cbn [snd]; lia.
Qed.

Lemma refused_without_request_aux {R : Runtime} (SYS : str) (net : Network)
  (json : str -> outcome (list slide_data)) (provider model : option str)
  (api_key input_text : str) (guidance : option str) (inc : bool) (n : nat) :
  _key_looks_like provider (Some api_key) = false \/
  _validate_api_key_like api_key <> Return tt \/
  supported provider = false ->
  exists msg,
    _plan_with_fallback SYS net json provider model api_key input_text
                        guidance inc n = (RaiseProviderError msg, n).
Proof.
  intros H. unfold _plan_with_fallback.
  destruct (_key_looks_like provider (Some api_key)) eqn:K; cbn [negb];
    [|by eexists].
  destruct H as [H|H]; [done|]. cbv zeta.
  set (attempt := fun m => plan_slides_via_llm SYS net json provider (or_none m)
                             api_key input_text guidance inc).
  assert (Hatt : exists msg0,
            (forall m, attempt m n = (RaiseProviderError msg0, n)) /\
            (msg0 = key_invalid_message \/
             msg0 = "Unsupported provider: " ++ show_opt provider)).
  { destruct (validate_api_key_cases api_key) as [V|V].
    - destruct H as [H|H]; [done|].
      exists ("Unsupported provider: " ++ show_opt provider). split; [|by right].
      intros m. unfold attempt.
      by destruct (plan_slides_cases SYS net json provider (or_none m) api_key
                     input_text guidance inc n)
        as [[? _]|[(_ & _ & E)|(_ & ? & _)]]; [|exact E|congruence].
    - exists key_invalid_message. split; [|by left]. intros m. unfold attempt.
      destruct (plan_slides_cases SYS net json provider (or_none m) api_key
                  input_text guidance inc n)
        as [[_ E]|[(? & _)|(? & _)]]; [exact E|congruence|congruence]. }
  destruct Hatt as (msg0 & Hatt & Hmsg).
  change (plan_slides_via_llm SYS net json provider (or_none model) api_key
            input_text guidance inc n) with (attempt model n).
  rewrite (Hatt model).
  destruct (str_in "invalid model" (lower msg0) || str_in "not found" (lower msg0))
    eqn:Hs.
  - destruct provider as [pv|].
    + rewrite (try_candidates_constant attempt msg0 n _ msg0 Hatt). by eexists.
    + exfalso. destruct Hmsg as [->| ->]; by vm_compute in Hs.
  - rewrite (try_candidates_constant attempt msg0 n _ msg0 Hatt). by eexists.
Qed.

(** X16.  When the key does not look like a key of the provider, when the
    key fails the check, or when the provider is not a supported one,
    [_plan_with_fallback] raises a [ProviderError] without a single request
    being sent, the fallback models notwithstanding. *)
Theorem refused_without_request {R : Runtime} (SYS : str) (net : Network)
  (json : str -> outcome (list slide_data)) (provider model : option str)
  (api_key input_text : str) (guidance : option str) (inc : bool) (n : nat) :
  _key_looks_like provider (Some api_key) = false \/
  _validate_api_key_like api_key <> Return tt \/
  supported provider = false ->
  exists msg,
    _plan_with_fallback SYS net json provider model api_key input_text
                        guidance inc n = (RaiseProviderError msg, n).
Proof. apply refused_without_request_aux. Qed.

Lemma refused_without_request_witness :
  let R : Runtime := plain in
  supported (Some "anthropic") = false /\
  _key_looks_like (Some "anthropic") (Some "sk-ant-REDACTED") = true /\
  exists msg,
    _plan_with_fallback "system" obliging_network one_entry_parser
      (Some "anthropic") (Some "claude-3-5-haiku") "sk-ant-REDACTED"
      "some text" None false 0 = (RaiseProviderError msg, 0).
Proof. intros R.
  split; [reflexivity|]. split; [reflexivity|].
  apply (refused_without_request "system" obliging_network one_entry_parser
           (Some "anthropic") (Some "claude-3-5-haiku")
           "sk-ant-REDACTED" "some text" None false 0).
  right; right. reflexivity.
Defined.

Lemma at_most_eight_requests_aux {R : Runtime} (SYS : str) (net : Network)
  (json : str -> outcome (list slide_data)) (provider model : option str)
  (api_key input_text : str) (guidance : option str) (inc : bool) (n : nat) :
  n <= (_plan_with_fallback SYS net json provider model api_key input_text
                            guidance inc n).2 <= n + 8.
Proof.
  unfold _plan_with_fallback.
  destruct (negb _); [cbn; lia|]. cbv zeta.
  set (attempt := fun m => plan_slides_via_llm SYS net json provider (or_none m)
                             api_key input_text guidance inc).
  assert (Hatt : forall m k, k <= (attempt m k).2 <= k + 2).
  { intros m k. apply plan_slides_count. }
  change (plan_slides_via_llm SYS net json provider (or_none model) api_key
            input_text guidance inc n) with (attempt model n).
  pose proof (Hatt model n) as H1.
  destruct (attempt model n) as [[x|msg|e] k]; cbn [snd] in *; try lia.
  destruct (fallback_models_cases provider model) as (models & Em & _ & Hl & _).
  pose proof (length_without (strip (default "" model)) models) as Hw.
  rewrite <- Em in Hw.
  assert (Hc : forall cands, length cands <= 3 ->
            n <= (try_candidates attempt cands msg k).2 <= n + 8).
  { intros cands Hlen.
    pose proof (try_candidates_count attempt cands Hatt msg k). lia. }
  destruct (_ || _).
  - destruct provider as [pv|]; [|cbn; lia].
    apply Hc. destruct (_ == _); [simpl; lia|lia].
  - apply Hc. lia.
Qed.

(** X17.  One call of [_plan_with_fallback] sends at most eight requests:
    at most two for the model asked for and at most two for each of at most
    three fallback models. *)
Theorem at_most_eight_requests {R : Runtime} (SYS : str) (net : Network)
  (json : str -> outcome (list slide_data)) (provider model : option str)
  (api_key input_text : str) (guidance : option str) (inc : bool) (n : nat) :
  n <= (_plan_with_fallback SYS net json provider model api_key input_text
                            guidance inc n).2 <= n + 8.
Proof. apply at_most_eight_requests_aux. Qed.

Lemma try_candidates_ext {A} (f g : option str -> io A)
  (candidates : list str) (last : str) (n : nat) :
  (forall m k, f m k = g m k) ->
  try_candidates f candidates last n = try_candidates g candidates last n.
Proof.
  intros H. revert last n.
  induction candidates as [|c l IH]; intros last n; [done|].
  cbn [try_candidates]. rewrite H.
  destruct (g (Some c) n) as [[x|msg|e] k]; [done|apply IH|done].
Qed.

Lemma plan_slides_takes_15000 {R : Runtime} (SYS : str) (net : Network)
  (json : str -> outcome (list slide_data)) (provider model : option str)
  (api_key text : str) (guidance : option str) (inc : bool) (n : nat) :
  plan_slides_via_llm SYS net json provider model api_key
                      (str_take 15000 text) guidance inc n
  = plan_slides_via_llm SYS net json provider model api_key text guidance inc n.
Proof. unfold plan_slides_via_llm. by rewrite str_take_idem. Qed.

(** X18.  Only the first 15000 characters of the input text count: cutting
    the text to them, or appending anything to a text that long, changes
    neither the requests sent nor the outcome of [_plan_with_fallback]. *)
Theorem input_text_cut_at_15000 {R : Runtime} (SYS : str) (net : Network)
  (json : str -> outcome (list slide_data)) (provider model : option str)
  (api_key text extra : str) (guidance : option str) (inc : bool)
  (n : nat) :
  _plan_with_fallback SYS net json provider model api_key
                      (str_take 15000 text) guidance inc n
  = _plan_with_fallback SYS net json provider model api_key text guidance inc n /\
  (15000 <= length text ->
   _plan_with_fallback SYS net json provider model api_key
                       (app text extra) guidance inc n
   = _plan_with_fallback SYS net json provider model api_key text guidance inc n).
Proof.
  assert (Hcut : forall t,
            _plan_with_fallback SYS net json provider model api_key
                                (str_take 15000 t) guidance inc n
            = _plan_with_fallback SYS net json provider model api_key t
                                  guidance inc n).
  { intros t. unfold _plan_with_fallback.
    destruct (negb _); [done|]. cbv zeta.
    rewrite plan_slides_takes_15000.
    destruct (plan_slides_via_llm _ _ _ _ _ _ t _ _ n) as [[x|msg|e] k]; try done.
    assert (E : forall cands,
              try_candidates
                (fun m => plan_slides_via_llm SYS net json provider (or_none m)
                            api_key (str_take 15000 t) guidance inc) cands msg k
              = try_candidates
                  (fun m => plan_slides_via_llm SYS net json provider (or_none m)
                              api_key t guidance inc) cands msg k).
    { intros cands. apply try_candidates_ext. intros m j.
      apply plan_slides_takes_15000. }
    destruct (_ || _); [destruct provider|]; by rewrite ?E. }
  split; [apply Hcut|]. intros Hlen.
  rewrite <- (Hcut (app text extra)), <- (Hcut text).
  by rewrite str_take_app.
Qed.

(** * Further properties of the routes *)

Lemma try_candidates_returns {A} (attempt : option str -> io A)
  (candidates : list str) :
  forall last n x n',
    try_candidates attempt candidates last n = (Return x, n') ->
    exists m k, attempt m k = (Return x, n').
Proof.
  induction candidates as [|c l IH]; intros last n x n'; cbn [try_candidates];
    [done|].
  destruct (attempt (Some c) n) as [[y|msg|e] k] eqn:E; try done.
  - intros [= <- <-]. by exists (Some c), n.
  - apply IH.
Qed.

(** A plan returned by [_plan_with_fallback] is one some attempt returned. *)
Lemma plan_with_fallback_returns {R : Runtime} (SYS : str) (net : Network)
  (json : str -> outcome (list slide_data)) (provider model : option str)
  (api_key text : str) (guidance : option str) (inc : bool)
  (n n' : nat) (plan : list slide_data) :
  _plan_with_fallback SYS net json provider model api_key text guidance inc n
    = (Return plan, n') ->
  _key_looks_like provider (Some api_key) = true /\
  _validate_api_key_like api_key = Return tt /\ supported provider = true /\
  n < n' <= n + 8 /\
  1 <= length plan <= 30 /\ Forall (normal_entry inc) plan.
Proof.
  intros H.
  pose proof (at_most_eight_requests_aux SYS net json provider model api_key text
                guidance inc n) as Hc.
  rewrite H in Hc. cbn [snd] in Hc.
  unfold _plan_with_fallback in H.
  destruct (_key_looks_like provider (Some api_key)) eqn:K; cbn [negb] in H;
    [|done].
  cbv zeta in H.
  set (attempt := fun m => plan_slides_via_llm SYS net json provider (or_none m)
                             api_key text guidance inc) in *.
  assert (Hret : exists m k, attempt m k = (Return plan, n') /\ n <= k).
  { change (plan_slides_via_llm SYS net json provider (or_none model) api_key
              text guidance inc n) with (attempt model n) in H.
    pose proof (plan_slides_count SYS net json provider (or_none model) api_key
                  text guidance inc n) as C1.
    change (plan_slides_via_llm SYS net json provider (or_none model) api_key
              text guidance inc n) with (attempt model n) in C1.
    destruct (attempt model n) as [[x|msg|e] k] eqn:E; try done.
    - injection H as <- <-. by exists model, n.
    - cbn [snd] in C1.
      assert (Hk : forall cands,
                try_candidates attempt cands msg k = (Return plan, n') ->
                exists m j, attempt m j = (Return plan, n') /\ n <= j).
      { intros cands Ht.
        assert (Hge : forall cands' last j x j',
                  try_candidates attempt cands' last j = (Return x, j') ->
                  exists m i, attempt m i = (Return x, j') /\ j <= i).
        { induction cands' as [|c l IH]; intros last j x j';
            cbn [try_candidates]; [done|].
          pose proof (plan_slides_count SYS net json provider (or_none (Some c))
                        api_key text guidance inc j) as Cj.
          change (plan_slides_via_llm SYS net json provider (or_none (Some c))
                    api_key text guidance inc j) with (attempt (Some c) j) in Cj.
          destruct (attempt (Some c) j) as [[y|msg'|e'] i] eqn:Ej; try done.
          - intros [= <- <-]. by exists (Some c), j.
          - intros Hr. apply IH in Hr as (m & i' & Hm & Hi).
            exists m, i'. split; [done|]. cbn [snd] in Cj. lia. }
        apply Hge in Ht as (m & j & Hm & Hj). exists m, j. split; [done|lia]. }
      destruct (_ || _); [destruct provider as [pv|]; [|done]|]; exact (Hk _ H). }
  destruct Hret as (m & k & Hm & Hk). unfold attempt in Hm.
  destruct (plan_slides_cases SYS net json provider (or_none m) api_key text
              guidance inc k) as [[_ E]|[(_ & _ & E)|(V & S & C & P)]];
    rewrite Hm in *; try done.
  cbn [fst snd] in *.
  destruct (P plan eq_refl) as (raw & slides & _ & Hn).
  destruct (normalize_plan_facts inc slides plan Hn) as (? & _ & _ & _ & ? & _).
  repeat split; try done; lia.
Qed.

(** X19.  [generate] sends the provider nothing before the form has passed
    every check: a request is sent only if the input text and the key are
    non-empty once stripped, a file with a name and an extension ".pptx" or
    ".potx" (in any case) was uploaded, the key looks like a key of the
    provider and passes the check, and the provider is a supported one.  It
    never sends more than eight. *)
Theorem generate_checks_before_provider {R : Runtime} (SYS : str) (net : Network)
  (json : str -> outcome (list slide_data)) (extension : str -> str)
  (rng : nat -> nat) (form : app.Form) (n : nat) :
  let r := app.generate SYS net json extension rng form n in
  let key := app.form_get (app.apiKey form) "" in
  let provider := Some (app.form_get (app.provider form) "openai") in
  n <= r.2 <= n + 8 /\
  (r.2 <> n ->
   app.form_get (app.inputText form) "" <> "" /\ key <> "" /\
   (exists f, app.templateFile form = Some f /\ app.filename f <> "" /\
              app.allowed_extension (lower (extension (app.filename f))) = true) /\
   _key_looks_like provider (Some key) = true /\
   _validate_api_key_like key = Return tt /\ supported provider = true).
Proof.
  intros r key provider. subst r. unfold app.generate.
  fold key. change (Some (app.form_get (app.provider form) "openai")) with provider.
  destruct (str_eqb_spec (app.form_get (app.inputText form) "") "")
    as [E1|N1]; [cbn; split; [lia|done]|].
  destruct (str_eqb_spec key "") as [E2|N2]; [cbn; split; [lia|done]|].
  destruct (app.templateFile form) as [f|]; [|cbn; split; [lia|done]].
  destruct (str_eqb_spec (app.filename f) "") as [E3|N3];
    [cbn; split; [lia|done]|].
  destruct (app.allowed_extension _) eqn:Ex; cbn [negb];
    [|cbn; split; [lia|done]].
  set (text := app.form_get (app.inputText form) "") in *.
  set (g := Some (app.form_get (app.guidance form) "")).
  set (m := Some (app.form_get (app.model form) "")).
  set (inc := (default "off" (app.includeNotes form) == "on")).
  pose proof (at_most_eight_requests_aux SYS net json provider m key text g inc n)
    as Hc.
  assert (Href : forall k, (_plan_with_fallback SYS net json provider m key text
                              g inc n).2 = k -> k <> n ->
            _key_looks_like provider (Some key) = true /\
            _validate_api_key_like key = Return tt /\ supported provider = true).
  { intros k Hk Hne.
    destruct (_key_looks_like provider (Some key)) eqn:K.
    2:{ destruct (refused_without_request_aux SYS net json provider m key text g
                   inc n) as [msg E]; [by left|]. rewrite E in Hk. by subst. }
    destruct (validate_api_key_cases key) as [V|V].
    2:{ destruct (refused_without_request_aux SYS net json provider m key text g
                   inc n) as [msg E]; [right; left; by rewrite V|].
        rewrite E in Hk. by subst. }
    destruct (supported provider) eqn:S; [done|].
    destruct (refused_without_request_aux SYS net json provider m key text g
                inc n) as [msg E]; [by right; right|]. rewrite E in Hk. by subst. }
  destruct (_plan_with_fallback SYS net json provider m key text g inc n)
    as [[plan|msg|e] k]; cbn [snd] in *.
  - assert (Hk : (match build_presentation rng (app.contents f) plan with
                  | Ok out => (app.SendFile out, k)
                  | Raise e => (app.JsonError 500 (app.BuildFailure e), k)
                  end).2 = k) by (by destruct (build_presentation _ _ _)).
    rewrite Hk. split; [done|]. intros Hne.
    destruct (Href k eq_refl Hne) as (?&?&?). repeat split; try done. by exists f.
  - split; [done|]. intros Hne.
    destruct (Href k eq_refl Hne) as (?&?&?). repeat split; try done. by exists f.
  - split; [done|]. intros Hne.
    destruct (Href k eq_refl Hne) as (?&?&?). repeat split; try done. by exists f.
Qed.

(** X20.  A deck sent by [generate] was built on an uploaded file that could
    be opened, has between 1 and 60 slides, and has the layouts, masters and
    theme of the upload; at least one request was sent for it. *)
Theorem generate_sends_deck {R : Runtime} (SYS : str) (net : Network)
  (json : str -> outcome (list slide_data)) (extension : str -> str)
  (rng : nat -> nat) (form : app.Form) (n n' : nat) (doc : Presentation) :
  app.generate SYS net json extension rng form n = (app.SendFile doc, n') ->
  exists f prs,
    app.templateFile form = Some f /\ app.contents f = Package prs /\
    1 <= length (slides doc) <= 60 /\
    slide_layouts doc = slide_layouts prs /\
    slide_masters doc = slide_masters prs /\ theme doc = theme prs /\
    n < n'.
Proof.
  unfold app.generate.
  destruct (_ == _); [done|]. destruct (_ == _); [done|].
  destruct (app.templateFile form) as [f|]; [|done].
  destruct (_ == _); [done|]. destruct (negb _); [done|].
  destruct (_plan_with_fallback _ _ _ _ _ _ _ _ _ n) as [[plan|msg|e] k] eqn:Ep;
    try done.
  destruct (build_presentation rng (app.contents f) plan) as [out|e] eqn:Eb;
    [|done].
  intros [= -> ->].
  apply plan_with_fallback_returns in Ep as (_ & _ & _ & Hn & Hlen & _).
  destruct (app.contents f) as [|prs] eqn:Ec; [done|].
  exists f, prs. split; [done|]. split; [done|].
  destruct (deck_size_aux rng prs doc plan Eb) as [Hd _].
  destruct (build_keeps_layouts_masters_theme_aux rng prs doc plan Eb)
    as (?&?&?).
  repeat split; try done; lia.
Qed.

Lemma generate_sends_deck_witness :
  let R : Runtime := plain in
  exists doc n',
    app.generate "system" obliging_network one_entry_parser deck_extension
                 (fun _ => 0) office_form 0 = (app.SendFile doc, n') /\
    exists f prs,
      app.templateFile office_form = Some f /\ app.contents f = Package prs /\
      1 <= length (slides doc) <= 60 /\
      slide_layouts doc = slide_layouts prs /\
      slide_masters doc = slide_masters prs /\ theme doc = theme prs /\
      0 < n'.
Proof. intros R.
  eexists _, _. split; [reflexivity|].
  exact (generate_sends_deck "system" obliging_network one_entry_parser
           deck_extension (fun _ => 0) office_form 0 _ _ eq_refl).
Defined.

(** X21.  The slides [preview] answers with number between 1 and 30, each
    with a non-empty layout hint (and with a [notes] key when the form
    asked for notes with "on"); [preview] answers 400 without a request when
    the input text or the key is empty once stripped. *)
Theorem preview_slides {R : Runtime} (SYS : str) (net : Network)
  (json : str -> outcome (list slide_data)) (form : app.Form) (n : nat) :
  let r := app.preview SYS net json form n in
  (forall plan, r.1 = app.JsonSlides plan ->
     1 <= length plan <= 30 /\
     Forall (normal_entry (default "off" (app.includeNotes form) == "on"))
            plan /\
     n < r.2) /\
  (app.form_get (app.inputText form) "" = "" \/
   app.form_get (app.apiKey form) "" = "" ->
   app.status r.1 = 400 /\ r.2 = n).
Proof.
  intros r. subst r. unfold app.preview.
  destruct (str_eqb_spec (app.form_get (app.inputText form) "") "")
    as [E1|N1]; [by split|].
  destruct (str_eqb_spec (app.form_get (app.apiKey form) "") "")
    as [E2|N2]; [by split|].
  split; [|by intros [?|?]].
  destruct (_plan_with_fallback _ _ _ _ _ _ _ _ _ n) as [[plan|msg|e] k] eqn:Ep;
    try done.
  intros plan' [= <-].
  apply plan_with_fallback_returns in Ep as (_ & _ & _ & Hn & Hlen & Hf).
  cbn [snd]. repeat split; try done; lia.
Qed.

(** * Further properties of [_coerce_json] *)

Lemma find_None (sub s : str) : find sub s = None <-> str_in sub s = false.
Proof.
  induction s as [|c s IH]; cbn [find str_in].
  - destruct (str_prefix sub []); [by split|]. by rewrite orb_false_r.
  - destruct (str_prefix sub (c :: s)); cbn [orb]; [by split|].
    rewrite <- IH. by destruct (find sub s).
Qed.

(** The first occurrence of [sub' ++ [l]] in [a ++ sub' ++ [l] ++ b] is at
    [len a] when none starts inside [a]. *)
Lemma find_first (sub' : str) (l : codepoint) (a b : str) :
  str_in (sub' ++ [l]) (a ++ sub') = false ->
  find (sub' ++ [l]) (a ++ (sub' ++ [l]) ++ b) = Some (length a).
Proof.
  set (sub := sub' ++ [l]).
  induction a as [|c a IH]; intros H.
  - rewrite append_nil. pose proof (prefix_app_here sub b) as P.
    destruct (sub ++ b) as [|d r] eqn:E; cbn [find]; by rewrite P.
  - rewrite append_cons in H. apply str_in_cons_false in H as [Hp Hs].
    rewrite append_cons. cbn [find length].
    destruct (str_prefix sub (c :: a ++ sub ++ b)) eqn:P.
    + exfalso.
      assert (E : c :: a ++ sub ++ b = ((c :: a) ++ sub') ++ [l] ++ b).
      { unfold sub. by rewrite !append_assoc, append_cons. }
      rewrite E in P. apply prefix_app_short in P.
      * rewrite append_cons in P. congruence.
      * unfold sub. rewrite !length_append. simpl. lia.
    + by rewrite (IH Hs).
Qed.

Lemma find_Some_S (sub s : str) (n : nat) :
  find sub s = Some (S n) -> str_prefix sub s = false.
Proof.
  destruct s as [|c s]; cbn [find]; by destruct (str_prefix sub _).
Qed.

Lemma think_sub_from_skip (s : str) :
  forall k, think_sub_from k s = think_sub_from 0 (str_drop k s).
Proof.
  induction s as [|c s IH]; intros [|k]; try done.
  cbn [think_sub_from]. apply IH.
Qed.

Lemma str_drop_literal (u v : str) : str_drop (length u) (u ++ v) = v.
Proof. apply drop_app_length. Qed.

Lemma think_sub_none (s : str) :
  str_in "<think>" s = false \/ str_in "</think>" s = false -> think_sub s = s.
Proof.
  unfold think_sub. intros [H|H].
  - induction s as [|c s IH]; [done|].
    apply str_in_cons_false in H as [Hp Hs]. cbn [think_sub_from].
    rewrite Hp. by rewrite IH.
  - induction s as [|c s IH]; [done|].
    pose proof H as H0. apply str_in_cons_false in H as [_ Hs].
    cbn [think_sub_from]. destruct (str_prefix "<think>" (c :: s)) eqn:P.
    + apply prefix_app in P as [r Er].
      destruct (find "</think>" (str_drop 7 (c :: s))) as [j|] eqn:F; [|done].
      exfalso. assert (Hn : find "</think>" (str_drop 7 (c :: s)) <> None)
        by (by rewrite F).
      apply Hn, find_None. rewrite Er.
      assert (D : str_drop 7 ("<think>" ++ r) = r)
        by apply (str_drop_literal "<think>" r).
      rewrite D.
      destruct (str_in "</think>" r) eqn:Hr; [|done].
      rewrite Er in H0. rewrite <- H0. symmetry.
      apply (str_in_trans _ r); [done|].
      apply str_in_spec. exists "<think>", "". by rewrite append_nil_r.
    + by rewrite IH.
Qed.

(** X22.  [_THINK_RE.sub] takes out a think block and goes on behind it:
    where the first "<think>" of the text is followed by a "</think>", the
    text up to the block is kept, the block up to its first "</think>" is
    dropped, and the rest is treated in the same way.  A text without
    "<think>" or without "</think>" is left as it is. *)
Theorem think_block_removed (a x b : str) :
  str_in "<think>" (a ++ "<think") = false ->
  str_in "</think>" (x ++ "</think") = false ->
  think_sub (a ++ "<think>" ++ x ++ "</think>" ++ b) = a ++ think_sub b /\
  (forall s, str_in "<think>" s = false \/ str_in "</think>" s = false ->
             think_sub s = s).
Proof.
  intros Ha Hx. split; [|apply think_sub_none].
  unfold think_sub. set (rest := x ++ "</think>" ++ b).
  assert (Hclose : find "</think>" rest = Some (length x)).
  { exact (find_first "</think" 62%N x b Hx). }
  induction a as [|c a IH].
  - rewrite append_nil.
    assert (E : think_sub_from 0 ("<think>" ++ rest)
                = think_sub_from (length x + 14) ("think>" ++ rest)).
    { change ("<think>" ++ rest) with (60%N :: "think>" ++ rest).
      cbn [think_sub_from].
      change (60%N :: "think>" ++ rest) with ("<think>" ++ rest).
      assert (D : str_drop 7 ("<think>" ++ rest) = rest)
        by apply (str_drop_literal "<think>" rest).
      by rewrite prefix_app_here, D, Hclose. }
    rewrite E, think_sub_from_skip. f_equal.
    replace (length x + 14)
      with (length "think>" + (length x + (length "</think>" + 0)))
      by (simpl; lia).
    unfold rest. by rewrite !str_drop_app, str_drop_0.
  - assert (F : str_prefix "<think>" (c :: a ++ "<think>" ++ rest) = false).
    { apply (find_Some_S _ _ (length a)).
      exact (find_first "<think" 62%N (c :: a) rest Ha). }
    rewrite !append_cons in *. cbn [think_sub_from]. rewrite F.
    apply str_in_cons_false in Ha as [_ Ha]. by rewrite (IH Ha).
Qed.

Lemma think_block_removed_witness :
  str_in "<think>" ("Sure. " ++ "<think") = false /\
  str_in "</think>" ("plan: six slides" ++ "</think") = false /\
  think_sub ("Sure. " ++ "<think>" ++ "plan: six slides" ++ "</think>" ++ "{}")
  = "Sure. " ++ think_sub "{}".
Proof.
  split; [reflexivity|]. split; [reflexivity|].
  exact (proj1 (think_block_removed "Sure. " "plan: six slides" "{}"
                  eq_refl eq_refl)).
Defined.

Lemma lstrip_piece (t : str) : exists a, t = a ++ lstrip t.
Proof.
  induction t as [|c t (a & IH)]; [by exists ""|]. cbn [lstrip].
  destruct (is_space c); [|by exists ""].
  exists (c :: a). by rewrite append_cons, <- IH.
Qed.

Lemma rstrip_piece (t : str) : exists b, t = rstrip t ++ b.
Proof.
  induction t as [|c t (b & IH)]; [by exists ""|]. cbn [rstrip].
  destruct (rstrip t) as [|d r] eqn:E.
  - rewrite append_nil in IH. subst b.
    destruct (is_space c); [by exists (c :: t)|by exists t].
  - exists b. by rewrite append_cons, <- IH.
Qed.

Lemma strip_piece (t : str) : exists a b, t = a ++ strip t ++ b.
Proof.
  destruct (lstrip_piece t) as (a & Ha).
  destruct (rstrip_piece (lstrip t)) as (b & Hb).
  exists a, b. unfold strip. by rewrite <- Hb.
Qed.

Lemma str_in_strip (x t : str) :
  str_in x t = false -> str_in x (strip t) = false.
Proof.
  intros H. destruct (str_in x (strip t)) eqn:E; [|done].
  rewrite <- H. symmetry. apply (str_in_trans _ (strip t)); [done|].
  apply str_in_spec. apply strip_piece.
Qed.

Lemma lstrip_app (u : str) (c : codepoint) (v : str) :
  is_space c = false -> lstrip (u ++ c :: v) = lstrip u ++ c :: v.
Proof.
  intros H. induction u as [|d u IH].
  - rewrite !append_nil. cbn [lstrip]. by rewrite H.
  - rewrite append_cons. cbn [lstrip]. destruct (is_space d); [apply IH|].
    by rewrite append_cons.
Qed.

Lemma rstrip_app (u : str) (c : codepoint) (v : str) :
  is_space c = false -> rstrip (u ++ c :: v) = u ++ c :: rstrip v.
Proof.
  intros H. induction u as [|d u IH].
  - rewrite !append_nil. cbn [rstrip]. destruct (rstrip v); by rewrite ?H.
  - rewrite !append_cons. cbn [rstrip]. rewrite IH.
    destruct (u ++ c :: rstrip v) eqn:E; [by destruct u|done].
Qed.

Ltac str_assoc :=
  rewrite <- ?app_assoc; cbn [app]; rewrite <- ?app_assoc; cbn [app]; try done.

(** Stripping a text whose core starts and ends with a character that is
    no white space strips what is around the core. *)
Lemma strip_around (pre post m : str) (c1 c2 : codepoint) :
  is_space c1 = false -> is_space c2 = false ->
  strip (pre ++ (c1 :: m ++ [c2]) ++ post)
  = lstrip pre ++ (c1 :: m ++ [c2]) ++ rstrip post.
Proof.
  intros H1 H2. unfold strip. rewrite append_cons, lstrip_app by done.
  replace (lstrip pre ++ c1 :: (m ++ [c2]) ++ post)
    with ((lstrip pre ++ c1 :: m) ++ c2 :: post)
    by str_assoc.
  rewrite rstrip_app by done. str_assoc.
Qed.

Lemma rfind_char_None (c : codepoint) (v : str) :
  str_in [c] v = false -> rfind_char c v = None.
Proof.
  induction v as [|d v IH]; [done|]. intros [P H]%str_in_cons_false.
  cbn [rfind_char]. rewrite (IH H). cbn [str_prefix] in P.
  destruct (N.eqb_spec d c) as [->|]; [|done].
  rewrite N.eqb_refl in P. by destruct v.
Qed.

Lemma rfind_char_last (c : codepoint) (u v : str) :
  rfind_char c v = None -> rfind_char c (u ++ c :: v) = Some (length u).
Proof.
  intros H. induction u as [|d u IH].
  - rewrite append_nil. cbn [rfind_char]. by rewrite H, N.eqb_refl.
  - rewrite append_cons. cbn [rfind_char length]. by rewrite IH.
Qed.

Lemma prefix_json_body (body rest : str) :
  str_prefix "json" body = false ->
  str_prefix "json" (body ++ "```" ++ rest) = false.
Proof.
  intros H. destruct (str_prefix "json" (body ++ "```" ++ rest)) eqn:E;
    [|done].
  destruct (le_lt_dec 4 (length body)) as [L|L].
  - by rewrite (prefix_app_short _ _ _ E L) in H.
  - destruct body as [|b0 [|b1 [|b2 [|b3 body]]]]; simpl in L; try lia;
      cbn [str_prefix app] in E;
      repeat (let E1 := fresh in
              apply andb_prop in E as [E1 E];
              try (vm_compute in E1; discriminate E1)).
Qed.

(** The first fenced block of a text, with or without the "json" tag. *)
Lemma fence_block (pre tag body post : str) :
  tag = "" /\ str_prefix "json" body = false \/ tag = "json" ->
  str_in "```" (pre ++ "``") = false ->
  str_in "```" (body ++ "``") = false ->
  fence (pre ++ "```" ++ tag ++ body ++ "```" ++ post) = Some (strip body).
Proof.
  intros Ht Hp Hb. unfold fence.
  set (rest := tag ++ body ++ "```" ++ post).
  assert (F1 : find "```" (pre ++ "```" ++ rest) = Some (length pre))
    by exact (find_first "``" 96%N pre rest Hp).
  assert (F2 : find "```" (body ++ "```" ++ post) = Some (length body))
    by exact (find_first "``" 96%N body post Hb).
  rewrite F1.
  assert (D : str_drop (length pre + 3) (pre ++ "```" ++ rest) = rest).
  { rewrite str_drop_app. apply (str_drop_literal "```" rest). }
  cbv zeta. rewrite D.
  assert (A : (if str_prefix "json" rest then str_drop 4 rest else rest)
              = body ++ "```" ++ post).
  { unfold rest. destruct Ht as [[-> Hj]| ->].
    - rewrite append_nil. by rewrite prefix_json_body.
    - rewrite prefix_app_here. apply (str_drop_literal "json"). }
  rewrite A, F2. by rewrite str_take_app_exact.
Qed.

Lemma think_sub_strip (text : str) :
  str_in "<think>" text = false -> think_sub (strip text) = strip text.
Proof. intros H. apply think_sub_none. left. by apply str_in_strip. Qed.

(** X23.  A reply that holds a fenced block is parsed from the block alone:
    for a text without "<think>" whose first fence opens a block, with or
    without the "json" tag, that the next fence closes, [json.loads] gets the
    stripped content of the block when that starts with a brace, whatever
    stands before and behind the block. *)
Theorem fenced_block_parsed (pre tag body post : str) :
  tag = "" /\ str_prefix "json" body = false \/ tag = "json" ->
  str_in "<think>" (pre ++ "```" ++ tag ++ body ++ "```" ++ post) = false ->
  str_in "```" (pre ++ "``") = false ->
  str_in "```" (body ++ "``") = false ->
  str_prefix "{" (strip body) = true ->
  json_candidate (pre ++ "```" ++ tag ++ body ++ "```" ++ post) = strip body.
Proof.
  intros Ht Hk Hp Hb Ho. unfold json_candidate. cbv zeta.
  rewrite (think_sub_strip _ Hk).
  assert (Hs : strip (pre ++ "```" ++ tag ++ body ++ "```" ++ post)
               = lstrip pre ++ "```" ++ tag ++ body ++ "```" ++ rstrip post).
  { pose proof (strip_around pre post ("``" ++ tag ++ body ++ "``")
                  96%N 96%N eq_refl eq_refl) as E.
    replace ((96%N :: ("``" ++ tag ++ body ++ "``") ++ [96%N]))
      with ("```" ++ tag ++ body ++ "```") in E
      by str_assoc.
    replace (pre ++ "```" ++ tag ++ body ++ "```" ++ post)
      with (pre ++ ("```" ++ tag ++ body ++ "```") ++ post) by str_assoc.
    rewrite E. str_assoc. }
  rewrite Hs, fence_block, Ho; try done.
  destruct (lstrip_piece pre) as (a & Ea).
  apply (str_in_piece _ _ _ a "" Hp). rewrite append_nil_r.
  by rewrite Ea at 1; rewrite append_assoc.
Qed.

Lemma fenced_block_parsed_witness :
  json_candidate
    ("Here is the plan:" ++ "```" ++ "json" ++ " {} " ++ "```" ++ " Enjoy!")
  = strip " {} ".
Proof.
  apply (fenced_block_parsed "Here is the plan:" "json" " {} " " Enjoy!");
    [by right|reflexivity..].
Defined.

Lemma strip_object (mid : str) :
  strip ("{" ++ mid ++ "}") = "{" ++ mid ++ "}".
Proof.
  pose proof (strip_around "" "" mid 123%N 125%N eq_refl eq_refl) as E.
  by rewrite append_nil, !append_nil_r in E.
Qed.

(** X24.  A reply without think block and fence: one that starts with a
    brace, white space apart, goes to [json.loads] stripped but otherwise
    whole, text behind the object included; one with other text before its
    first opening brace is cut down to the span from that brace to the last
    closing brace. *)
Theorem bare_object_parsed (text : str) :
  str_in "<think>" text = false -> str_in "```" text = false ->
  (str_prefix "{" (strip text) = true -> json_candidate text = strip text) /\
  (forall a mid c,
     text = a ++ "{" ++ mid ++ "}" ++ c ->
     lstrip a <> "" -> str_in "{" a = false -> str_in "}" c = false ->
     json_candidate text = "{" ++ mid ++ "}").
Proof.
  intros Hk Hf. unfold json_candidate. cbv zeta.
  rewrite (think_sub_strip _ Hk).
  assert (F : fence (strip text) = None).
  { unfold fence. by rewrite (proj2 (find_None _ _) (str_in_strip _ _ Hf)). }
  rewrite F. split; [by intros ->|].
  intros a mid c -> Ha Hb Hc.
  assert (Hs : strip (a ++ "{" ++ mid ++ "}" ++ c)
              = lstrip a ++ "{" ++ mid ++ "}" ++ rstrip c).
  { pose proof (strip_around a c mid 123%N 125%N eq_refl eq_refl) as E.
    replace (123%N :: mid ++ [125%N]) with ("{" ++ mid ++ "}") in E by done.
    replace (a ++ "{" ++ mid ++ "}" ++ c)
      with (a ++ ("{" ++ mid ++ "}") ++ c) by str_assoc.
    rewrite E. str_assoc. }
  rewrite Hs. set (a' := lstrip a) in *. set (c' := rstrip c).
  assert (Hb' : str_in "{" a' = false).
  { destruct (lstrip_piece a) as (p & Ep).
    apply (str_in_piece _ _ _ p "" Hb). by rewrite append_nil_r. }
  assert (Hc' : str_in "}" c' = false).
  { destruct (rstrip_piece c) as (q & Eq).
    by apply (str_in_piece _ _ _ "" q Hc). }
  assert (I : find "{" (a' ++ "{" ++ mid ++ "}" ++ c') = Some (length a')).
  { apply (find_first "" 123%N a'). by rewrite append_nil, append_nil_r. }
  assert (P : str_prefix "{" (a' ++ "{" ++ mid ++ "}" ++ c') = false).
  { destruct a' as [|d r]; [done|]. by apply find_Some_S in I. }
  assert (J : rfind_char rbrace (a' ++ "{" ++ mid ++ "}" ++ c')
              = Some (length (a' ++ "{" ++ mid))).
  { rewrite <- (rfind_char_last rbrace (a' ++ "{" ++ mid) c')
      by by apply rfind_char_None.
    by rewrite <- !app_assoc. }
  rewrite P. unfold braces. rewrite I, J, !length_append.
  replace (length a' <? length a' + (length "{" + length mid))
    with true by (symmetry; apply Nat.ltb_lt; simpl; lia).
  rewrite (str_drop_literal a').
  replace (S (length a' + (length "{" + length mid)) - length a')
    with (length ("{" ++ mid ++ "}"))
    by (rewrite !length_append; simpl; lia).
  rewrite !app_assoc, str_take_app_exact, <- !app_assoc.
  apply strip_object.
Qed.

Lemma bare_object_parsed_witness :
  json_candidate ("Plan: " ++ "{" ++ "x" ++ "}" ++ " bye") = "{" ++ "x" ++ "}".
Proof.
  apply (proj2 (bare_object_parsed
                  ("Plan: " ++ "{" ++ "x" ++ "}" ++ " bye")
                  eq_refl eq_refl) "Plan: " "x" " bye");
    [reflexivity|discriminate|reflexivity..].
Defined.

(** White space is Unicode white space: a model name between no-break
    spaces is the model itself, and is left out of its fallbacks. *)
Lemma fallback_models_no_break_space {R : Runtime} :
  _fallback_models (Some "openai") (Some ([160%N] ++ "gpt-4o" ++ [160%N]))
  = ["gpt-4o-mini"; "gpt-3.5-turbo"].
Proof. by vm_compute. Qed.

(** A no-break space behind the object is stripped like any white space, and
    a form field made of one is empty. *)
Lemma json_candidate_no_break_space :
  json_candidate ("{}" ++ [160%N]) = "{}" /\
  app.form_get (Some [160%N]) "x" = "".
Proof. by vm_compute. Qed.

(** ** The text of an entry on the slide as written *)




Lemma title_target_shape (slide : Slide) (i : nat) :
  title_target slide = Some i -> is_Some (shapes slide !! i).
Proof.
  unfold title_target, shapes_title, _first_placeholder.
  destruct (first_index _ (shapes slide) 0) as [k|] eqn:E.
  - intros [= <-]. apply first_index_holds in E as (x & -> & _). by eexists.
  - intros H. apply first_index_holds in H as (x & -> & _). by eexists.
Qed.








Lemma body_place_title_place (slide : Slide) :
  body_target slide = None -> body_place slide <> title_place slide.
Proof.
  unfold body_place, title_place. intros ->.
  destruct (title_target slide) as [i|] eqn:Et; cbn [default from_option id]; [|lia].
  destruct (title_target_shape _ _ Et) as [shp Hs].
  apply lookup_lt_Some in Hs. lia.
Qed.


(** On a new slide every shape has a text frame that can be read. *)
Lemma new_slide_writable (prs : Presentation) (layout : Layout) (slide : Slide)
  (i : nat) :
  new_slide prs layout = Ok slide -> writable slide i.
Proof.
  intros (_ & _ & H)%new_slide_clones shp Hs.
  rewrite Forall_forall in H.
  destruct (H shp (list_elem_of_lookup_2 _ _ _ Hs)) as (k & t & -> & _).
  by exists fresh_frame.
Qed.

(** ** Missing and [None] fields of an entry *)










(** A plan of entries without title, bullets and notes on the office
    template: two slides, each with one empty run for its title and
    nothing else, and the notes as the template gives them. *)
Lemma bare_entries_build {R : Runtime} :
  exists out,
    build_presentation (fun _ => 0) (Package office_template)
                       [bare intro_entry; bare end_entry] = Ok out /\
    map slide_texts (slides out) = [[""]; [""]] /\
    map notes_slide (slides out) = [NotesFrame ""; NotesFrame ""].
Proof. eexists. split; [reflexivity|]. by vm_compute. Qed.

(** ** What an entry leaves on its slide *)



(** ** What fails the build and what does not *)








(** A template without a notes master and with a picture the backend
    cannot decode still builds: the slide has its title and bullets, no
    notes and no image. *)
Lemma hostile_template_builds {R : Runtime} (rng : nat -> nat) :
  exists out slide,
    build_presentation rng (Package hostile_template) [noted_entry] = Ok out /\
    slides out = [slide] /\
    slide_texts slide = ["Intro"; "a"; "b"] /\
    notes_slide slide = NotesRaises /\
    slide_images slide = [].
Proof. eexists _, _. split; [by vm_compute|]. by vm_compute. Qed.

(** ** Where the text of an entry is lost *)

(** C3 fails on the code.  On a layout that pairs the title with a picture
    placeholder the bullets have no body placeholder to go to and are
    written into the picture placeholder, the first placeholder that is no
    title and has a text frame; the image placed on the slide afterwards
    replaces that placeholder, and the bullets with it.  The entry has two
    bullets and the slide none. *)
Theorem bullets_lost_under_picture {R : Runtime} (rng : nat -> nat) :
  exists out slide,
    generate rng (Package picture_layout_template) false [intro_entry] = Ok out /\
    slides out = [slide] /\
    bullets_of intro_entry = ["a"; "b"] /\
    shapes slide = [_set_text (cloned 0 TITLE box0) "Intro";
                    filled (cloned 13 PICTURE box0) png1] /\
    slide_texts slide = ["Intro"] /\
    slide_images slide = [png1] /\
    forall i, i <> 0 -> written_at slide i = [].
Proof.
  eexists _, _. split; [by vm_compute|]. split; [by vm_compute|].
  repeat split; try by vm_compute.
  intros [|[|[|i]]] Hi; by vm_compute.
Qed.

(** The same on a layout whose first placeholder has index 0 and a content
    type: the title and the bullets go to the one shape, and the bullets,
    written second, replace the title. *)
Lemma title_lost_under_bullets {R : Runtime} (rng : nat -> nat) :
  exists out slide,
    generate rng (Package content_first_template) false [intro_entry] = Ok out /\
    slides out = [slide] /\
    title_text intro_entry = "Intro" /\
    slide_texts slide = ["a"; "b"].
Proof. eexists _, _. split; [by vm_compute|]. by vm_compute. Qed.
